(** * Tiingo REST client: a shallow embedding and its properties

    The development follows [tiingo_rest_client.py]: the class constants,
    the three private helpers ([_is_valid_date], [_validate_cols],
    [_build_pre_query]) and the public operations ([__init__],
    [get_stock_metadata], [get_stock_hist], [get_stock_last]).

    Python strings are modelled as byte strings ([string]), the headers
    dictionary as a [gmap string string], printing and network requests as
    an explicit world threaded through a small state-and-exception monad.
    The libraries the client calls ([re], [datetime], [requests], [pandas])
    are not part of the repository: [re] is modelled from its documented
    behaviour, [datetime.date.fromisoformat] as CPython 3.11 implements
    it, the decoders and table operations of [requests] and [pandas] are
    taken as an interface. *)

From Stdlib Require Import Ascii String List Arith Bool Lia.
From Stdlib Require Import NArith ZArith ZifyNat ZifyN.
From stdpp Require Import base option list gmap strings.

Import ListNotations.
Set Warnings "-abstract-large-number".
Local Open Scope string_scope.
Local Open Scope list_scope.
Local Open Scope nat_scope.

(** ** Characters and strings *)

Module Str.

(** The double quote, newline and tab characters of the messages. *)
Definition dquote : string := String (ascii_of_nat 34) EmptyString.
Definition newline : string := String (ascii_of_nat 10) EmptyString.
Definition tab : string := String (ascii_of_nat 9) EmptyString.

(** [c] is one of the ASCII digits [0] .. [9]. *)
Definition is_digit (c : ascii) : bool :=
  (48 <=? nat_of_ascii c) && (nat_of_ascii c <=? 57).

(** Value of a digit character, as [c - '0'] computes it. *)
Definition digit_value (c : ascii) : nat := nat_of_ascii c - 48.

(** [sep.join(parts)]. *)
Fixpoint join (sep : string) (parts : list string) : string :=
  match parts with
  | [] => ""
  | [p] => p
  | p :: ps => p +:+ sep +:+ join sep ps
  end.

(** [s.startswith(p)], by structural recursion on the pattern. *)
Fixpoint starts_with (p s : string) : bool :=
  match p, s with
  | EmptyString, _ => true
  | String _ _, EmptyString => false
  | String a p', String b s' => Ascii.eqb a b && starts_with p' s'
  end.

(** [s.replace(old, new)] for a non-empty [old]: a left-to-right scan
    that substitutes each non-overlapping occurrence of [old]; the text
    that was substituted in is not scanned again. [skip] counts the
    characters of a matched occurrence that remain to be passed. *)
Fixpoint replace_from (old new : string) (skip : nat) (s : string) : string :=
  match s with
  | EmptyString => EmptyString
  | String c s' =>
      match skip with
      | S k => replace_from old new k s'
      | O =>
          if starts_with old s
          then new +:+ replace_from old new (String.length old - 1) s'
          else String c (replace_from old new 0 s')
      end
  end.

Definition replace (old new s : string) : string := replace_from old new 0 s.

(** [c.upper()] on an ASCII letter; other bytes are left as they are. *)
Definition upper_ascii (c : ascii) : ascii :=
  let n := nat_of_ascii c in
  if (97 <=? n) && (n <=? 122) then ascii_of_nat (n - 32) else c.

Fixpoint upper (s : string) : string :=
  match s with
  | EmptyString => EmptyString
  | String c s' => String (upper_ascii c) (upper s')
  end.

(** [c] occurs in [s]. *)
Fixpoint mem (c : ascii) (s : string) : bool :=
  match s with
  | EmptyString => false
  | String d s' => Ascii.eqb c d || mem c s'
  end.

(** Every character of [s] satisfies [p]. *)
Fixpoint all (p : ascii -> bool) (s : string) : bool :=
  match s with
  | EmptyString => true
  | String c s' => p c && all p s'
  end.

End Str.

(** ** [datetime.date.fromisoformat]

    The standard library function behind [_is_valid_date], as CPython
    3.11 implements it. The string must have seven, eight or ten bytes.
    After four digits of year and an optional dash comes either [W], two
    digits of ISO week and, if the string goes on, the dash again when
    there was one and one digit of weekday; or two digits of month, the
    dash again when there was one, and two digits of day. The parser
    reads no further: bytes after an eight-byte date without dashes are
    not looked at. The numbers then pass the range check of the [date]
    constructor, or the conversion from the ISO calendar.

    A [date] is kept as its proleptic Gregorian ordinal
    ([date.toordinal()]): 0001-01-01 is day 1. *)

Module Date.

Definition MINYEAR : nat := 1.
Definition MAXYEAR : nat := 9999.

Definition date : Type := N.

(** [date.max.toordinal()] *)
Definition MAXORDINAL : N := 3652059.

Definition is_leap (y : nat) : bool :=
  (y mod 4 =? 0) && (negb (y mod 100 =? 0) || (y mod 400 =? 0)).

Definition days_in_month (y m : nat) : nat :=
  match m with
  | 1 => 31 | 2 => if is_leap y then 29 else 28 | 3 => 31 | 4 => 30
  | 5 => 31 | 6 => 30 | 7 => 31 | 8 => 31 | 9 => 30 | 10 => 31
  | 11 => 30 | 12 => 31
  | _ => 0
  end.

(** The days before 1 January of the year [y]. *)
Definition days_before_year (y : nat) : N :=
  let y' := N.of_nat (y - 1) in
  (y' * 365 + y' / 4 - y' / 100 + y' / 400)%N.

Definition DAYS_BEFORE_MONTH (m : nat) : N :=
  match m with
  | 2 => 31%N | 3 => 59%N | 4 => 90%N | 5 => 120%N | 6 => 151%N
  | 7 => 181%N | 8 => 212%N | 9 => 243%N | 10 => 273%N | 11 => 304%N
  | 12 => 334%N
  | _ => 0%N
  end.

(** The days of the year [y] before the first day of the month [m]. *)
Definition days_before_month (y m : nat) : N :=
  let leap_day : N := if (2 <? m) && is_leap y then 1%N else 0%N in
  (DAYS_BEFORE_MONTH m + leap_day)%N.

Definition ymd2ord (y m d : nat) : N :=
  (days_before_year y + days_before_month y m + N.of_nat d)%N.

(** The range check of the [date] constructor. *)
Definition check_date_args (y m d : nat) : bool :=
  (MINYEAR <=? y) && (y <=? MAXYEAR) &&
  (1 <=? m) && (m <=? 12) &&
  (1 <=? d) && (d <=? days_in_month y m).

(** [date(y, m, d)]; [None] stands for the raised [ValueError]. *)
Definition new_date (y m d : nat) : option date :=
  if check_date_args y m d then Some (ymd2ord y m d) else None.

(** The ordinal of the Monday that starts ISO week 1 of the year [y]. *)
Definition isoweek1monday (y : nat) : N :=
  let firstday := ymd2ord y 1 1 in
  let firstweekday := ((firstday + 6) mod 7)%N in
  let week1monday := (firstday - firstweekday)%N in
  if (3 <? firstweekday)%N then (week1monday + 7)%N else week1monday.

(** An ISO year has a week 53 when it starts on a Thursday, or on a
    Wednesday and is a leap year. *)
Definition has_week_53 (y : nat) : bool :=
  let first_weekday := (ymd2ord y 1 1 mod 7)%N in
  (first_weekday =? 4)%N || ((first_weekday =? 3)%N && is_leap y).

(** The day [d] of the ISO week [w] of the ISO year [y], when the three
    numbers are in range and the day is one that a [date] holds. *)
Definition iso_to_ymd (y w d : nat) : option date :=
  if negb ((MINYEAR <=? y) && (y <=? MAXYEAR)) then None
  else if negb ((0 <? w) && (w <? 53)) && negb ((w =? 53) && has_week_53 y)
  then None
  else if negb ((0 <? d) && (d <? 8)) then None
  else
    let ord := (isoweek1monday y + N.of_nat ((w - 1) * 7 + (d - 1)))%N in
    if (ord <=? MAXORDINAL)%N then Some ord else None.

(** Reads [n] digits off the front of [s], accumulating onto [acc];
    fails on a character that is not a digit or on a short string. *)
Fixpoint parse_digits (n : nat) (acc : nat) (s : string)
  : option (nat * string) :=
  match n with
  | O => Some (acc, s)
  | S n' =>
      match s with
      | String c s' =>
          if Str.is_digit c
          then parse_digits n' (acc * 10 + Str.digit_value c) s'
          else None
      | EmptyString => None
      end
  end.

(** Consumes one dash. *)
Definition parse_dash (s : string) : option string :=
  match s with
  | String c s' => if Ascii.eqb c "-" then Some s' else None
  | EmptyString => None
  end.

(** The character under the cursor is [c]. *)
Definition next_is (c : ascii) (s : string) : bool :=
  match s with
  | String c' _ => Ascii.eqb c' c
  | EmptyString => false
  end.

(** Moves the cursor by one character. *)
Definition advance (s : string) : string :=
  match s with
  | String _ s' => s'
  | EmptyString => EmptyString
  end.

(** What the parser read: a calendar date or a week date. *)
Inductive fields : Type :=
| Calendar (y m d : nat)
| Week (y w d : nat).

Definition parse_isoformat_date (s : string) : option fields :=
  match parse_digits 4 0 s with
  | None => None
  | Some (y, s1) =>
      let uses_separator := next_is "-" s1 in
      let s2 := if uses_separator then advance s1 else s1 in
      if next_is "W" s2 then
        match parse_digits 2 0 (advance s2) with
        | None => None
        | Some (w, s3) =>
            match s3 with
            | EmptyString => Some (Week y w 1)
            | String _ _ =>
                match (if uses_separator then parse_dash s3 else Some s3) with
                | None => None
                | Some s4 =>
                    match parse_digits 1 0 s4 with
                    | None => None
                    | Some (d, _) => Some (Week y w d)
                    end
                end
            end
        end
      else
        match parse_digits 2 0 s2 with
        | None => None
        | Some (m, s3) =>
            match (if uses_separator then parse_dash s3 else Some s3) with
            | None => None
            | Some s4 =>
                match parse_digits 2 0 s4 with
                | None => None
                | Some (d, _) => Some (Calendar y m d)
                end
            end
        end
  end.

(** [date.fromisoformat(s)]; [None] stands for the raised [ValueError]. *)
Definition fromisoformat (s : string) : option date :=
  let len := String.length s in
  if (len =? 7) || (len =? 8) || (len =? 10) then
    match parse_isoformat_date s with
    | Some (Calendar y m d) => new_date y m d
    | Some (Week y w d) => iso_to_ymd y w d
    | None => None
    end
  else None.

(** *** Dates as the specification speaks of them *)

(** Leap years of the Gregorian calendar. *)
Definition leap_year (y : nat) : Prop :=
  (y mod 4 = 0 /\ y mod 100 <> 0) \/ y mod 400 = 0.

(** The day [d] of the month [m] of the year [y] exists in the
    calendar. *)
Definition calendar_day (y m d : nat) : Prop :=
  1 <= d /\
  ((In m [1; 3; 5; 7; 8; 10; 12] /\ d <= 31) \/
   (In m [4; 6; 9; 11] /\ d <= 30) \/
   (m = 2 /\ (d <= 28 \/ (d = 29 /\ leap_year y)))).

(** The number that a string of digits denotes. *)
Definition number (digits : list ascii) : nat :=
  fold_left (fun acc c => acc * 10 + Str.digit_value c) digits 0.

(** What the specification calls an ISO-8601 calendar date of the form
    YYYY-MM-DD: four digits, a dash, two digits, a dash, two digits,
    naming a day that exists in the calendar. ISO 8601 counts the years
    from 0000 to 9999. *)
Definition iso_calendar_date (s : string) : Prop :=
  exists y1 y2 y3 y4 m1 m2 d1 d2 : ascii,
    s = String y1 (String y2 (String y3 (String y4 (String "-"
          (String m1 (String m2 (String "-"
          (String d1 (String d2 EmptyString))))))))) /\
    forallb Str.is_digit [y1; y2; y3; y4; m1; m2; d1; d2] = true /\
    calendar_day (number [y1; y2; y3; y4]) (number [m1; m2])
      (number [d1; d2]).

(** The day of the week of 31 December of the year [y]: 0 is Sunday, 4
    is Thursday. *)
Definition dec31_weekday (y : nat) : nat :=
  (y + y / 4 - y / 100 + y / 400) mod 7.

(** The ISO years of 53 weeks: 31 December is a Thursday, or 1 January
    is (31 December of the year before is a Wednesday). *)
Definition long_year (y : nat) : Prop :=
  dec31_weekday y = 4 \/ dec31_weekday (y - 1) = 3.

(** The day [d] of the week [w] exists in the ISO year [y]. *)
Definition week_day (y w d : nat) : Prop :=
  1 <= w /\ (w <= 52 \/ (w = 53 /\ long_year y)) /\ 1 <= d <= 7.

(** A day of an ISO week that a [date] holds: from the year 0001 on, and
    not the last two days of week 52 of the year 9999, which are the
    first two days of the year 10000. *)
Definition held_week_day (y w d : nat) : Prop :=
  MINYEAR <= y /\ ~ (y = MAXYEAR /\ w = 52 /\ 6 <= d).

(** What may follow a date that the parser has read in full: nothing, or
    the two bytes that fill a ten-byte string. *)
Definition unread (rest : string) : Prop :=
  rest = "" \/ String.length rest = 2.

(** The strings that name a day for [date.fromisoformat]: a calendar date
    YYYY-MM-DD or YYYYMMDD, or a week date YYYY-Www, YYYYWww, YYYY-Www-D
    or YYYYWwwD, of the years 0001 to 9999. *)
Inductive date_string : string -> Prop :=
| extended_calendar (y1 y2 y3 y4 m1 m2 d1 d2 : ascii) :
    forallb Str.is_digit [y1; y2; y3; y4; m1; m2; d1; d2] = true ->
    MINYEAR <= number [y1; y2; y3; y4] ->
    calendar_day (number [y1; y2; y3; y4]) (number [m1; m2])
      (number [d1; d2]) ->
    date_string
      (string_of_list_ascii [y1; y2; y3; y4; "-"; m1; m2; "-"; d1; d2]%char)
| basic_calendar (y1 y2 y3 y4 m1 m2 d1 d2 : ascii) (rest : string) :
    forallb Str.is_digit [y1; y2; y3; y4; m1; m2; d1; d2] = true ->
    MINYEAR <= number [y1; y2; y3; y4] ->
    calendar_day (number [y1; y2; y3; y4]) (number [m1; m2])
      (number [d1; d2]) ->
    unread rest ->
    date_string
      (string_of_list_ascii [y1; y2; y3; y4; m1; m2; d1; d2] +:+ rest)
| extended_week (y1 y2 y3 y4 w1 w2 : ascii) :
    forallb Str.is_digit [y1; y2; y3; y4; w1; w2] = true ->
    week_day (number [y1; y2; y3; y4]) (number [w1; w2]) 1 ->
    held_week_day (number [y1; y2; y3; y4]) (number [w1; w2]) 1 ->
    date_string
      (string_of_list_ascii [y1; y2; y3; y4; "-"; "W"; w1; w2]%char)
| basic_week (y1 y2 y3 y4 w1 w2 : ascii) :
    forallb Str.is_digit [y1; y2; y3; y4; w1; w2] = true ->
    week_day (number [y1; y2; y3; y4]) (number [w1; w2]) 1 ->
    held_week_day (number [y1; y2; y3; y4]) (number [w1; w2]) 1 ->
    date_string (string_of_list_ascii [y1; y2; y3; y4; "W"; w1; w2]%char)
| extended_week_day (y1 y2 y3 y4 w1 w2 d : ascii) :
    forallb Str.is_digit [y1; y2; y3; y4; w1; w2; d] = true ->
    week_day (number [y1; y2; y3; y4]) (number [w1; w2]) (number [d]) ->
    held_week_day (number [y1; y2; y3; y4]) (number [w1; w2]) (number [d]) ->
    date_string
      (string_of_list_ascii [y1; y2; y3; y4; "-"; "W"; w1; w2; "-"; d]%char)
| basic_week_day (y1 y2 y3 y4 w1 w2 d : ascii) (rest : string) :
    forallb Str.is_digit [y1; y2; y3; y4; w1; w2; d] = true ->
    week_day (number [y1; y2; y3; y4]) (number [w1; w2]) (number [d]) ->
    held_week_day (number [y1; y2; y3; y4]) (number [w1; w2]) (number [d]) ->
    unread rest ->
    date_string
      (string_of_list_ascii [y1; y2; y3; y4; "W"; w1; w2; d]%char +:+ rest).

(** The characters of a date that the parser reads. *)
Definition date_char (c : ascii) : bool :=
  Str.is_digit c || Ascii.eqb c "-" || Ascii.eqb c "W".

End Date.

(** ** The helper [_is_valid_date] *)

Definition _is_valid_date (str_date : string) : bool :=
  if String.eqb str_date "" then true
  else
    match Date.fromisoformat str_date with
    | Some _ => true
    | None => false
    end.

(** ** Regular expressions: the fragment of [re] the client uses

    The resample pattern is [\A^[0-9]+(min|hour)\Z]. [\A] and [^] anchor
    the match at the start of the string, where [re.match] starts anyway;
    [\Z] anchors it at the very end of the string. [re.match] with this
    pattern therefore succeeds exactly when the whole string belongs to
    the language of the unanchored expression, which is decided here by
    Brzozowski derivatives. *)

Module Re.

Inductive regex : Type :=
| Void : regex
| Eps : regex
| Chr : ascii -> regex
| Range : ascii -> ascii -> regex
| Seq : regex -> regex -> regex
| Alt : regex -> regex -> regex
| Star : regex -> regex.

(** [r+] *)
Definition Plus (r : regex) : regex := Seq r (Star r).

(** A literal word. *)
Fixpoint Word (w : string) : regex :=
  match w with
  | EmptyString => Eps
  | String c w' => Seq (Chr c) (Word w')
  end.

Definition in_range (lo hi c : ascii) : bool :=
  (nat_of_ascii lo <=? nat_of_ascii c) && (nat_of_ascii c <=? nat_of_ascii hi).

Fixpoint nullable (r : regex) : bool :=
  match r with
  | Void => false
  | Eps => true
  | Chr _ => false
  | Range _ _ => false
  | Seq r1 r2 => nullable r1 && nullable r2
  | Alt r1 r2 => nullable r1 || nullable r2
  | Star _ => true
  end.

Fixpoint deriv (c : ascii) (r : regex) : regex :=
  match r with
  | Void => Void
  | Eps => Void
  | Chr d => if Ascii.eqb c d then Eps else Void
  | Range lo hi => if in_range lo hi c then Eps else Void
  | Seq r1 r2 =>
      if nullable r1
      then Alt (Seq (deriv c r1) r2) (deriv c r2)
      else Seq (deriv c r1) r2
  | Alt r1 r2 => Alt (deriv c r1) (deriv c r2)
  | Star r1 => Seq (deriv c r1) (Star r1)
  end.

(** The whole of [s] matches [r]. *)
Fixpoint fullmatch (r : regex) (s : string) : bool :=
  match s with
  | EmptyString => nullable r
  | String c s' => fullmatch (deriv c r) s'
  end.

(** The language of an expression, as the usual inductive relation. *)
Inductive lang : regex -> string -> Prop :=
| lang_eps : lang Eps EmptyString
| lang_chr c : lang (Chr c) (String c EmptyString)
| lang_range lo hi c :
    in_range lo hi c = true -> lang (Range lo hi) (String c EmptyString)
| lang_seq r1 r2 s1 s2 :
    lang r1 s1 -> lang r2 s2 -> lang (Seq r1 r2) (s1 +:+ s2)
| lang_alt_l r1 r2 s : lang r1 s -> lang (Alt r1 r2) s
| lang_alt_r r1 r2 s : lang r2 s -> lang (Alt r1 r2) s
| lang_star_nil r : lang (Star r) EmptyString
| lang_star_cons r s1 s2 :
    lang r s1 -> lang (Star r) s2 -> lang (Star r) (s1 +:+ s2).

End Re.

(** ** Class constants of [TiingoRESTClient] *)

Definition _tii_eod : string := "https://api.tiingo.com/tiingo/daily/".
Definition _tii_iex : string := "https://api.tiingo.com/iex/".

Definition _tii_eod_cols : list string :=
  [ "open"; "high"; "low"; "close"; "volume"; "adjOpen"; "adjHigh";
    "adjLow"; "adjClose"; "adjVolume"; "divCash"; "splitFactor" ].

Definition _tii_iex_hist_cols : list string :=
  [ "open"; "high"; "low"; "close"; "volume" ].

Definition _tii_iex_last_cols : list string :=
  [ "timestamp"; "quoteTimestamp"; "lastSaleTimestamp"; "last"; "lastSize";
    "tngoLast"; "prevClose"; "open"; "high"; "low"; "mid"; "volume";
    "bidSize"; "bidPrice"; "askSize"; "askPrice" ].

Definition _tii_resample_freqs : list string :=
  [ "daily"; "weekly"; "monthly"; "annually" ].

(** [str(_tii_resample_freqs)], as the f-string of the error message
    renders the tuple. *)
Definition _tii_resample_freqs_str : string :=
  "('daily', 'weekly', 'monthly', 'annually')".

Definition _tii_resample_pattern : Re.regex :=
  Re.Seq (Re.Plus (Re.Range "0" "9")) (Re.Alt (Re.Word "min") (Re.Word "hour")).

(** [re.match(pattern, s)] for a pattern closed by [\Z], as a boolean. *)
Definition re_match (pattern : Re.regex) (s : string) : bool :=
  Re.fullmatch pattern s.

(** [x in t] for a tuple or list of strings. *)
Definition py_in (x : string) (t : list string) : bool :=
  existsb (String.eqb x) t.

(** What the specification calls an intraday token: one or more digits
    followed by [min] or by [hour], and nothing else. *)
Definition intraday_token (s : string) : Prop :=
  exists ds : string,
    ds <> "" /\ Str.all Str.is_digit ds = true /\
    (s = ds +:+ "min" \/ s = ds +:+ "hour").

(** ** Values, exceptions and the world *)

(** A decoded JSON document, as [Response.json()] returns it: [dict],
    [list], [str], number (kept as its text), [bool] or [None]. *)
#[warnings="-register-all"]
Inductive JSON : Type :=
| JNull : JSON
| JBool : bool -> JSON
| JNum : string -> JSON
| JStr : string -> JSON
| JArr : list JSON -> JSON
| JObj : gmap string JSON -> JSON.

(** The exceptions that leave the client. [TiingoError] is the class of
    the file; the others are raised by the interpreter or by a library
    and are never caught by the client. *)
Inductive exn : Type :=
| TiingoError (msg : string)
| KeyError (key : string)
| TypeError
| ValueError (origin : string)
| JSONDecodeError
| IndexError.

(** A GET request as it leaves the process. *)
Record Request : Type := mkRequest {
  url : string;
  headers : gmap string string
}.

(** The instance attribute of the client, the requests sent so far (most
    recent last) and the lines printed so far (most recent last). *)
Record World : Type := mkWorld {
  _tii_headers : gmap string string;
  sent : list Request;
  printed : list string
}.

(** Computations that read and change the world and either return a
    value or raise. *)
Definition M (A : Type) : Type := World -> World * (exn + A).

Definition ret {A} (a : A) : M A := fun w => (w, inr a).

Definition raise {A} (e : exn) : M A := fun w => (w, inl e).

Definition bind {A B} (m : M A) (k : A -> M B) : M B :=
  fun w =>
    match m w with
    | (w', inl e) => (w', inl e)
    | (w', inr a) => k a w'
    end.

Notation "x <- m ;; k" := (bind m (fun x => k))
  (at level 100, m at level 99, k at level 200, right associativity,
   format "'[v' x  <-  m  ;; '/' k ']'").
Notation "m ;;; k" := (bind m (fun _ => k))
  (at level 100, k at level 200, right associativity,
   format "'[v' m  ;;; '/' k ']'").

(** [print(msg)] *)
Definition print (msg : string) : M unit :=
  fun w => (mkWorld (_tii_headers w) (sent w) (printed w ++ [msg]), inr tt).

(** [self._tii_headers] *)
Definition get_tii_headers : M (gmap string string) :=
  fun w => (w, inr (_tii_headers w)).

(** [self._tii_headers = h] *)
Definition set_tii_headers (h : gmap string string) : M unit :=
  fun w => (mkWorld h (sent w) (printed w), inr tt).

(** A library call that raises [e] when it fails. *)
Definition or_raise {A} (e : exn) (o : option A) : M A :=
  match o with
  | Some a => ret a
  | None => raise e
  end.

(** ** The libraries and the provider

    What the client needs from [requests], [pandas] and the interpreter,
    as an interface. A result of [None] stands for a raised exception. *)

Class Libraries : Type := {
  (** headers that [requests] adds to every request of its own *)
  default_headers : gmap string string;
  (** [Response.json()] on a body *)
  response_json : string -> option JSON;
  (** [str(x)] of a decoded document inside an f-string *)
  json_str : JSON -> string;
  (** the type of [pandas.DataFrame] objects *)
  DataFrame : Type;
  (** [pd.DataFrame()] *)
  pd_DataFrame : DataFrame;
  (** [pd.read_json(StringIO(text))] *)
  pd_read_json : string -> option DataFrame;
  (** [pd.read_csv(StringIO(text), index_col=c)] *)
  pd_read_csv : string -> string -> option DataFrame;
  (** [df.set_index(c, inplace=True)] *)
  df_set_index : DataFrame -> string -> option DataFrame;
  (** [pd.concat(frames, axis=1, names=names)] *)
  pd_concat_axis1 : list DataFrame -> list string -> option DataFrame;
  (** [pd.concat(frames, keys=keys, names=names)] *)
  pd_concat_keys :
    list DataFrame -> list string -> list string -> option DataFrame;
  (** [df.columns = labels] *)
  df_set_columns : DataFrame -> list string -> option DataFrame
}.

(** ** The helpers [_validate_cols] and [_build_pre_query] *)

Definition warn_endpoint : string :=
  "WARNING: could not proceed with column names validation. "
  +:+ "Wil return all available columns from Tiingo.".

Definition warn_column (column : string) : string :=
  "WARNING: column name " +:+ Str.dquote +:+ column +:+ Str.dquote
  +:+ " is invalid and " +:+ "was removed from list of columns.".

(** The loop of [_validate_cols]: [valid_columns] is the list built so
    far. *)
Fixpoint validate_loop (valid_names columns valid_columns : list string)
  : M (list string) :=
  match columns with
  | [] => ret valid_columns
  | column :: rest =>
      if py_in column valid_names
      then validate_loop valid_names rest (valid_columns ++ [column])
      else print (warn_column column) ;;;
           validate_loop valid_names rest valid_columns
  end.

Definition _validate_cols (endpoint : string) (columns : list string)
  : M (list string) :=
  if String.eqb endpoint "eod" then
    validate_loop _tii_eod_cols columns []
  else if String.eqb endpoint "iex_last" then
    validate_loop _tii_iex_last_cols columns []
  else if String.eqb endpoint "iex_hist" then
    validate_loop _tii_iex_hist_cols columns []
  else
    print warn_endpoint ;;; ret [].

(** The whitelist that [_validate_cols] picks for an endpoint
    identifier, when it recognises it. *)
Definition whitelist (endpoint : string) : option (list string) :=
  if String.eqb endpoint "eod" then Some _tii_eod_cols
  else if String.eqb endpoint "iex_last" then Some _tii_iex_last_cols
  else if String.eqb endpoint "iex_hist" then Some _tii_iex_hist_cols
  else None.

(** Truth value of a string: it is not empty. *)
Definition truthy (s : string) : bool := negb (String.eqb s "").

Definition _build_pre_query
  (endpoint : string) (columns : list string) (start end_ resample : string)
  : string :=
  let format := "format=json" in
  let cols :=
    match columns with
    | [] => ""
    | _ :: _ => "&columns=" +:+ Str.join "," columns
    end in
  let freq := "&resampleFreq=" +:+ resample in
  let start_date := if truthy start then "&startDate=" +:+ start else "" in
  let end_date := if truthy end_ then "&endDate=" +:+ end_ else "" in
  endpoint +:+ "ticker/prices?" +:+ format
  +:+ freq +:+ cols +:+ start_date +:+ end_date.

(** ** The messages of [__init__] and [get_stock_hist] *)

Definition rejection_text : string := "Auth Token was not correct".

Definition err_token (token shown : string) : string :=
  "Tiingo rejected Auth Token " +:+ Str.dquote +:+ token +:+ Str.dquote
  +:+ "." +:+ Str.newline +:+ "Tiingo response: " +:+ shown.

Definition err_frequency (frequency : string) : string :=
  "Invalid resample frequency: " +:+ Str.dquote +:+ frequency +:+ Str.dquote
  +:+ "." +:+ Str.newline
  +:+ Str.tab +:+ "Valid values:" +:+ Str.newline
  +:+ Str.tab +:+ " - End of day data: " +:+ _tii_resample_freqs_str
  +:+ Str.newline
  +:+ Str.tab +:+ " - Intraday data: 5min, 15min, 1hour, 4hour, etc.".

Definition err_date : string :=
  "Invalid date format. Valid format is: "
  +:+ Str.dquote +:+ "YYYY-MM-DD" +:+ Str.dquote.

Definition warn_ticker (ticker shown : string) : string :=
  "WARNING: request for " +:+ Str.dquote +:+ Str.upper ticker +:+ Str.dquote
  +:+ " returned " +:+ "an error and was removed from list of tickers."
  +:+ Str.newline +:+ "Tiingo response: " +:+ shown +:+ Str.newline.

(** The [tickers] argument: one string or a sequence of strings. *)
Inductive tickers_arg : Type :=
| OneTicker (ticker : string)
| Tickers (tickers : list string).

(** [if isinstance(tickers, str): tickers = [tickers]] *)
Definition normalize_tickers (tickers : tickers_arg) : list string :=
  match tickers with
  | OneTicker t => [t]
  | Tickers ts => ts
  end.

(** [r[key]] on a decoded document. *)
Definition getitem (r : JSON) (key : string) : M JSON :=
  match r with
  | JObj fields => or_raise (KeyError key) (fields !! key)
  | _ => raise TypeError
  end.

(** [v == s] for a decoded value and a string. *)
Definition json_eq_str (v : JSON) (s : string) : bool :=
  match v with
  | JStr t => String.eqb t s
  | _ => false
  end.

(** ** The client *)

Section Client.

Context `{Libraries}.

(** The provider: the body it answers to a request. *)
Variable provider : Request -> string.

(** One GET leaves the process; the body of the answer comes back. The
    transport itself is taken not to fail. *)
Definition send (rq : Request) : M string :=
  fun w => (mkWorld (_tii_headers w) (sent w ++ [rq]) (printed w),
            inr (provider rq)).

(** [requests.get(u, headers=h).text]: the headers given override the
    defaults of the library. *)
Definition requests_get (u : string) (h : gmap string string) : M string :=
  send (mkRequest u (h ∪ default_headers)).

(** The headers of a fresh [requests.Session()] after
    [s.headers.update(h)]. *)
Definition session_headers (h : gmap string string) : gmap string string :=
  h ∪ default_headers.

(** [s.get(u).text] for a session with headers [sh]. *)
Definition session_get (sh : gmap string string) (u : string) : M string :=
  send (mkRequest u sh).

Definition __init__ (token : string) : M unit :=
  set_tii_headers
    {[ "Content-Type" := "application/json";
       "Authorization" := "Token " +:+ token ]} ;;;
  h <- get_tii_headers ;;
  body <- requests_get ("https://api.tiingo.com/api/test?token=" +:+ token) h ;;
  r <- or_raise JSONDecodeError (response_json body) ;;
  message <- getitem r "message" ;;
  if json_eq_str message rejection_text
  then raise (TiingoError (err_token token (json_str r)))
  else ret tt.

Definition get_stock_metadata (ticker : string) : M JSON :=
  let tii_request := _tii_eod +:+ ticker in
  h <- get_tii_headers ;;
  body <- requests_get tii_request h ;;
  or_raise JSONDecodeError (response_json body).

(** Lines 180-197 of [get_stock_hist]: the endpoint and the validated
    columns for a resample frequency, or the error. *)
Definition resample_route (frequency : string) (columns : list string)
  : M (string * list string) :=
  if re_match _tii_resample_pattern frequency then
    valid_columns <- _validate_cols "iex_hist" columns ;;
    ret (_tii_iex, valid_columns)
  else if py_in frequency _tii_resample_freqs then
    valid_columns <- _validate_cols "eod" columns ;;
    ret (_tii_eod, valid_columns)
  else
    raise (TiingoError (err_frequency frequency)).

(** The request loop of [get_stock_hist]; [valid_tickers] and [data]
    are the two lists built so far. *)
Fixpoint fetch_loop (sh : gmap string string) (tii_request : string)
  (tickers valid_tickers : list string) (data : list DataFrame)
  : M (list string * list DataFrame) :=
  match tickers with
  | [] => ret (valid_tickers, data)
  | ticker :: rest =>
      text <- session_get sh (Str.replace "ticker" ticker tii_request) ;;
      match pd_read_json text with
      | None =>
          payload <- or_raise JSONDecodeError (response_json text) ;;
          print (warn_ticker ticker (json_str payload)) ;;;
          fetch_loop sh tii_request rest valid_tickers data
      | Some px =>
          px' <- or_raise (KeyError "date") (df_set_index px "date") ;;
          fetch_loop sh tii_request rest
            (valid_tickers ++ [ticker]) (data ++ [px'])
      end
  end.

(** Lines 233-248 of [get_stock_hist]: the composition of the result. *)
Definition compose (columns valid_tickers : list string)
  (data : list DataFrame) : M DataFrame :=
  if length data =? 0 then
    ret pd_DataFrame
  else if length data =? 1 then
    or_raise IndexError (head data)
  else if length columns =? 1 then
    df <- or_raise (ValueError "concat") (pd_concat_axis1 data ["ticker"]) ;;
    or_raise (ValueError "columns") (df_set_columns df valid_tickers)
  else
    or_raise (ValueError "concat")
      (pd_concat_keys data valid_tickers ["ticker"]).

Definition get_stock_hist (tickers : tickers_arg)
  (frequency start end_ : string) (columns : list string) : M DataFrame :=
  let tickers := normalize_tickers tickers in
  route <- resample_route frequency columns ;;
  let end_point := fst route in
  let valid_columns := snd route in
  (if negb (_is_valid_date start) || negb (_is_valid_date end_)
   then raise (TiingoError err_date)
   else ret tt) ;;;
  let tii_request :=
    _build_pre_query end_point valid_columns start end_ frequency in
  h <- get_tii_headers ;;
  fetched <- fetch_loop (session_headers h) tii_request tickers [] [] ;;
  compose columns (fst fetched) (snd fetched).

Definition get_stock_last (tickers : tickers_arg) (columns : list string)
  : M DataFrame :=
  let tickers := normalize_tickers tickers in
  let tickers_str := Str.join "," tickers in
  let http_req := _tii_iex +:+ "?tickers=" +:+ tickers_str +:+ "&format=csv" in
  valid_columns <- _validate_cols "iex_last" columns ;;
  let http_req :=
    match valid_columns with
    | [] => http_req
    | _ :: _ => http_req +:+ "&columns=" +:+ Str.join "," valid_columns
    end in
  h <- get_tii_headers ;;
  text <- requests_get http_req h ;;
  or_raise (ValueError "read_csv") (pd_read_csv text "ticker").

End Client.

(** ** What the specification expects of the requests

    The URL of the historical-prices request for one ticker, built
    directly from the query parameters. *)

Definition hist_url (base ticker frequency : string) (cols : list string)
  (start end_ : string) : string :=
  base +:+ ticker +:+ "/prices?format=json&resampleFreq=" +:+ frequency
  +:+ (match cols with
       | [] => ""
       | _ :: _ => "&columns=" +:+ Str.join "," cols
       end)
  +:+ (if String.eqb start "" then "" else "&startDate=" +:+ start)
  +:+ (if String.eqb end_ "" then "" else "&endDate=" +:+ end_).

(** The URL of the last-quote request for a batch of tickers. *)
Definition last_url (tickers cols : list string) : string :=
  "https://api.tiingo.com/iex/?tickers=" +:+ Str.join "," tickers
  +:+ "&format=csv"
  +:+ (match cols with
       | [] => ""
       | _ :: _ => "&columns=" +:+ Str.join "," cols
       end).

(** The candidates that a whitelist keeps, and those it drops. *)
Definition kept (names columns : list string) : list string :=
  List.filter (fun c => py_in c names) columns.

Definition dropped (names columns : list string) : list string :=
  List.filter (fun c => negb (py_in c names)) columns.

(** The warnings that [_validate_cols] prints: one line per candidate
    dropped, or the one line about the endpoint. *)
Definition validation_warnings (endpoint : string) (columns : list string)
  : list string :=
  match whitelist endpoint with
  | Some names => map warn_column (dropped names columns)
  | None => [warn_endpoint]
  end.

(** The columns that [_validate_cols] returns. *)
Definition validated (endpoint : string) (columns : list string)
  : list string :=
  match whitelist endpoint with
  | Some names => kept names columns
  | None => []
  end.

(** The world after some more lines were printed. *)
Definition printing (w : World) (lines : list string) : World :=
  mkWorld (_tii_headers w) (sent w) (printed w ++ lines).

(** The world after some more requests were sent. *)
Definition sending (w : World) (rqs : list Request) : World :=
  mkWorld (_tii_headers w) (sent w ++ rqs) (printed w).

(** The base URL and the whitelist that a valid frequency token is
    routed to. *)
Definition routed (frequency base : string) (names : list string) : Prop :=
  (intraday_token frequency /\ base = _tii_iex /\
   names = _tii_iex_hist_cols) \/
  (In frequency _tii_resample_freqs /\ base = _tii_eod /\
   names = _tii_eod_cols).

(** No occurrence of the placeholder starts inside [p], whatever text
    follows [p]: at no position of [p] does the rest of [p] begin with
    the placeholder or begin the placeholder. *)
Fixpoint clear_of_ticker (p : string) : bool :=
  match p with
  | EmptyString => true
  | String _ p' =>
      negb (Str.starts_with "ticker" p) && negb (Str.starts_with p "ticker")
      && clear_of_ticker p'
  end.

(** The letter [k] does not occur in [s]. *)
Definition k_free (s : string) : bool := negb (Str.mem "k" s).

(** What follows a parameter of the query: nothing, or the next
    parameter, which begins with [&]. *)
Definition next_parameter (x : string) : bool :=
  match x with
  | EmptyString => true
  | String c _ => Ascii.eqb c "&"
  end.

(** No occurrence of the placeholder starts inside [p] when the text [x]
    follows [p]. *)
Fixpoint no_ticker_before (x p : string) : bool :=
  match p with
  | EmptyString => true
  | String _ p' =>
      negb (Str.starts_with "ticker" (p +:+ x)) && no_ticker_before x p'
  end.

(** A frequency token the specification calls invalid, and a date string
    it calls malformed: one that is not empty and names no day. *)
Definition invalid_frequency (frequency : string) : Prop :=
  ~ intraday_token frequency /\ ~ In frequency _tii_resample_freqs.

Definition malformed_date (s : string) : Prop :=
  s <> "" /\ ~ Date.date_string s.

(** The public operations, as a caller invokes them one after another;
    an exception ends a call, not the sequence. *)
Inductive call : Type :=
| CallMetadata (ticker : string)
| CallHist (tickers : tickers_arg) (frequency start end_ : string)
    (columns : list string)
| CallLast (tickers : tickers_arg) (columns : list string).

Section Calls.

Context `{Libraries}.
Variable provider : Request -> string.

Definition run_call (c : call) (w : World) : World :=
  match c with
  | CallMetadata ticker => fst (get_stock_metadata provider ticker w)
  | CallHist tickers frequency start end_ columns =>
      fst (get_stock_hist provider tickers frequency start end_ columns w)
  | CallLast tickers columns =>
      fst (get_stock_last provider tickers columns w)
  end.

Definition run_calls (cs : list call) (w : World) : World :=
  fold_left (fun w c => run_call c w) cs w.

End Calls.

(** The batch of [get_stock_hist], seen from outside the loop: what the
    provider answers for each ticker and what the libraries make of it. *)

Section Batch.

Context `{Libraries}.
Variable provider : Request -> string.

(** The body that the provider answers for a ticker. *)
Definition answer (sh : gmap string string) (tii_request ticker : string)
  : string :=
  provider (mkRequest (Str.replace "ticker" ticker tii_request) sh).

(** The answer for a ticker parses into a table. *)
Definition parses (sh : gmap string string) (tii_request ticker : string)
  : bool :=
  match pd_read_json (answer sh tii_request ticker) with
  | Some _ => true
  | None => false
  end.

(** The tickers of a batch whose answer parses into a table, in input
    order. *)
Definition survivors (sh : gmap string string) (tii_request : string)
  (tickers : list string) : list string :=
  List.filter (parses sh tii_request) tickers.

(** The table of a ticker, indexed by date. *)
Definition table (sh : gmap string string) (tii_request ticker : string)
  : option DataFrame :=
  match pd_read_json (answer sh tii_request ticker) with
  | Some px => df_set_index px "date"
  | None => None
  end.

(** A ticker whose answer lets the loop go on: a table with a [date]
    column, or a body that is no table but decodes as JSON. *)
Definition passes (sh : gmap string string) (tii_request ticker : string)
  : bool :=
  match pd_read_json (answer sh tii_request ticker) with
  | Some px =>
      match df_set_index px "date" with Some _ => true | None => false end
  | None =>
      match response_json (answer sh tii_request ticker) with
      | Some _ => true
      | None => false
      end
  end.

(** The request that [get_stock_hist] sends for a ticker. *)
Definition request_for (sh : gmap string string) (tii_request ticker : string)
  : Request :=
  mkRequest (Str.replace "ticker" ticker tii_request) sh.

(** The warning that the loop prints for a ticker, if any. *)
Definition ticker_warning (sh : gmap string string)
  (tii_request ticker : string) : list string :=
  match pd_read_json (answer sh tii_request ticker) with
  | Some _ => []
  | None =>
      match response_json (answer sh tii_request ticker) with
      | Some payload => [warn_ticker ticker (json_str payload)]
      | None => []
      end
  end.

(** The tables of the tickers of a batch, in input order. *)
Definition tables (sh : gmap string string) (tii_request : string)
  (tickers : list string) : list DataFrame :=
  omap (table sh tii_request) tickers.

(** The tickers of a batch that are requested: each ticker up to and
    including the first whose answer does not let the loop go on. *)
Fixpoint requested (sh : gmap string string) (tii_request : string)
  (tickers : list string) : list string :=
  match tickers with
  | [] => []
  | ticker :: rest =>
      ticker ::
      (if passes sh tii_request ticker
       then requested sh tii_request rest
       else [])
  end.

End Batch.

(** A computation that leaves the attribute of the client as it was. *)
Definition preserves_headers {A} (m : M A) : Prop :=
  forall w : World, _tii_headers (fst (m w)) = _tii_headers w.

(** ** Characters of a query component

    An ASCII letter, a digit or a dash: none of them separates or
    delimits anything in a URL. *)

Definition is_letter (c : ascii) : bool :=
  let n := nat_of_ascii c in
  ((65 <=? n) && (n <=? 90)) || ((97 <=? n) && (n <=? 122)).

Definition plain_char (c : ascii) : bool :=
  Str.is_digit c || is_letter c || Ascii.eqb c "-".

Definition plain (s : string) : bool := Str.all plain_char s.

(** The characters that structure the URLs of the client. *)
Definition url_delimiters : list ascii :=
  ["&"; "="; "?"; "/"; "#"; " "; ","]%char.

(** The tickers and the requested columns of a call. *)
Definition call_tickers (c : call) : list string :=
  match c with
  | CallMetadata ticker => [ticker]
  | CallHist tickers _ _ _ _ => normalize_tickers tickers
  | CallLast tickers _ => normalize_tickers tickers
  end.

Definition call_columns (c : call) : list string :=
  match c with
  | CallMetadata _ => []
  | CallHist _ _ _ _ columns => columns
  | CallLast _ columns => columns
  end.

(** The most requests a call may send: one per ticker for the historical
    prices, one for the other two. *)
Definition call_budget (c : call) : nat :=
  match c with
  | CallMetadata _ => 1
  | CallHist tickers _ _ _ _ => length (normalize_tickers tickers)
  | CallLast _ _ => 1
  end.

(** ** A reference instance of the libraries

    For running the client on examples: a table is the expression that
    built it, together with its column labels; the decoders know a few
    bodies of the kinds the provider answers with; the provider is a
    table from URLs to bodies. *)

Module Mock.

#[warnings="-register-all"]
Inductive Frame : Type :=
| Empty : Frame
| Parsed (cols : list string) (text : string) : Frame
| Indexed (f : Frame) (c : string) : Frame
| SideBySide (fs : list Frame) (names : list string) : Frame
| Relabelled (f : Frame) (labels : list string) : Frame
| Stacked (fs : list Frame) (keys names : list string) : Frame.

Definition without (c : string) (cols : list string) : list string :=
  List.filter (fun x => negb (String.eqb x c)) cols.

(** The column labels of a table. *)
Fixpoint frame_columns (f : Frame) : list string :=
  match f with
  | Empty => []
  | Parsed cols _ => cols
  | Indexed f' c => without c (frame_columns f')
  | SideBySide fs _ => flat_map frame_columns fs
  | Relabelled _ labels => labels
  | Stacked fs _ _ => nodup string_dec (flat_map frame_columns fs)
  end.

Definition quoted (s : string) : string := Str.dquote +:+ s +:+ Str.dquote.

(** [[{"date":"2024-01-02","open":1.0,"close":2.0}]] *)
Definition rows_body : string :=
  "[{" +:+ quoted "date" +:+ ":" +:+ quoted "2024-01-02" +:+ ","
  +:+ quoted "open" +:+ ":1.0," +:+ quoted "close" +:+ ":2.0}]".

(** [[{"date":"2024-01-02","close":2.0}]] *)
Definition close_body : string :=
  "[{" +:+ quoted "date" +:+ ":" +:+ quoted "2024-01-02" +:+ ","
  +:+ quoted "close" +:+ ":2.0}]".

(** [{"detail":"Not found."}], the answer for an unknown ticker *)
Definition error_body : string :=
  "{" +:+ quoted "detail" +:+ ":" +:+ quoted "Not found." +:+ "}".

(** An answer that is not JSON, as a gateway in front of the provider
    gives. *)
Definition html_body : string := "<html>502 Bad Gateway</html>".

(** [{"message":"You successfully sent a request"}] *)
Definition accepted_body : string :=
  "{" +:+ quoted "message" +:+ ":"
  +:+ quoted "You successfully sent a request" +:+ "}".

(** [{"message":"Auth Token was not correct"}] *)
Definition rejected_body : string :=
  "{" +:+ quoted "message" +:+ ":" +:+ quoted rejection_text +:+ "}".

(** A last-quote answer in CSV. *)
Definition quotes_body : string :=
  "ticker,last" +:+ Str.newline +:+ "AAPL,1.0" +:+ Str.newline
  +:+ "MSFT,2.0" +:+ Str.newline.

Definition known_tables : list (string * list string) :=
  [ (rows_body, ["date"; "open"; "close"]);
    (close_body, ["date"; "close"]);
    ("[]", []) ].

Definition known_csv : list (string * list string) :=
  [ (quotes_body, ["ticker"; "last"]) ].

Definition known_documents : list (string * JSON) :=
  [ (rows_body,
     JArr [JObj {[ "date" := JStr "2024-01-02"; "open" := JNum "1.0";
                    "close" := JNum "2.0" ]}]);
    (close_body,
     JArr [JObj {[ "date" := JStr "2024-01-02"; "close" := JNum "2.0" ]}]);
    ("[]", JArr []);
    ("{}", JObj ∅);
    (error_body, JObj {[ "detail" := JStr "Not found." ]});
    (accepted_body,
     JObj {[ "message" := JStr "You successfully sent a request" ]});
    (rejected_body, JObj {[ "message" := JStr rejection_text ]}) ].

Fixpoint assoc {A} (key : string) (l : list (string * A)) : option A :=
  match l with
  | [] => None
  | (k, v) :: l' => if String.eqb key k then Some v else assoc key l'
  end.

Definition show_atom (j : JSON) : string :=
  match j with
  | JNull => "None"
  | JBool true => "True"
  | JBool false => "False"
  | JNum n => n
  | JStr s => "'" +:+ s +:+ "'"
  | JArr _ => "[...]"
  | JObj _ => "{...}"
  end.

(** The rendering of a document; containers inside containers are
    abbreviated. *)
Definition show (j : JSON) : string :=
  match j with
  | JArr l => "[" +:+ Str.join ", " (map show_atom l) +:+ "]"
  | JObj m =>
      "{" +:+ Str.join ", "
                (map (fun kv => "'" +:+ fst kv +:+ "': " +:+ show_atom (snd kv))
                     (map_to_list m))
      +:+ "}"
  | _ => show_atom j
  end.

Definition read_json (text : string) : option Frame :=
  match assoc text known_tables with
  | Some cols => Some (Parsed cols text)
  | None => None
  end.

Definition set_index (f : Frame) (c : string) : option Frame :=
  if py_in c (frame_columns f) then Some (Indexed f c) else None.

Definition read_csv (text index_col : string) : option Frame :=
  match assoc text known_csv with
  | Some cols => set_index (Parsed cols text) index_col
  | None => None
  end.

Definition concat_axis1 (fs : list Frame) (names : list string)
  : option Frame :=
  match fs with
  | [] => None
  | _ :: _ => Some (SideBySide fs names)
  end.

Definition concat_keys (fs : list Frame) (keys names : list string)
  : option Frame :=
  match fs with
  | [] => None
  | _ :: _ => Some (Stacked fs keys names)
  end.

Definition set_columns (f : Frame) (labels : list string) : option Frame :=
  if length labels =? length (frame_columns f)
  then Some (Relabelled f labels)
  else None.

#[export] Instance libraries : Libraries := {|
  default_headers := {[ "Accept" := "*/*"; "Connection" := "keep-alive" ]};
  response_json text := assoc text known_documents;
  json_str := show;
  DataFrame := Frame;
  pd_DataFrame := Empty;
  pd_read_json := read_json;
  pd_read_csv := read_csv;
  df_set_index := set_index;
  pd_concat_axis1 := concat_axis1;
  pd_concat_keys := concat_keys;
  df_set_columns := set_columns
|}.

(** A provider that answers the URLs of [routes] and knows no other. *)
Definition provider (routes : list (string * string)) (rq : Request)
  : string :=
  match assoc (url rq) routes with
  | Some body => body
  | None => error_body
  end.

(** The world before a client is constructed. *)
Definition w0 : World := mkWorld ∅ [] [].

(** The headers of a client constructed with the token [secret]. *)
Definition secret_headers : gmap string string :=
  {[ "Content-Type" := "application/json";
     "Authorization" := "Token secret" ]}.

(** The world of a client constructed with the token [secret]. *)
Definition w1 : World := mkWorld secret_headers [] [].

(** The URL of the end-of-day request for a ticker at the frequency
    [daily], with the rest of the query. *)
Definition daily_url (ticker rest : string) : string :=
  "https://api.tiingo.com/tiingo/daily/" +:+ ticker
  +:+ "/prices?format=json&resampleFreq=daily" +:+ rest.

(** Two tickers, no column filter in the query: the provider answers
    each with a table of two columns. *)
Definition unfiltered_tables : list (string * string) :=
  [ (daily_url "AAPL" "", rows_body); (daily_url "MSFT" "", rows_body) ].

(** Two tickers, the column [close] asked for: the provider answers each
    with a table of that one column. *)
Definition close_tables : list (string * string) :=
  [ (daily_url "AAPL" "&columns=close", close_body);
    (daily_url "MSFT" "&columns=close", close_body) ].

(** Two tickers: a gateway answers the first request with a page that is
    not JSON, the provider answers the second with a table. *)
Definition gateway_error_first : list (string * string) :=
  [ (daily_url "AAPL" "", html_body); (daily_url "MSFT" "", rows_body) ].

(** Two tickers: the provider does not know the first and answers the
    second with a table. *)
Definition unknown_first : list (string * string) :=
  [ (daily_url "MSFT" "", rows_body) ].

(** Three tickers: the provider answers the first with a table and the
    second with an empty array, which parses into a table without a
    [date] column. *)
Definition empty_array_second : list (string * string) :=
  [ (daily_url "AAPL" "", rows_body); (daily_url "MSFT" "", "[]");
    (daily_url "GOOG" "", rows_body) ].

(** The token check answered by an empty object. *)
Definition check_without_message : list (string * string) :=
  [ ("https://api.tiingo.com/api/test?token=secret", "{}") ].

End Mock.

(** * Properties *)

(** ** Regular expressions *)

Module ReFacts.
Import Re.

Lemma append_cons (c : ascii) (s1 s2 : string) :
  String c s1 +:+ s2 = String c (s1 +:+ s2).
Proof. reflexivity. Qed.

Lemma append_nil_l (s : string) : "" +:+ s = s.
Proof. reflexivity. Qed.

Lemma append_nil_r (s : string) : s +:+ "" = s.
Proof.
  induction s as [|c s IH]; [reflexivity|].
  rewrite append_cons. now f_equal.
Qed.

Lemma append_nil_inv (s1 s2 : string) :
  s1 +:+ s2 = "" -> s1 = "" /\ s2 = "".
Proof. destruct s1; [auto | discriminate]. Qed.

Lemma append_cons_inv (s1 s2 s : string) (c : ascii) :
  s1 +:+ s2 = String c s ->
  (s1 = "" /\ s2 = String c s) \/
  (exists s1', s1 = String c s1' /\ s = s1' +:+ s2).
Proof.
  destruct s1 as [|d s1]; cbn; intros Heq.
  - now left.
  - injection Heq as -> <-. right. now exists s1.
Qed.

Lemma nullable_lang (r : regex) : nullable r = true -> lang r "".
Proof.
  induction r; cbn; intros Hn; try discriminate.
  - constructor.
  - apply andb_prop in Hn as [H1 H2].
    change "" with ("" +:+ ""). constructor; auto.
  - apply orb_prop in Hn as [H1|H2];
      [apply lang_alt_l | apply lang_alt_r]; auto.
  - constructor.
Qed.

Lemma lang_nullable (r : regex) (s : string) :
  lang r s -> s = "" -> nullable r = true.
Proof.
  induction 1; cbn; intros Hs; try discriminate; try reflexivity.
  - apply append_nil_inv in Hs as [-> ->].
    rewrite IHlang1, IHlang2; reflexivity.
  - rewrite IHlang; auto.
  - rewrite IHlang; auto using orb_true_r.
Qed.

Lemma deriv_lang (c : ascii) (r : regex) :
  forall s, lang (deriv c r) s -> lang r (String c s).
Proof.
  induction r; cbn; intros s Hl.
  - inversion Hl.
  - inversion Hl.
  - destruct (Ascii.eqb c a) eqn:E; inversion Hl; subst.
    apply Ascii.eqb_eq in E as ->. constructor.
  - destruct (in_range a a0 c) eqn:E; inversion Hl; subst.
    now constructor.
  - destruct (nullable r1) eqn:E.
    + inversion Hl; subst.
      * match goal with Hx : lang (Seq _ _) _ |- _ => inversion Hx; subst end.
        change (String c (?a +:+ ?b)) with (String c a +:+ b).
        constructor; auto.
      * change (String c s) with ("" +:+ String c s).
        constructor; auto using nullable_lang.
    + inversion Hl; subst.
      change (String c (?a +:+ ?b)) with (String c a +:+ b).
      constructor; auto.
  - inversion Hl; subst; [apply lang_alt_l | apply lang_alt_r]; auto.
  - inversion Hl; subst.
    change (String c (?a +:+ ?b)) with (String c a +:+ b).
    constructor; auto.
Qed.

Lemma lang_deriv (r : regex) (s0 : string) :
  lang r s0 -> forall c t, s0 = String c t -> lang (deriv c r) t.
Proof.
  induction 1; intros c0 t Ht; cbn.
  - discriminate.
  - injection Ht as -> <-. rewrite Ascii.eqb_refl. constructor.
  - injection Ht as -> <-. rewrite H. constructor.
  - apply append_cons_inv in Ht as [[-> ->]|(s1' & -> & ->)].
    + rewrite (lang_nullable r1 "" H eq_refl).
      apply lang_alt_r. now apply IHlang2.
    + destruct (nullable r1); [apply lang_alt_l|];
        constructor; auto.
  - apply lang_alt_l; auto.
  - apply lang_alt_r; auto.
  - discriminate.
  - apply append_cons_inv in Ht as [[-> ->]|(s1' & -> & ->)].
    + now apply IHlang2.
    + constructor; auto.
Qed.

Lemma fullmatch_lang (s : string) :
  forall r, fullmatch r s = true <-> lang r s.
Proof.
  induction s as [|c s IH]; intros r; cbn.
  - split; [apply nullable_lang | intros Hl; now apply (lang_nullable r "")].
  - rewrite IH. split; [apply deriv_lang|].
    intros Hl. now apply (lang_deriv r _ Hl).
Qed.

Lemma lang_Word (w s : string) : lang (Word w) s <-> s = w.
Proof.
  revert s. induction w as [|c w IH]; intros s; cbn.
  - split; [now inversion 1 | intros ->; constructor].
  - split.
    + inversion 1; subst.
      match goal with Hx : lang (Chr _) _ |- _ => inversion Hx; subst end.
      cbn. f_equal. now apply IH.
    + intros ->. change (String c w) with (String c "" +:+ w).
      constructor; [constructor | now apply IH].
Qed.

Lemma in_range_digit (c : ascii) : in_range "0" "9" c = Str.is_digit c.
Proof. reflexivity. Qed.

Lemma all_append (p : ascii -> bool) (s1 s2 : string) :
  Str.all p (s1 +:+ s2) = Str.all p s1 && Str.all p s2.
Proof.
  induction s1 as [|c s1 IH]; [reflexivity|].
  rewrite append_cons. cbn. rewrite IH. now rewrite andb_assoc.
Qed.

Lemma lang_star_digits (r : regex) (s : string) :
  lang r s -> r = Star (Range "0" "9") -> Str.all Str.is_digit s = true.
Proof.
  induction 1; intros Hr; try discriminate; [reflexivity|].
  injection Hr as ->. rewrite all_append, IHlang2 by reflexivity.
  inversion H; subst. cbn. rewrite <- in_range_digit.
  match goal with Hx : in_range _ _ _ = true |- _ => now rewrite Hx end.
Qed.

Lemma digits_lang_star (s : string) :
  Str.all Str.is_digit s = true -> lang (Star (Range "0" "9")) s.
Proof.
  induction s as [|c s IH]; cbn; intros Hd; [constructor|].
  apply andb_prop in Hd as [Hc Hs].
  change (String c s) with (String c "" +:+ s).
  constructor; [|auto]. constructor. now rewrite in_range_digit.
Qed.

Lemma append_assoc (s1 s2 s3 : string) :
  (s1 +:+ s2) +:+ s3 = s1 +:+ (s2 +:+ s3).
Proof.
  induction s1 as [|c s1 IH]; [reflexivity|].
  rewrite !append_cons. now rewrite IH.
Qed.

Lemma pattern_lang (s : string) :
  lang _tii_resample_pattern s <-> intraday_token s.
Proof.
  unfold _tii_resample_pattern, Plus, intraday_token. split.
  - inversion 1 as [| | |? ? ds w Hds Hw| | | |]; subst.
    inversion Hds as [| | |? ? d ds' Hd Hds'| | | |]; subst.
    inversion Hd; subst.
    exists (String c "" +:+ ds'). split; [discriminate|]. split.
    + rewrite append_cons, append_nil_l. cbn. rewrite <- in_range_digit.
      match goal with Hx : in_range _ _ _ = true |- _ => rewrite Hx end.
      now apply (lang_star_digits _ _ Hds').
    + inversion Hw as [| | | |? ? ? Hm|? ? ? Hh| |]; subst.
      * apply (proj1 (lang_Word "min" w)) in Hm. subst. now left.
      * apply (proj1 (lang_Word "hour" w)) in Hh. subst. now right.
  - intros (ds & Hne & Hd & Hs).
    destruct ds as [|c ds]; [congruence|]. cbn in Hd.
    apply andb_prop in Hd as [Hc Hd].
    assert (Hl : lang (Seq (Range "0" "9") (Star (Range "0" "9")))
                   (String c ds)).
    { change (String c ds) with (String c "" +:+ ds).
      constructor; [|now apply digits_lang_star].
      constructor. now rewrite in_range_digit. }
    destruct Hs as [-> | ->]; constructor; auto;
      [apply lang_alt_l | apply lang_alt_r]; now apply lang_Word.
Qed.

Lemma re_match_iff (s : string) :
  re_match _tii_resample_pattern s = true <-> intraday_token s.
Proof. unfold re_match. now rewrite fullmatch_lang, pattern_lang. Qed.

End ReFacts.

(** ** Dates *)

Module DateFacts.
Import Date.

Lemma mod_400 (y : nat) : y mod 400 = 0 -> y mod 4 = 0 /\ y mod 100 = 0.
Proof.
  intros Hy.
  pose proof (Nat.div_mod_eq y 400). pose proof (Nat.div_mod_eq y 4).
  pose proof (Nat.div_mod_eq y 100).
  pose proof (Nat.mod_upper_bound y 4). pose proof (Nat.mod_upper_bound y 100).
  lia.
Qed.

Lemma is_leap_iff (y : nat) : is_leap y = true <-> leap_year y.
Proof.
  unfold is_leap, leap_year.
  rewrite andb_true_iff, orb_true_iff, negb_true_iff, !Nat.eqb_eq, Nat.eqb_neq.
  pose proof (mod_400 y). tauto.
Qed.

(** Linear arithmetic with divisions by constants. *)
Ltac euclid := zify; Z.to_euclidean_division_equations; lia.

(** From one year to the next, a quotient grows by one exactly at the
    multiples. *)
Lemma div_step (k y : nat) :
  1 <= k -> 1 <= y ->
  y / k = (y - 1) / k + (if y mod k =? 0 then 1 else 0).
Proof.
  intros Hk Hy. destruct (Nat.eqb_spec (y mod k) 0) as [E|E].
  - pose proof (Nat.div_mod_eq y k). pose proof (Nat.div_mod_eq (y - 1) k).
    pose proof (Nat.mod_upper_bound (y - 1) k). nia.
  - pose proof (Nat.div_mod_eq y k). pose proof (Nat.div_mod_eq (y - 1) k).
    pose proof (Nat.mod_upper_bound (y - 1) k).
    pose proof (Nat.mod_upper_bound y k). nia.
Qed.

(** A year moves the weekday of 31 December by one day, a leap year by
    two. *)
Lemma dec31_step (y : nat) :
  1 <= y ->
  y + y / 4 - y / 100 + y / 400 =
  (y - 1 + (y - 1) / 4 - (y - 1) / 100 + (y - 1) / 400) + 1
  + (if is_leap y then 1 else 0).
Proof.
  intros Hy. unfold is_leap.
  rewrite (div_step 4 y), (div_step 100 y), (div_step 400 y) by lia.
  assert (H100 : (y - 1) / 100 <= (y - 1) / 4)
    by (apply Nat.div_le_compat_l; lia).
  pose proof (mod_400 y) as H400.
  destruct (Nat.eqb_spec (y mod 400) 0) as [E4|E4];
    destruct (Nat.eqb_spec (y mod 100) 0) as [E1|E1];
    destruct (Nat.eqb_spec (y mod 4) 0) as [E0|E0]; cbn [andb orb negb];
    lia.
Qed.

(** The ordinal of 1 January, with the whole weeks set apart. *)
Lemma jan1_weekday (y : nat) :
  1 <= y ->
  ymd2ord y 1 1 =
  N.of_nat
    (364 * (y - 1)
     + (y - 1 + (y - 1) / 4 - (y - 1) / 100 + (y - 1) / 400) + 1).
Proof.
  intros Hy. unfold ymd2ord, days_before_year, days_before_month,
    DAYS_BEFORE_MONTH. cbn [Nat.ltb Nat.leb andb].
  assert (H100 : (y - 1) / 100 <= (y - 1) / 4)
    by (apply Nat.div_le_compat_l; lia).
  lia.
Qed.

(** The test of the library for week 53 is the one of the calendar. *)
Lemma has_week_53_iff (y : nat) :
  1 <= y -> has_week_53 y = true <-> long_year y.
Proof.
  intros Hy. unfold has_week_53, long_year, dec31_weekday.
  rewrite (dec31_step y Hy), (jan1_weekday y Hy).
  set (a := y - 1 + (y - 1) / 4 - (y - 1) / 100 + (y - 1) / 400).
  rewrite <- (Nat2N.inj_mod _ 7).
  replace ((364 * (y - 1) + a + 1) mod 7) with ((a + 1) mod 7)
    by (rewrite <- (Nat.Div0.mod_add (a + 1) (52 * (y - 1)) 7); f_equal; lia).
  rewrite orb_true_iff, andb_true_iff, !N.eqb_eq.
  change 4%N with (N.of_nat 4). change 3%N with (N.of_nat 3).
  rewrite !Nat2N.inj_iff.
  pose proof (Nat.div_mod_eq a 7) as Ha.
  pose proof (Nat.mod_upper_bound a 7 ltac:(lia)) as Hb.
  pose proof (Nat.div_mod_eq (a + 1) 7) as Ha1.
  pose proof (Nat.mod_upper_bound (a + 1) 7 ltac:(lia)) as Hb1.
  destruct (is_leap y).
  - pose proof (Nat.div_mod_eq (a + 1 + 1) 7) as Ha2.
    pose proof (Nat.mod_upper_bound (a + 1 + 1) 7 ltac:(lia)) as Hb2.
    lia.
  - rewrite Nat.add_0_r. lia.
Qed.

Lemma days_in_month_iff (y m d : nat) :
  1 <= m <= 12 /\ d <= days_in_month y m <->
  (In m [1; 3; 5; 7; 8; 10; 12] /\ d <= 31) \/
  (In m [4; 6; 9; 11] /\ d <= 30) \/
  (m = 2 /\ (d <= 28 \/ (d = 29 /\ leap_year y))).
Proof.
  rewrite <- is_leap_iff.
  do 13 (try destruct m as [|m]); cbn [days_in_month In];
    try (destruct (is_leap y)); intuition (try discriminate; try lia).
Qed.

Lemma check_date_args_iff (y m d : nat) :
  check_date_args y m d = true <->
  MINYEAR <= y <= MAXYEAR /\ calendar_day y m d.
Proof.
  unfold check_date_args, calendar_day.
  rewrite !andb_true_iff, !Nat.leb_le, <- days_in_month_iff. tauto.
Qed.

Lemma new_date_iff (y m d : nat) :
  (exists o, new_date y m d = Some o) <->
  MINYEAR <= y <= MAXYEAR /\ calendar_day y m d.
Proof.
  rewrite <- check_date_args_iff. unfold new_date.
  destruct (check_date_args y m d).
  - split; [reflexivity | eauto].
  - split; [intros [o Ho]; discriminate Ho | discriminate].
Qed.

(** The Monday of week 1 is at most three days after 1 January. *)
Lemma isoweek1monday_bound (y : nat) :
  1 <= y ->
  (isoweek1monday y <=
   N.of_nat (365 * (y - 1) + (y - 1) / 4 + (y - 1) / 400 + 4))%N.
Proof.
  intros Hy. unfold isoweek1monday. rewrite (jan1_weekday y Hy).
  assert (H100 : (y - 1) / 100 <= (y - 1) / 4)
    by (apply Nat.div_le_compat_l; lia).
  set (n := 364 * (y - 1) + _ + 1).
  assert (Hn : n <= 365 * (y - 1) + (y - 1) / 4 + (y - 1) / 400 + 1)
    by (unfold n; lia).
  pose proof (N.mod_upper_bound (N.of_nat n + 6) 7 ltac:(lia)) as Hm.
  assert (Hle : ((N.of_nat n + 6) mod 7 <= N.of_nat n + 6)%N)
    by (apply N.Div0.mod_le).
  destruct (3 <? (N.of_nat n + 6) mod 7)%N eqn:E.
  - apply N.ltb_lt in E. lia.
  - lia.
Qed.

Lemma MAXYEAR_eq : Z.of_nat MAXYEAR = 9999%Z.
Proof. reflexivity. Qed.

(** Before the last year, every day of every week is one that a [date]
    holds; in the last year, all but the last two days of week 52. *)
Lemma week_held (y w d : nat) :
  1 <= y < MAXYEAR -> w <= 53 -> d <= 7 ->
  (isoweek1monday y + N.of_nat ((w - 1) * 7 + (d - 1)) <= MAXORDINAL)%N.
Proof.
  intros Hy Hw Hd. pose proof MAXYEAR_eq as HM.
  pose proof (isoweek1monday_bound y ltac:(lia)) as Hb.
  assert (H4 : (y - 1) / 4 <= 2499) by euclid.
  assert (H400 : (y - 1) / 400 <= 24) by euclid.
  unfold MAXORDINAL. lia.
Qed.

Lemma week_held_last (w d : nat) :
  1 <= w <= 52 -> 1 <= d <= 7 ->
  (isoweek1monday MAXYEAR + N.of_nat ((w - 1) * 7 + (d - 1)) <= MAXORDINAL)%N
  <-> ~ (w = 52 /\ 6 <= d).
Proof.
  intros Hw Hd.
  assert (E : isoweek1monday MAXYEAR = 3651698%N) by (vm_compute; reflexivity).
  rewrite E. unfold MAXORDINAL. lia.
Qed.

Lemma last_year_not_long : has_week_53 MAXYEAR = false.
Proof. vm_compute. reflexivity. Qed.

(** The conversion from the ISO calendar succeeds on the days that exist
    and that a [date] holds. *)
Lemma iso_to_ymd_iff (y w d : nat) :
  y <= MAXYEAR ->
  (exists o, iso_to_ymd y w d = Some o) <->
  week_day y w d /\ held_week_day y w d.
Proof.
  intros Hmax. unfold iso_to_ymd, week_day, held_week_day, MINYEAR.
  destruct (Nat.leb_spec 1 y) as [Hy|Hy]; cbn [andb negb];
    [|split; [intros [o Ho]; discriminate Ho | lia]].
  destruct (Nat.leb_spec y MAXYEAR) as [_|Hx]; [|lia]. cbn [negb].
  destruct (Nat.ltb_spec 0 w) as [Hw|Hw]; cbn [andb negb];
    [|destruct (w =? 53) eqn:E53; [apply Nat.eqb_eq in E53; lia|];
      cbn [andb negb]; split; [intros [o Ho]; discriminate Ho | lia]].
  assert (Hweek : (w <? 53) || ((w =? 53) && has_week_53 y) = true <->
                  w <= 52 \/ (w = 53 /\ long_year y)).
  { rewrite orb_true_iff, andb_true_iff, Nat.ltb_lt, Nat.eqb_eq,
      (has_week_53_iff y Hy).
    assert (w < 53 <-> w <= 52) by lia. tauto. }
  destruct (w <? 53) eqn:E1; cbn [negb andb].
  - apply Nat.ltb_lt in E1.
    destruct (Nat.ltb_spec 0 d) as [Hd|Hd]; cbn [andb negb];
      [|split; [intros [o Ho]; discriminate Ho | lia]].
    destruct (Nat.ltb_spec d 8) as [Hd8|Hd8]; cbn [negb];
      [|split; [intros [o Ho]; discriminate Ho | lia]].
    destruct (N.leb_spec
                (isoweek1monday y + N.of_nat ((w - 1) * 7 + (d - 1)))
                MAXORDINAL) as [Ho|Ho].
    + split; [intros _ | eauto].
      split; [lia|]. split; [lia|]. intros (-> & -> & H6).
      apply (week_held_last 52 d) in Ho; lia.
    + split; [intros [o Hx]; discriminate Hx|].
      intros [_ [_ Hh]]. exfalso.
      destruct (Nat.eq_dec y MAXYEAR) as [->|Hne].
      * apply N.lt_nge in Ho. apply Ho.
        apply week_held_last; lia.
      * pose proof (week_held y w d ltac:(lia) ltac:(lia) ltac:(lia)). lia.
  - apply Nat.ltb_ge in E1. cbn [orb] in Hweek.
    destruct ((w =? 53) && has_week_53 y) eqn:E2; cbn [negb].
    + apply andb_prop in E2 as [Ew Eh]. apply Nat.eqb_eq in Ew. subst w.
      destruct (Nat.ltb_spec 0 d) as [Hd|Hd]; cbn [andb negb];
        [|split; [intros [o Ho]; discriminate Ho | lia]].
      destruct (Nat.ltb_spec d 8) as [Hd8|Hd8]; cbn [negb];
        [|split; [intros [o Ho]; discriminate Ho | lia]].
      assert (Hne : y <> MAXYEAR)
        by (intros ->; rewrite last_year_not_long in Eh; discriminate Eh).
      pose proof (week_held y 53 d ltac:(lia) ltac:(lia) ltac:(lia)) as Hh.
      apply N.leb_le in Hh. rewrite Hh.
      split; [intros _ | eauto].
      split; [|lia]. split; [lia|]. split; [|lia].
      apply Hweek. reflexivity.
    + split; [intros [o Ho]; discriminate Ho|].
      intros [(_ & Hw53 & _) _]. apply Hweek in Hw53. discriminate Hw53.
Qed.

(** What [parse_digits] read. *)
Lemma parse_digits_inv (n : nat) :
  forall (acc : nat) (s : string) (v : nat) (r : string),
    parse_digits n acc s = Some (v, r) ->
    exists ds : list ascii,
      length ds = n /\ s = string_of_list_ascii ds +:+ r /\
      forallb Str.is_digit ds = true /\
      v = fold_left (fun a c => a * 10 + Str.digit_value c) ds acc.
Proof.
  induction n as [|n IH]; intros acc s v r Hp.
  - injection Hp as <- <-. exists []. repeat split.
  - cbn [parse_digits] in Hp. destruct s as [|c s]; [discriminate Hp|].
    destruct (Str.is_digit c) eqn:Ec; [|discriminate Hp].
    apply IH in Hp as (ds & Hl & -> & Hd & ->).
    exists (c :: ds). cbn [length forallb fold_left string_of_list_ascii].
    rewrite Ec, Hl. repeat split; assumption.
Qed.

Lemma next_is_inv (c : ascii) (s : string) :
  next_is c s = true -> exists s', s = String c s'.
Proof.
  destruct s as [|c' s]; [discriminate|]. cbn [next_is].
  intros Hc. apply Ascii.eqb_eq in Hc as ->. eauto.
Qed.

Lemma parse_dash_inv (s r : string) :
  parse_dash s = Some r -> s = String "-" r.
Proof.
  destruct s as [|c s]; [discriminate|]. cbn [parse_dash].
  destruct (Ascii.eqb_spec c "-") as [->|]; [|discriminate].
  now intros [= ->].
Qed.

Lemma digit_value_le (c : ascii) :
  Str.is_digit c = true -> Str.digit_value c <= 9.
Proof.
  unfold Str.is_digit, Str.digit_value. intros Hc.
  apply andb_prop in Hc as [_ Hc]. apply Nat.leb_le in Hc. lia.
Qed.

Lemma year_le (y1 y2 y3 y4 : ascii) :
  forallb Str.is_digit [y1; y2; y3; y4] = true ->
  number [y1; y2; y3; y4] <= MAXYEAR.
Proof.
  cbn [forallb]. intros Hd.
  repeat match goal with
         | Hx : _ && _ = true |- _ => apply andb_prop in Hx as [? ?]
         end.
  repeat match goal with
         | Hx : Str.is_digit _ = true |- _ => apply digit_value_le in Hx
         end.
  unfold number. cbn [fold_left]. pose proof MAXYEAR_eq. lia.
Qed.

(** Names the digits that a successful [parse_digits] read. *)
Ltac digits_of E ds :=
  apply parse_digits_inv in E;
  destruct E as (ds & ?Hl & ?Hs & ?Hd & ?Hv);
  repeat (destruct ds as [|? ds]; [discriminate|]);
  destruct ds; [|discriminate];
  cbn [string_of_list_ascii fold_left] in *;
  rewrite ?ReFacts.append_cons, ?ReFacts.append_nil_l in *; subst;
  repeat match goal with
         | Hx : String _ _ = String _ _ |- _ => injection Hx as ? ?; subst
         end.

(** Turns the test on the length of the string into equations. *)
Ltac lengths H :=
  cbn [String.length] in H;
  repeat match type of H with
         | context [?a || ?b] => rewrite orb_true_iff in H
         end;
  rewrite ?Nat.eqb_eq in H.

Lemma length_0 (r : string) : String.length r = 0 -> r = "".
Proof. now destruct r. Qed.

Lemma digits_app (l1 l2 : list ascii) :
  forallb Str.is_digit l1 = true -> forallb Str.is_digit l2 = true ->
  forallb Str.is_digit (l1 ++ l2) = true.
Proof. intros H1 H2. now rewrite forallb_app, H1, H2. Qed.

Lemma week_fields (y1 y2 y3 y4 w1 w2 : ascii) (d : nat) (o : date) :
  forallb Str.is_digit [y1; y2; y3; y4] = true ->
  iso_to_ymd (number [y1; y2; y3; y4]) (number [w1; w2]) d = Some o ->
  week_day (number [y1; y2; y3; y4]) (number [w1; w2]) d /\
  held_week_day (number [y1; y2; y3; y4]) (number [w1; w2]) d.
Proof.
  intros Hd Ho. apply iso_to_ymd_iff; [now apply year_le | eauto].
Qed.

Lemma calendar_fields (y1 y2 y3 y4 m1 m2 d1 d2 : ascii) (o : date) :
  new_date (number [y1; y2; y3; y4]) (number [m1; m2]) (number [d1; d2])
  = Some o ->
  MINYEAR <= number [y1; y2; y3; y4] /\
  calendar_day (number [y1; y2; y3; y4]) (number [m1; m2])
    (number [d1; d2]).
Proof.
  intros Ho.
  assert (Hx : exists o, new_date (number [y1; y2; y3; y4]) (number [m1; m2])
                           (number [d1; d2]) = Some o) by eauto.
  apply new_date_iff in Hx. tauto.
Qed.

(** What [fromisoformat] reads is a date string: the parser is followed
    branch by branch. *)
Lemma fromisoformat_date_string (s : string) (o : date) :
  fromisoformat s = Some o -> date_string s.
Proof.
  unfold fromisoformat, parse_isoformat_date. intros Ho.
  destruct ((String.length s =? 7) || (String.length s =? 8)
            || (String.length s =? 10)) eqn:Elen; [|discriminate Ho].
  destruct (parse_digits 4 0 s) as [[y s1]|] eqn:E4; [|discriminate Ho].
  digits_of E4 ds. cbv zeta in Ho.
  destruct (next_is "-" s1) eqn:Esep.
  - apply next_is_inv in Esep as [s2 ->]. cbn [advance] in Ho.
    destruct (next_is "W" s2) eqn:EW.
    + apply next_is_inv in EW as [s3 ->]. cbn [advance] in Ho.
      destruct (parse_digits 2 0 s3) as [[w s4]|] eqn:E2; [|discriminate Ho].
      digits_of E2 ws.
      destruct s4 as [|c s4].
      * apply (week_fields _ _ _ _ _ _ _ _ Hd) in Ho as [Hw Hh].
        apply (extended_week a a0 a1 a2 a3 a4);
          [apply (digits_app [_; _; _; _] [_; _]) | |]; assumption.
      * destruct (parse_dash (String c s4)) as [s5|] eqn:Edash;
          [|discriminate Ho].
        apply parse_dash_inv in Edash. injection Edash as -> ->.
        destruct (parse_digits 1 0 s5) as [[d r]|] eqn:E1; [|discriminate Ho].
        digits_of E1 dd. lengths Elen.
        assert (Hr : r = "") by (apply length_0; lia). subst r.
        apply (week_fields _ _ _ _ _ _ _ _ Hd) in Ho as [Hw Hh].
        apply (extended_week_day a a0 a1 a2 a3 a4 a5);
          [apply (digits_app [_; _; _; _] [_; _; _]);
           [|apply (digits_app [_; _] [_])] | |]; assumption.
    + destruct (parse_digits 2 0 s2) as [[m s3]|] eqn:E2; [|discriminate Ho].
      digits_of E2 ms.
      destruct (parse_dash s3) as [s4|] eqn:Edash; [|discriminate Ho].
      apply parse_dash_inv in Edash as ->.
      destruct (parse_digits 2 0 s4) as [[d r]|] eqn:E3; [|discriminate Ho].
      digits_of E3 dd. lengths Elen.
      assert (Hr : r = "") by (apply length_0; lia). subst r.
      apply calendar_fields in Ho as [Hy Hc].
      apply (extended_calendar a a0 a1 a2 a3 a4 a5 a6);
        [apply (digits_app [_; _; _; _] [_; _; _; _]);
         [|apply (digits_app [_; _] [_; _])] | |]; assumption.
  - destruct (next_is "W" s1) eqn:EW.
    + apply next_is_inv in EW as [s3 ->]. cbn [advance] in Ho.
      destruct (parse_digits 2 0 s3) as [[w s4]|] eqn:E2; [|discriminate Ho].
      digits_of E2 ws.
      destruct s4 as [|c s4].
      * apply (week_fields _ _ _ _ _ _ _ _ Hd) in Ho as [Hw Hh].
        apply (basic_week a a0 a1 a2 a3 a4);
          [apply (digits_app [_; _; _; _] [_; _]) | |]; assumption.
      * destruct (parse_digits 1 0 (String c s4)) as [[d r]|] eqn:E1;
          [|discriminate Ho].
        digits_of E1 dd. lengths Elen.
        apply (week_fields _ _ _ _ _ _ _ _ Hd) in Ho as [Hw Hh].
        apply (basic_week_day a a0 a1 a2 a3 a4 a5 r);
          [apply (digits_app [_; _; _; _] [_; _; _]);
           [|apply (digits_app [_; _] [_])] | | |]; try assumption.
        unfold unread.
        destruct (String.length r) as [|[|[|n]]] eqn:Er;
          [left; now apply length_0 | lia | now right | lia].
    + destruct (parse_digits 2 0 s1) as [[m s3]|] eqn:E2; [|discriminate Ho].
      digits_of E2 ms.
      destruct (parse_digits 2 0 s3) as [[d r]|] eqn:E3; [|discriminate Ho].
      digits_of E3 dd. lengths Elen.
      apply calendar_fields in Ho as [Hy Hc].
      apply (basic_calendar a a0 a1 a2 a3 a4 a5 a6 r);
        [apply (digits_app [_; _; _; _] [_; _; _; _]);
         [|apply (digits_app [_; _] [_; _])] | | |]; try assumption.
      unfold unread.
      destruct (String.length r) as [|[|[|n]]] eqn:Er;
        [left; now apply length_0 | lia | now right | lia].
Qed.

Lemma digit_not_dash (c : ascii) :
  Str.is_digit c = true -> Ascii.eqb c "-" = false.
Proof.
  intros Hd. destruct (Ascii.eqb_spec c "-") as [->|]; [|reflexivity].
  vm_compute in Hd. discriminate.
Qed.

Lemma digit_not_W (c : ascii) :
  Str.is_digit c = true -> Ascii.eqb c "W" = false.
Proof.
  intros Hd. destruct (Ascii.eqb_spec c "W") as [->|]; [|reflexivity].
  vm_compute in Hd. discriminate.
Qed.

Lemma unread_cases (rest : string) :
  unread rest -> rest = "" \/ exists a b : ascii, rest = String a (String b "").
Proof.
  intros [->|Hl]; [now left|right].
  destruct rest as [|a [|b [|c rest]]]; try discriminate Hl. eauto.
Qed.

Ltac split_digits :=
  cbn [forallb] in *;
  repeat match goal with
         | Hx : _ && _ = true |- _ => apply andb_prop in Hx as [? ?]
         end.

(** Runs the parser on a string whose characters are named and known to
    be digits where the parser wants digits. *)
Ltac parse :=
  unfold fromisoformat, parse_isoformat_date;
  cbn [string_of_list_ascii];
  rewrite ?ReFacts.append_cons, ?ReFacts.append_nil_l;
  cbn [String.length Nat.eqb orb];
  repeat (cbn [parse_digits next_is advance parse_dash];
          repeat match goal with
                 | Hx : Str.is_digit ?c = true |- context [Str.is_digit ?c] =>
                     rewrite Hx
                 | Hx : Str.is_digit ?c = true
                   |- context [Ascii.eqb ?c "-"] =>
                     rewrite (digit_not_dash c Hx)
                 | Hx : Str.is_digit ?c = true
                   |- context [Ascii.eqb ?c "W"] =>
                     rewrite (digit_not_W c Hx)
                 | |- context [Ascii.eqb ?c ?c] => rewrite (Ascii.eqb_refl c)
                 | |- context [Ascii.eqb "W" "-"] =>
                     change (Ascii.eqb "W" "-") with false
                 end).

Lemma year_digits_le (y1 y2 y3 y4 : ascii) (rest : list ascii) :
  forallb Str.is_digit (y1 :: y2 :: y3 :: y4 :: rest) = true ->
  number [y1; y2; y3; y4] <= MAXYEAR.
Proof.
  intros Hd. apply year_le.
  change (y1 :: y2 :: y3 :: y4 :: rest) with ([y1; y2; y3; y4] ++ rest) in Hd.
  rewrite forallb_app in Hd. now apply andb_prop in Hd as [Hd _].
Qed.

Ltac date_of Hy Hc Hmax :=
  apply new_date_iff; split; [split; [exact Hy | exact Hmax] | exact Hc].

Ltac week_of Hw Hh Hmax :=
  apply iso_to_ymd_iff; [exact Hmax | split; [exact Hw | exact Hh]].

(** Every date string is read. *)
Lemma date_string_fromisoformat (s : string) :
  date_string s -> exists o, fromisoformat s = Some o.
Proof.
  intros Hs.
  destruct Hs as [y1 y2 y3 y4 m1 m2 d1 d2 Hd Hy Hc
                 |y1 y2 y3 y4 m1 m2 d1 d2 rest Hd Hy Hc Hr
                 |y1 y2 y3 y4 w1 w2 Hd Hw Hh
                 |y1 y2 y3 y4 w1 w2 Hd Hw Hh
                 |y1 y2 y3 y4 w1 w2 d Hd Hw Hh
                 |y1 y2 y3 y4 w1 w2 d rest Hd Hw Hh Hr];
    pose proof (year_digits_le _ _ _ _ _ Hd) as Hmax; split_digits.
  - parse. date_of Hy Hc Hmax.
  - apply unread_cases in Hr as [->|(a & b & ->)]; parse;
      date_of Hy Hc Hmax.
  - parse. week_of Hw Hh Hmax.
  - parse. week_of Hw Hh Hmax.
  - parse. week_of Hw Hh Hmax.
  - apply unread_cases in Hr as [->|(a & b & ->)]; parse;
      week_of Hw Hh Hmax.
Qed.

Lemma fromisoformat_iff (s : string) :
  (exists o, fromisoformat s = Some o) <-> date_string s.
Proof.
  split.
  - intros [o Ho]. exact (fromisoformat_date_string s o Ho).
  - apply date_string_fromisoformat.
Qed.

Lemma is_valid_date_iff (s : string) :
  _is_valid_date s = true <-> s = "" \/ date_string s.
Proof.
  unfold _is_valid_date.
  destruct (String.eqb s "") eqn:E.
  - apply String.eqb_eq in E. tauto.
  - apply String.eqb_neq in E.
    rewrite <- fromisoformat_iff.
    destruct (fromisoformat s) as [d|].
    + split; [right; eauto | reflexivity].
    + split; [discriminate | intros [?|[d Hd]]; [contradiction|discriminate]].
Qed.

(** A date string is made of digits, dashes and [W], up to the bytes
    that the parser did not read. *)
Lemma date_string_shape (s : string) :
  date_string s ->
  exists body rest : string,
    s = body +:+ rest /\ Str.all date_char body = true /\
    (rest = "" \/ (String.length body = 8 /\ String.length rest = 2)).
Proof.
  intros Hs.
  destruct Hs as [y1 y2 y3 y4 m1 m2 d1 d2 Hd Hy Hc
                 |y1 y2 y3 y4 m1 m2 d1 d2 rest Hd Hy Hc Hr
                 |y1 y2 y3 y4 w1 w2 Hd Hw Hh
                 |y1 y2 y3 y4 w1 w2 Hd Hw Hh
                 |y1 y2 y3 y4 w1 w2 d Hd Hw Hh
                 |y1 y2 y3 y4 w1 w2 d rest Hd Hw Hh Hr];
    split_digits;
    match goal with
    | |- exists body rest0, ?b +:+ ?r = _ /\ _ => exists b, r
    | |- exists body rest0, ?b = _ /\ _ => exists b, ""
    end;
    (split; [now rewrite ?ReFacts.append_nil_r|]);
    (split;
     [|try (destruct Hr as [->|Hr]; [now left | right; now split]);
       now left]);
    cbn [string_of_list_ascii Str.all]; unfold date_char;
    repeat match goal with
           | Hx : Str.is_digit ?c = true |- context [Str.is_digit ?c] =>
               rewrite Hx
           end;
    reflexivity.
Qed.

End DateFacts.

(** ** Column validation *)

Module ColsFacts.

Lemma py_in_In (x : string) (t : list string) :
  py_in x t = true <-> In x t.
Proof.
  unfold py_in. rewrite existsb_exists. split.
  - intros (y & Hy & Heq). apply String.eqb_eq in Heq. now subst.
  - intros Hx. exists x. split; [assumption | apply String.eqb_refl].
Qed.

Lemma printing_nil (w : World) : printing w [] = w.
Proof. destruct w. unfold printing. cbn. now rewrite app_nil_r. Qed.

Lemma printing_printing (w : World) (l1 l2 : list string) :
  printing (printing w l1) l2 = printing w (l1 ++ l2).
Proof. unfold printing. cbn. now rewrite app_assoc. Qed.

Lemma print_run (msg : string) (w : World) :
  print msg w = (printing w [msg], inr tt).
Proof. reflexivity. Qed.

Lemma validate_loop_run (names columns : list string) :
  forall (acc : list string) (w : World),
    validate_loop names columns acc w =
    (printing w (map warn_column (dropped names columns)),
     inr (acc ++ kept names columns)).
Proof.
  induction columns as [|c cs IH]; intros acc w.
  - cbn. now rewrite printing_nil, app_nil_r.
  - cbn [validate_loop]. unfold kept, dropped. cbn [List.filter].
    fold (kept names cs) (dropped names cs).
    destruct (py_in c names) eqn:E; cbn [negb map].
    + rewrite IH. now rewrite <- app_assoc.
    + unfold bind. rewrite print_run, IH, printing_printing. reflexivity.
Qed.

Lemma validate_cols_run (endpoint : string) (columns : list string)
  (w : World) :
  _validate_cols endpoint columns w =
  (printing w (validation_warnings endpoint columns),
   inr (validated endpoint columns)).
Proof.
  unfold _validate_cols, validation_warnings, validated, whitelist.
  destruct (String.eqb endpoint "eod");
    [apply (validate_loop_run _ _ [])|].
  destruct (String.eqb endpoint "iex_last");
    [apply (validate_loop_run _ _ [])|].
  destruct (String.eqb endpoint "iex_hist");
    [apply (validate_loop_run _ _ [])|].
  reflexivity.
Qed.

Lemma kept_sublist (names columns : list string) :
  sublist (kept names columns) columns.
Proof.
  induction columns as [|c cs IH]; cbn; [constructor|].
  destruct (py_in c names); now constructor.
Qed.

Lemma kept_In (names columns : list string) (c : string) :
  In c (kept names columns) <-> In c columns /\ In c names.
Proof. unfold kept. now rewrite filter_In, py_in_In. Qed.

Lemma whitelist_cases (endpoint : string) :
  (endpoint = "eod" /\ whitelist endpoint = Some _tii_eod_cols) \/
  (endpoint = "iex_last" /\ whitelist endpoint = Some _tii_iex_last_cols) \/
  (endpoint = "iex_hist" /\ whitelist endpoint = Some _tii_iex_hist_cols) \/
  (endpoint <> "eod" /\ endpoint <> "iex_last" /\ endpoint <> "iex_hist" /\
   whitelist endpoint = None).
Proof.
  unfold whitelist.
  destruct (String.eqb_spec endpoint "eod") as [->|H1]; [now left|].
  destruct (String.eqb_spec endpoint "iex_last") as [->|H2];
    [right; now left|].
  destruct (String.eqb_spec endpoint "iex_hist") as [->|H3];
    [right; right; now left|].
  right; right; right. auto.
Qed.

End ColsFacts.

(** ** Running computations *)

Module Run.

Lemma bind_inr {A B} (m : M A) (k : A -> M B) (w w' : World) (a : A) :
  m w = (w', inr a) -> bind m k w = k a w'.
Proof. unfold bind. now intros ->. Qed.

Lemma bind_inl {A B} (m : M A) (k : A -> M B) (w w' : World) (e : exn) :
  m w = (w', inl e) -> bind m k w = (w', inl e).
Proof. unfold bind. now intros ->. Qed.

End Run.

(** ** Frequency classification *)

Module FreqFacts.

Lemma fixed_not_intraday (frequency : string) :
  In frequency _tii_resample_freqs -> ~ intraday_token frequency.
Proof.
  intros Hin Htok. apply ReFacts.re_match_iff in Htok.
  cbn in Hin.
  destruct Hin as [<-|[<-|[<-|[<-|[]]]]]; vm_compute in Htok; discriminate.
Qed.

Lemma route_intraday (frequency : string) (columns : list string)
  (w : World) :
  intraday_token frequency ->
  resample_route frequency columns w =
  (printing w (validation_warnings "iex_hist" columns),
   inr (_tii_iex, kept _tii_iex_hist_cols columns)).
Proof.
  intros Htok. apply ReFacts.re_match_iff in Htok.
  unfold resample_route. rewrite Htok.
  now rewrite (Run.bind_inr _ _ _ _ _
                 (ColsFacts.validate_cols_run "iex_hist" columns w)).
Qed.

Lemma route_eod (frequency : string) (columns : list string) (w : World) :
  In frequency _tii_resample_freqs ->
  resample_route frequency columns w =
  (printing w (validation_warnings "eod" columns),
   inr (_tii_eod, kept _tii_eod_cols columns)).
Proof.
  intros Hin. pose proof (fixed_not_intraday _ Hin) as Hno.
  rewrite <- ReFacts.re_match_iff in Hno.
  apply ColsFacts.py_in_In in Hin.
  unfold resample_route.
  destruct (re_match _tii_resample_pattern frequency); [congruence|].
  rewrite Hin.
  now rewrite (Run.bind_inr _ _ _ _ _
                 (ColsFacts.validate_cols_run "eod" columns w)).
Qed.

Lemma route_invalid (frequency : string) (columns : list string)
  (w : World) :
  invalid_frequency frequency ->
  resample_route frequency columns w =
  (w, inl (TiingoError (err_frequency frequency))).
Proof.
  intros [Hno Hnin].
  rewrite <- ReFacts.re_match_iff in Hno.
  rewrite <- ColsFacts.py_in_In in Hnin.
  unfold resample_route.
  destruct (re_match _tii_resample_pattern frequency); [congruence|].
  destruct (py_in frequency _tii_resample_freqs); [congruence|].
  reflexivity.
Qed.

Lemma classes (frequency : string) :
  (intraday_token frequency /\ ~ In frequency _tii_resample_freqs) \/
  (~ intraday_token frequency /\ In frequency _tii_resample_freqs) \/
  invalid_frequency frequency.
Proof.
  unfold invalid_frequency.
  destruct (re_match _tii_resample_pattern frequency) eqn:E1.
  - apply ReFacts.re_match_iff in E1. left. split; [assumption|].
    intros Hin. now apply (fixed_not_intraday _ Hin).
  - assert (Hno : ~ intraday_token frequency).
    { rewrite <- ReFacts.re_match_iff. congruence. }
    destruct (py_in frequency _tii_resample_freqs) eqn:E2.
    + apply ColsFacts.py_in_In in E2. right; left. auto.
    + right; right. split; [assumption|].
      rewrite <- ColsFacts.py_in_In. congruence.
Qed.

Lemma err_frequency_alternatives (frequency : string) :
  Forall (fun alt => exists pre post : string,
              err_frequency frequency = pre +:+ alt +:+ post)
    _tii_resample_freqs.
Proof.
  set (pre := "Invalid resample frequency: " +:+ Str.dquote +:+ frequency
              +:+ Str.dquote +:+ "." +:+ Str.newline
              +:+ Str.tab +:+ "Valid values:" +:+ Str.newline
              +:+ Str.tab +:+ " - End of day data: ").
  set (post := Str.newline +:+ Str.tab
               +:+ " - Intraday data: 5min, 15min, 1hour, 4hour, etc.").
  assert (Hmsg : err_frequency frequency =
                 pre +:+ _tii_resample_freqs_str +:+ post).
  { unfold err_frequency, pre, post.
    now rewrite !ReFacts.append_assoc. }
  repeat constructor.
  - exists (pre +:+ "('"), ("', 'weekly', 'monthly', 'annually')" +:+ post).
    rewrite Hmsg, !ReFacts.append_assoc. reflexivity.
  - exists (pre +:+ "('daily', '"), ("', 'monthly', 'annually')" +:+ post).
    rewrite Hmsg, !ReFacts.append_assoc. reflexivity.
  - exists (pre +:+ "('daily', 'weekly', '"), ("', 'annually')" +:+ post).
    rewrite Hmsg, !ReFacts.append_assoc. reflexivity.
  - exists (pre +:+ "('daily', 'weekly', 'monthly', '"), ("')" +:+ post).
    rewrite Hmsg, !ReFacts.append_assoc. reflexivity.
Qed.

End FreqFacts.

(** ** Input validation comes before the network *)

Module GateFacts.

Section WithLibraries.

Context `{Libraries}.
Variable provider : Request -> string.

Lemma hist_invalid_frequency (tickers : tickers_arg)
  (frequency start end_ : string) (columns : list string) (w : World) :
  invalid_frequency frequency ->
  get_stock_hist provider tickers frequency start end_ columns w =
  (w, inl (TiingoError (err_frequency frequency))).
Proof.
  intros Hf. unfold get_stock_hist.
  apply Run.bind_inl. now apply FreqFacts.route_invalid.
Qed.

Lemma route_valid (frequency : string) (columns : list string) (w : World) :
  ~ invalid_frequency frequency ->
  exists (warnings : list string) (route : string * list string),
    resample_route frequency columns w = (printing w warnings, inr route).
Proof.
  intros Hok.
  destruct (FreqFacts.classes frequency) as [[Ht Hn]|[[Ht Hi]|Hinv]].
  - eexists _, _. now apply FreqFacts.route_intraday.
  - eexists _, _. now apply FreqFacts.route_eod.
  - contradiction.
Qed.

Lemma hist_malformed_date (tickers : tickers_arg)
  (frequency start end_ : string) (columns : list string) (w : World) :
  ~ invalid_frequency frequency ->
  malformed_date start \/ malformed_date end_ ->
  exists warnings : list string,
    get_stock_hist provider tickers frequency start end_ columns w =
    (printing w warnings, inl (TiingoError err_date)).
Proof.
  intros Hok Hbad.
  destruct (route_valid frequency columns w Hok) as (warnings & route & Hr).
  exists warnings. unfold get_stock_hist.
  rewrite (Run.bind_inr _ _ _ _ _ Hr).
  assert (Hd : negb (_is_valid_date start) || negb (_is_valid_date end_)
               = true).
  { apply orb_true_iff.
    destruct Hbad as [[Hne Hno]|[Hne Hno]]; [left|right];
      apply negb_true_iff;
      match goal with |- _is_valid_date ?s = false =>
        destruct (_is_valid_date s) eqn:E; [|reflexivity];
        apply DateFacts.is_valid_date_iff in E; destruct E; contradiction
      end. }
  rewrite Hd. reflexivity.
Qed.

End WithLibraries.

End GateFacts.

(** ** Substituting the ticker into the template *)

Module ReplaceFacts.

Lemma mem_append (c : ascii) (a b : string) :
  Str.mem c (a +:+ b) = Str.mem c a || Str.mem c b.
Proof.
  induction a as [|d a IH]; [reflexivity|].
  rewrite ReFacts.append_cons. cbn. now rewrite IH, orb_assoc.
Qed.

Lemma k_free_append (a b : string) :
  k_free (a +:+ b) = k_free a && k_free b.
Proof. unfold k_free. now rewrite mem_append, negb_orb. Qed.

Lemma starts_with_ticker_k (s : string) :
  Str.starts_with "ticker" s = true -> Str.mem "k" s = true.
Proof.
  destruct s as [|c1 [|c2 [|c3 [|c4 s]]]];
    cbn [Str.starts_with Str.mem]; intros Hs;
    repeat match goal with
           | Hx : _ && _ = true |- _ => apply andb_prop in Hx as [? ?]
           end; try discriminate.
  match goal with
  | Hx : Ascii.eqb "k" c4 = true |- _ => rewrite Hx
  end.
  now rewrite !orb_true_r.
Qed.

Lemma digit_not_k (c : ascii) :
  Str.is_digit c = true -> Ascii.eqb "k" c = false.
Proof.
  intros Hd. destruct (Ascii.eqb_spec "k" c) as [<-|]; [|reflexivity].
  vm_compute in Hd. discriminate.
Qed.

Lemma digits_k_free (s : string) :
  Str.all Str.is_digit s = true -> k_free s = true.
Proof.
  unfold k_free. induction s as [|c s IH]; [reflexivity|].
  cbn [Str.mem Str.all].
  intros Hd. apply andb_prop in Hd as [Hc Hs].
  rewrite (digit_not_k c Hc). cbn [orb]. now apply IH.
Qed.

Lemma intraday_k_free (frequency : string) :
  intraday_token frequency -> k_free frequency = true.
Proof.
  intros (ds & _ & Hd & [-> | ->]);
    rewrite k_free_append, (digits_k_free ds Hd); reflexivity.
Qed.

Lemma join_k_free (cols : list string) :
  Forall (fun c => k_free c = true) cols ->
  k_free (Str.join "," cols) = true.
Proof.
  induction 1 as [|c cs Hc Hcs IH]; [reflexivity|].
  destruct cs as [|c' cs']; [exact Hc|].
  change (Str.join "," (c :: c' :: cs'))
    with (c +:+ "," +:+ Str.join "," (c' :: cs')).
  now rewrite !k_free_append, Hc, IH.
Qed.

Lemma kept_k_free (names columns : list string) :
  forallb k_free names = true ->
  Forall (fun c => k_free c = true) (kept names columns).
Proof.
  intros Hn. apply List.Forall_forall. intros c Hc.
  apply ColsFacts.kept_In in Hc as [_ Hc].
  rewrite forallb_forall in Hn. now apply Hn.
Qed.

Lemma truthy_eqb (s : string) (a : string) :
  (if truthy s then a else "") = (if String.eqb s "" then "" else a).
Proof. unfold truthy. now destruct (String.eqb s ""). Qed.

Lemma starts_with_append (q p x : string) :
  Str.starts_with q (p +:+ x) = true ->
  Str.starts_with q p = true \/ Str.starts_with p q = true.
Proof.
  revert p. induction q as [|a q IH]; intros p; [now left|].
  destruct p as [|b p]; [now right|].
  rewrite ReFacts.append_cons. cbn [Str.starts_with].
  intros Hs. apply andb_prop in Hs as [Hab Hs].
  rewrite Hab. apply Ascii.eqb_eq in Hab as ->. rewrite Ascii.eqb_refl.
  cbn [andb]. now apply IH.
Qed.

Lemma replace_clear (new p : string) :
  clear_of_ticker p = true ->
  forall x : string,
    Str.replace_from "ticker" new 0 (p +:+ x) =
    p +:+ Str.replace_from "ticker" new 0 x.
Proof.
  induction p as [|c p IH]; intros Hc x; [reflexivity|].
  cbn [clear_of_ticker] in Hc.
  apply andb_prop in Hc as [Hc Hp]. apply andb_prop in Hc as [H1 H2].
  apply negb_true_iff in H1, H2.
  rewrite !ReFacts.append_cons. cbn [Str.replace_from].
  destruct (Str.starts_with "ticker" (String c (p +:+ x))) eqn:E.
  - rewrite <- ReFacts.append_cons in E.
    apply starts_with_append in E as [E|E]; congruence.
  - now rewrite IH.
Qed.

Lemma replace_hit (new x : string) :
  Str.replace_from "ticker" new 0 ("ticker" +:+ x) =
  new +:+ Str.replace_from "ticker" new 0 x.
Proof. reflexivity. Qed.

Lemma pre_query_shape (base : string) (cols : list string)
  (start end_ frequency : string) :
  _build_pre_query base cols start end_ frequency =
  base +:+ "ticker" +:+ "/prices?format=json&resampleFreq=" +:+ frequency
  +:+ ((match cols with
        | [] => ""
        | _ :: _ => "&columns=" +:+ Str.join "," cols
        end)
       +:+ (if truthy start then "&startDate=" +:+ start else "")
       +:+ (if truthy end_ then "&endDate=" +:+ end_ else "")).
Proof.
  unfold _build_pre_query. rewrite !ReFacts.append_assoc. reflexivity.
Qed.

(** The scan passes over a text in which no occurrence starts. *)
Lemma replace_before (new x p : string) :
  no_ticker_before x p = true ->
  Str.replace_from "ticker" new 0 (p +:+ x) =
  p +:+ Str.replace_from "ticker" new 0 x.
Proof.
  induction p as [|c p IH]; intros Hp; [reflexivity|].
  cbn [no_ticker_before] in Hp. apply andb_prop in Hp as [Hc Hp].
  apply negb_true_iff in Hc.
  rewrite ReFacts.append_cons in *. cbn [Str.replace_from].
  now rewrite Hc, IH.
Qed.

Lemma starts_with_cons (a b : ascii) (q s : string) :
  Str.starts_with (String a q) (String b s) =
  Ascii.eqb a b && Str.starts_with q s.
Proof. reflexivity. Qed.

(** The beginning of the next parameter completes no occurrence. *)
Lemma next_parameter_clear (x : string) :
  next_parameter x = true ->
  Str.starts_with "icker" x = false /\ Str.starts_with "cker" x = false /\
  Str.starts_with "ker" x = false.
Proof.
  destruct x as [|c x]; [auto|]. cbn [next_parameter Str.starts_with].
  intros Hc. apply Ascii.eqb_eq in Hc as ->. auto.
Qed.

(** A text without the letter [k], followed by nothing or by the next
    parameter, holds the beginning of no occurrence. *)
Lemma k_free_before (x p : string) :
  k_free p = true -> next_parameter x = true -> no_ticker_before x p = true.
Proof.
  intros Hk Hx. destruct (next_parameter_clear x Hx) as (Hi & Hc & Hr).
  induction p as [|c p IH]; [reflexivity|].
  cbn [no_ticker_before].
  assert (Hp : k_free p = true).
  { unfold k_free in *. cbn [Str.mem] in Hk.
    apply negb_true_iff in Hk. apply orb_false_elim in Hk as [_ Hk].
    now rewrite Hk. }
  rewrite (IH Hp), andb_true_r. apply negb_true_iff.
  destruct (Str.starts_with "ticker" (String c p +:+ x)) eqn:E;
    [exfalso|reflexivity].
  apply starts_with_append in E as Hcases.
  destruct Hcases as [Hin|Hpre].
  - apply starts_with_ticker_k in Hin. unfold k_free in Hk.
    rewrite Hin in Hk. discriminate Hk.
  - clear Hpre.
    destruct p as [|c2 [|c3 [|c4 p]]];
      rewrite ?ReFacts.append_cons, ?ReFacts.append_nil_l in E;
      rewrite ?starts_with_cons in E;
      repeat match goal with
             | Hy : _ && _ = true |- _ => apply andb_prop in Hy as [? ?]
             end;
      try congruence.
    unfold k_free in Hk. cbn [Str.mem] in Hk.
    match goal with
    | Hy : Ascii.eqb "k" ?c = true |- _ => rewrite Hy in Hk
    end.
    rewrite !orb_true_r in Hk. discriminate Hk.
Qed.

Lemma date_char_not_t (c : ascii) :
  Date.date_char c = true -> Ascii.eqb "t" c = false.
Proof.
  intros Hc. destruct (Ascii.eqb_spec "t" c) as [<-|]; [|reflexivity].
  vm_compute in Hc. discriminate Hc.
Qed.

(** A date that passed the validation, followed by nothing or by the next
    parameter, holds the beginning of no occurrence. *)
Lemma date_before (x s : string) :
  _is_valid_date s = true -> next_parameter x = true ->
  no_ticker_before x s = true.
Proof.
  intros Hv Hx. destruct (next_parameter_clear x Hx) as (Hi & Hc & _).
  apply DateFacts.is_valid_date_iff in Hv as [->|Hd]; [reflexivity|].
  apply DateFacts.date_string_shape in Hd as (body & rest & -> & Hb & Hr).
  assert (Hu : Date.unread rest)
    by (destruct Hr as [->|[_ Hr]]; [now left | now right]).
  clear Hr. induction body as [|c body IH].
  - rewrite ReFacts.append_nil_l.
    apply DateFacts.unread_cases in Hu as [->|(a & b & ->)]; [reflexivity|].
    cbn [no_ticker_before].
    rewrite !ReFacts.append_cons, ReFacts.append_nil_l.
    rewrite !starts_with_cons, Hi, Hc, !andb_false_r. reflexivity.
  - cbn [Str.all] in Hb. apply andb_prop in Hb as [Hc1 Hb].
    rewrite ReFacts.append_cons. cbn [no_ticker_before].
    rewrite (IH Hb), andb_true_r, !ReFacts.append_cons.
    now rewrite starts_with_cons, (date_char_not_t c Hc1).
Qed.

(** The part of the query after the frequency: the scan leaves it as it
    is, and it begins like a parameter. *)
Lemma replace_tail (new : string) (cols : list string) (start end_ : string) :
  Forall (fun c => k_free c = true) cols ->
  _is_valid_date start = true -> _is_valid_date end_ = true ->
  let tail :=
    (match cols with
     | [] => ""
     | _ :: _ => "&columns=" +:+ Str.join "," cols
     end)
    +:+ (if truthy start then "&startDate=" +:+ start else "")
    +:+ (if truthy end_ then "&endDate=" +:+ end_ else "") in
  Str.replace_from "ticker" new 0 tail = tail /\ next_parameter tail = true.
Proof.
  intros Hc Hs He. cbv zeta.
  set (E := if truthy end_ then "&endDate=" +:+ end_ else "").
  set (S := if truthy start then "&startDate=" +:+ start else "").
  assert (HE : Str.replace_from "ticker" new 0 E = E /\
               next_parameter E = true).
  { unfold E. destruct (truthy end_); [|split; reflexivity].
    split; [|reflexivity].
    rewrite (replace_clear new "&endDate=" eq_refl).
    rewrite <- (ReFacts.append_nil_r end_) at 1.
    rewrite (replace_before new "" end_ (date_before "" end_ He eq_refl)).
    now rewrite ReFacts.append_nil_r. }
  destruct HE as [HE1 HE2].
  assert (HS : Str.replace_from "ticker" new 0 (S +:+ E) = S +:+ E /\
               next_parameter (S +:+ E) = true).
  { unfold S. destruct (truthy start);
      [|rewrite ReFacts.append_nil_l; now split].
    split; [|reflexivity].
    rewrite ReFacts.append_assoc.
    rewrite (replace_clear new "&startDate=" eq_refl).
    rewrite (replace_before new E start (date_before E start Hs HE2)).
    now rewrite HE1. }
  destruct HS as [HS1 HS2].
  destruct cols as [|c cols']; [rewrite ReFacts.append_nil_l; now split|].
  split; [|reflexivity].
  rewrite (replace_before new (S +:+ E) _); [now rewrite HS1|].
  apply k_free_before; [|exact HS2].
  rewrite k_free_append, (join_k_free _ Hc). reflexivity.
Qed.

(** Substituting [ticker] for the placeholder of the template gives the
    URL of the request, for a frequency, columns and dates that passed
    the validation. *)
Lemma replace_pre_query (frequency base : string) (names columns : list string)
  (start end_ ticker : string) :
  routed frequency base names ->
  _is_valid_date start = true -> _is_valid_date end_ = true ->
  Str.replace "ticker" ticker
    (_build_pre_query base (kept names columns) start end_ frequency) =
  hist_url base ticker frequency (kept names columns) start end_.
Proof.
  intros Hr Hs He.
  assert (Hn : forallb k_free names = true)
    by (destruct Hr as [(_ & _ & ->)|(_ & _ & ->)]; reflexivity).
  destruct (replace_tail ticker _ start end_ (kept_k_free names columns Hn)
              Hs He) as [Htail Hnext].
  rewrite pre_query_shape. unfold hist_url, Str.replace.
  rewrite <- !truthy_eqb.
  set (tail := _ +:+ _ +:+ _) in *.
  assert (Hbase : clear_of_ticker base = true)
    by (destruct Hr as [(_ & -> & _)|(_ & -> & _)]; reflexivity).
  rewrite (replace_clear _ _ Hbase), replace_hit.
  do 2 f_equal.
  rewrite (replace_clear _ "/prices?format=json&resampleFreq=" eq_refl).
  f_equal.
  destruct Hr as [(Ht & _ & _)|(Hin & _ & _)].
  - rewrite replace_before; [now rewrite Htail|].
    apply k_free_before; [now apply intraday_k_free | exact Hnext].
  - rewrite replace_clear, Htail; [reflexivity|].
    cbn in Hin. destruct Hin as [<-|[<-|[<-|[<-|[]]]]]; reflexivity.
Qed.

End ReplaceFacts.

(** ** The request loop of [get_stock_hist] *)

Module LoopFacts.

Section WithLibraries.

Context `{Libraries}.
Variable provider : Request -> string.
Variable sh : gmap string string.
Variable tii_request : string.

Lemma fetch_loop_cons (ticker : string) (rest valid_tickers : list string)
  (data : list DataFrame) (w : World) :
  fetch_loop provider sh tii_request (ticker :: rest) valid_tickers data w =
  let w1 := sending w [request_for sh tii_request ticker] in
  match pd_read_json (answer provider sh tii_request ticker) with
  | None =>
      match response_json (answer provider sh tii_request ticker) with
      | None => (w1, inl JSONDecodeError)
      | Some payload =>
          fetch_loop provider sh tii_request rest valid_tickers data
            (printing w1 [warn_ticker ticker (json_str payload)])
      end
  | Some px =>
      match df_set_index px "date" with
      | None => (w1, inl (KeyError "date"))
      | Some px' =>
          fetch_loop provider sh tii_request rest
            (valid_tickers ++ [ticker]) (data ++ [px']) w1
      end
  end.
Proof.
  cbn [fetch_loop]. unfold bind, session_get, send, answer, request_for.
  cbn [fst snd].
  destruct (pd_read_json _) as [px|].
  - destruct (df_set_index px "date"); reflexivity.
  - destruct (response_json _); reflexivity.
Qed.

(** When every answer is a table with a date column or an error payload
    in JSON, the loop ends with the survivors and their tables. *)
Lemma fetch_loop_pass (tickers : list string) :
  Forall (fun t => passes provider sh tii_request t = true) tickers ->
  forall (valid_tickers : list string) (data : list DataFrame) (w : World),
    fetch_loop provider sh tii_request tickers valid_tickers data w =
    (mkWorld (_tii_headers w)
       (sent w ++ map (request_for sh tii_request) tickers)
       (printed w ++ flat_map (ticker_warning provider sh tii_request) tickers),
     inr (valid_tickers ++ survivors provider sh tii_request tickers,
          data ++ tables provider sh tii_request tickers)).
Proof.
  induction 1 as [|t rest Ht Hrest IH]; intros vt data w.
  - cbn. rewrite !app_nil_r. now destruct w.
  - rewrite fetch_loop_cons. cbv zeta.
    unfold survivors, tables, passes, parses, table, ticker_warning in *.
    cbn [List.filter omap list_omap flat_map].
    destruct (pd_read_json _) as [px|].
    + destruct (df_set_index px "date") as [px'|]; [|discriminate].
      rewrite IH. cbn. now rewrite <- !app_assoc.
    + destruct (response_json _) as [payload|]; [|discriminate].
      rewrite IH. cbn. now rewrite <- !app_assoc.
Qed.

(** A ticker whose answer is neither a table nor JSON ends the loop with
    the decoding error of the warning; the tickers after it are never
    requested. *)
Lemma fetch_loop_abort (before after : list string) (ticker : string) :
  Forall (fun t => passes provider sh tii_request t = true) before ->
  pd_read_json (answer provider sh tii_request ticker) = None ->
  response_json (answer provider sh tii_request ticker) = None ->
  forall (valid_tickers : list string) (data : list DataFrame) (w : World),
    fetch_loop provider sh tii_request (before ++ ticker :: after)
      valid_tickers data w =
    (mkWorld (_tii_headers w)
       (sent w ++ map (request_for sh tii_request) (before ++ [ticker]))
       (printed w ++ flat_map (ticker_warning provider sh tii_request) before),
     inl JSONDecodeError).
Proof.
  intros Hb Hp Hj.
  induction Hb as [|t rest Ht Hrest IH]; intros vt data w.
  - cbn [app]. rewrite fetch_loop_cons, Hp, Hj. cbn.
    now rewrite app_nil_r.
  - cbn [app]. rewrite fetch_loop_cons. cbv zeta.
    unfold passes, ticker_warning in *. cbn [flat_map map].
    destruct (pd_read_json (answer provider sh tii_request t)) as [px|].
    + destruct (df_set_index px "date") as [px'|]; [|discriminate].
      rewrite IH. cbn. now rewrite <- !app_assoc.
    + destruct (response_json (answer provider sh tii_request t))
        as [payload|]; [|discriminate].
      rewrite IH. cbn. now rewrite <- !app_assoc.
Qed.

End WithLibraries.

End LoopFacts.

(** ** The public operations *)

Module OpFacts.

Section WithLibraries.

Context `{Libraries}.
Variable provider : Request -> string.

Lemma compose_world (columns valid_tickers : list string)
  (data : list DataFrame) (w : World) :
  fst (compose columns valid_tickers data w) = w.
Proof.
  unfold compose.
  destruct (length data =? 0); [reflexivity|].
  destruct (length data =? 1);
    [unfold or_raise; now destruct (head data)|].
  destruct (length columns =? 1); unfold bind, or_raise.
  - destruct (pd_concat_axis1 data ["ticker"]) as [df|]; cbn;
      [|reflexivity].
    now destruct (df_set_columns df valid_tickers).
  - now destruct (pd_concat_keys data valid_tickers ["ticker"]).
Qed.

Lemma bind_compose_fst (m : M (list string * list DataFrame))
  (columns : list string) (w : World) :
  fst (bind m (fun fetched => compose columns (fst fetched) (snd fetched)) w)
  = fst (m w).
Proof.
  unfold bind. destruct (m w) as [w' [e|fetched]]; [reflexivity|].
  apply compose_world.
Qed.

Lemma bind_inl_snd {A B} (m : M A) (k : A -> M B) (w : World) (e : exn) :
  snd (m w) = inl e -> snd (bind m k w) = inl e.
Proof.
  unfold bind. destruct (m w) as [w' [e'|a]]; cbn [snd]; intros Hx;
    [now injection Hx as -> | discriminate Hx].
Qed.

Lemma last_run (tickers : tickers_arg) (columns : list string) (w : World) :
  get_stock_last provider tickers columns w =
  (mkWorld (_tii_headers w)
     (sent w ++
      [mkRequest
         (last_url (normalize_tickers tickers)
            (kept _tii_iex_last_cols columns))
         (_tii_headers w ∪ default_headers)])
     (printed w ++ map warn_column (dropped _tii_iex_last_cols columns)),
   match
     pd_read_csv
       (provider
          (mkRequest
             (last_url (normalize_tickers tickers)
                (kept _tii_iex_last_cols columns))
             (_tii_headers w ∪ default_headers)))
       "ticker"
   with
   | Some px => inr px
   | None => inl (ValueError "read_csv")
   end).
Proof.
  unfold get_stock_last.
  rewrite (Run.bind_inr _ _ _ _ _
             (ColsFacts.validate_cols_run "iex_last" columns w)).
  change (validated "iex_last" columns)
    with (kept _tii_iex_last_cols columns).
  change (validation_warnings "iex_last" columns)
    with (map warn_column (dropped _tii_iex_last_cols columns)).
  set (u := match kept _tii_iex_last_cols columns with
            | [] => _
            | _ :: _ => _
            end).
  assert (Hu : u = last_url (normalize_tickers tickers)
                 (kept _tii_iex_last_cols columns)).
  { unfold u, last_url.
    destruct (kept _tii_iex_last_cols columns);
      rewrite ?ReFacts.append_assoc; reflexivity. }
  rewrite Hu. unfold bind, get_tii_headers, requests_get, send, or_raise.
  cbn [fst snd _tii_headers sent printed printing].
  now destruct (pd_read_csv _ "ticker").
Qed.

End WithLibraries.

End OpFacts.

(** ** The attribute of the client is written once *)

Module FrameFacts.

Lemma preserves_ret {A} (a : A) : preserves_headers (ret a).
Proof. intros w. reflexivity. Qed.

Lemma preserves_raise {A} (e : exn) : preserves_headers (@raise A e).
Proof. intros w. reflexivity. Qed.

Lemma preserves_bind {A B} (m : M A) (k : A -> M B) :
  preserves_headers m -> (forall a, preserves_headers (k a)) ->
  preserves_headers (bind m k).
Proof.
  intros Hm Hk w. unfold bind. specialize (Hm w).
  destruct (m w) as [w' [e|a]]; [exact Hm|].
  rewrite Hk. exact Hm.
Qed.

Lemma preserves_print (msg : string) : preserves_headers (print msg).
Proof. intros w. reflexivity. Qed.

Lemma preserves_get : preserves_headers get_tii_headers.
Proof. intros w. reflexivity. Qed.

Lemma preserves_or_raise {A} (e : exn) (o : option A) :
  preserves_headers (or_raise e o).
Proof. intros w. now destruct o. Qed.

Lemma preserves_send (provider : Request -> string) (rq : Request) :
  preserves_headers (send provider rq).
Proof. intros w. reflexivity. Qed.

(** Closes a case whose hypotheses contradict each other. *)
Ltac absurd :=
  intros;
  repeat match goal with
         | Hx : exists _, _ |- _ => destruct Hx
         | Hx : _ /\ _ |- _ => destruct Hx
         end;
  congruence.

Create HintDb frame.

#[export] Hint Resolve preserves_ret preserves_raise preserves_print
  preserves_get preserves_or_raise preserves_send : frame.

(** Decomposes a computation along its binds and its case analyses. *)
Ltac frame :=
  repeat first
    [ apply preserves_bind; [|intros ?]
    | progress auto with frame
    | match goal with
      | |- preserves_headers (if ?b then _ else _) => destruct b
      | |- preserves_headers (match ?x with _ => _ end) => destruct x
      end ].

Lemma preserves_validate_loop (names columns : list string) :
  forall acc, preserves_headers (validate_loop names columns acc).
Proof.
  induction columns as [|c cs IH]; intros acc; cbn [validate_loop]; frame.
Qed.

Lemma preserves_validate_cols (endpoint : string) (columns : list string) :
  preserves_headers (_validate_cols endpoint columns).
Proof.
  unfold _validate_cols. frame; apply preserves_validate_loop.
Qed.

#[export] Hint Resolve preserves_validate_cols : frame.

Section WithLibraries.

Context `{Libraries}.
Variable provider : Request -> string.

Lemma preserves_fetch_loop (sh : gmap string string) (tii_request : string)
  (tickers : list string) :
  forall valid_tickers data,
    preserves_headers
      (fetch_loop provider sh tii_request tickers valid_tickers data).
Proof.
  induction tickers as [|t rest IH]; intros vt data; cbn [fetch_loop];
    unfold session_get; frame.
Qed.

Lemma preserves_metadata (ticker : string) :
  preserves_headers (get_stock_metadata provider ticker).
Proof. unfold get_stock_metadata, requests_get. frame. Qed.

Lemma preserves_hist (tickers : tickers_arg) (frequency start end_ : string)
  (columns : list string) :
  preserves_headers
    (get_stock_hist provider tickers frequency start end_ columns).
Proof.
  unfold get_stock_hist, resample_route, compose. frame.
  apply preserves_fetch_loop.
Qed.

Lemma preserves_last (tickers : tickers_arg) (columns : list string) :
  preserves_headers (get_stock_last provider tickers columns).
Proof. unfold get_stock_last, requests_get. frame. Qed.

Lemma preserves_run_call (c : call) (w : World) :
  _tii_headers (run_call provider c w) = _tii_headers w.
Proof.
  destruct c; cbn [run_call];
    [apply preserves_metadata | apply preserves_hist | apply preserves_last].
Qed.

Lemma preserves_run_calls (cs : list call) :
  forall w, _tii_headers (run_calls provider cs w) = _tii_headers w.
Proof.
  unfold run_calls. induction cs as [|c cs IH]; intros w; [reflexivity|].
  cbn [fold_left]. rewrite IH. apply preserves_run_call.
Qed.

Lemma init_run (token : string) (w : World) :
  __init__ provider token w =
  let hdrs : gmap string string :=
    {[ "Content-Type" := "application/json";
       "Authorization" := "Token " +:+ token ]} in
  let rq :=
    mkRequest ("https://api.tiingo.com/api/test?token=" +:+ token)
      (hdrs ∪ default_headers) in
  (mkWorld hdrs (sent w ++ [rq]) (printed w),
   match response_json (provider rq) with
   | None => inl JSONDecodeError
   | Some r =>
       match r with
       | JObj fields =>
           match fields !! "message" with
           | None => inl (KeyError "message")
           | Some m =>
               if json_eq_str m rejection_text
               then inl (TiingoError (err_token token (json_str r)))
               else inr tt
           end
       | _ => inl TypeError
       end
   end).
Proof.
  unfold __init__, bind, set_tii_headers, get_tii_headers, requests_get, send.
  cbn [fst snd _tii_headers sent printed]. cbv zeta.
  destruct (response_json _) as [r|]; [|reflexivity].
  cbn [or_raise ret].
  destruct r as [| | | | |fields]; try reflexivity.
  cbn [getitem]. destruct (fields !! "message") as [m|]; [|reflexivity].
  cbn [or_raise ret]. now destruct (json_eq_str m rejection_text).
Qed.

Lemma json_eq_str_iff (m : JSON) (s : string) :
  json_eq_str m s = true <-> m = JStr s.
Proof.
  destruct m; cbn; try (split; [discriminate | intros Hx; discriminate Hx]).
  rewrite String.eqb_eq. split; [now intros -> | now intros [= ->]].
Qed.

End WithLibraries.

End FrameFacts.

(** ** The composition of the result *)

Module ComposeFacts.

Section WithLibraries.

Context `{Libraries}.
Variable provider : Request -> string.

(** What [compose] returns, by the number of tables. *)
Lemma compose_by_cardinality (columns valid_tickers : list string)
  (data : list DataFrame) (w : World) :
  snd (compose columns valid_tickers data w) =
  match data with
  | [] => inr pd_DataFrame
  | [df] => inr df
  | _ :: _ :: _ =>
      if length columns =? 1 then
        match pd_concat_axis1 data ["ticker"] with
        | Some df =>
            match df_set_columns df valid_tickers with
            | Some df' => inr df'
            | None => inl (ValueError "columns")
            end
        | None => inl (ValueError "concat")
        end
      else
        match pd_concat_keys data valid_tickers ["ticker"] with
        | Some df => inr df
        | None => inl (ValueError "concat")
        end
  end.
Proof.
  unfold compose.
  destruct data as [|d1 [|d2 data]]; [reflexivity | reflexivity |].
  cbn [length Nat.eqb]. unfold bind, or_raise.
  destruct (length columns =? 1).
  - destruct (pd_concat_axis1 _ _) as [df|]; [|reflexivity]. cbn.
    now destruct (df_set_columns df valid_tickers).
  - now destruct (pd_concat_keys _ _ _).
Qed.

(** For a batch in which every answer is a table with a date column or
    an error payload in JSON, [get_stock_hist] returns the composition of
    the tables of the survivors, in input order, and has printed one
    warning per ticker it dropped. *)
Lemma hist_survivors (tickers : tickers_arg) (frequency start end_ : string)
  (columns : list string) (base : string) (names : list string) (w : World) :
  routed frequency base names ->
  _is_valid_date start = true -> _is_valid_date end_ = true ->
  let sh := session_headers (_tii_headers w) in
  let req := _build_pre_query base (kept names columns) start end_ frequency in
  let ts := normalize_tickers tickers in
  Forall (fun t => passes provider sh req t = true) ts ->
  sent (fst (get_stock_hist provider tickers frequency start end_ columns w))
  = sent w ++ map (request_for sh req) ts /\
  printed (fst (get_stock_hist provider tickers frequency start end_ columns w))
  = printed w ++ map warn_column (dropped names columns)
    ++ flat_map (ticker_warning provider sh req) ts /\
  snd (get_stock_hist provider tickers frequency start end_ columns w) =
  snd (compose columns (survivors provider sh req ts)
         (tables provider sh req ts) w).
Proof.
  intros Hr Hs He sh req ts Hpass.
  assert (Hroute : resample_route frequency columns w =
                   (printing w (map warn_column (dropped names columns)),
                    inr (base, kept names columns))).
  { destruct Hr as [(Ht & -> & ->)|(Hin & -> & ->)].
    - now apply FreqFacts.route_intraday.
    - now apply FreqFacts.route_eod. }
  set (w1 := printing w (map warn_column (dropped names columns))) in *.
  assert (Hrun :
            get_stock_hist provider tickers frequency start end_ columns w =
            compose columns (survivors provider sh req ts)
              (tables provider sh req ts)
              (mkWorld (_tii_headers w1)
                 (sent w1 ++ map (request_for sh req) ts)
                 (printed w1 ++ flat_map (ticker_warning provider sh req) ts))).
  { unfold get_stock_hist.
    rewrite (Run.bind_inr _ _ _ _ _ Hroute), Hs, He.
    cbn [negb orb fst snd].
    rewrite (Run.bind_inr _ _ w1 w1 tt eq_refl).
    rewrite (Run.bind_inr _ _ w1 w1 (_tii_headers w1) eq_refl).
    change (session_headers (_tii_headers w1)) with sh. fold req ts.
    rewrite (Run.bind_inr _ _ _ _ _
               (LoopFacts.fetch_loop_pass provider sh req ts Hpass [] [] w1)).
    reflexivity. }
  rewrite Hrun, OpFacts.compose_world, !compose_by_cardinality.
  cbn [sent printed w1 printing]. rewrite <- app_assoc. auto.
Qed.

End WithLibraries.

End ComposeFacts.

(** ** The batch, ticker by ticker *)

Module BatchFacts.

Section WithLibraries.

Context `{Libraries}.
Variable provider : Request -> string.

(** A list either passes a test everywhere or has a first element that
    fails it. *)
Lemma first_failure (p : string -> bool) (l : list string) :
  Forall (fun t => p t = true) l \/
  exists before t after,
    l = before ++ t :: after /\
    Forall (fun t => p t = true) before /\ p t = false.
Proof.
  induction l as [|x l IH]; [left; constructor|].
  destruct (p x) eqn:Ex.
  - destruct IH as [IH|(before & t & after & -> & Hb & Ht)].
    + left. now constructor.
    + right. exists (x :: before), t, after. repeat split; auto.
  - right. exists [], x, l. repeat split; auto.
Qed.

Lemma route_exact (frequency base : string) (names columns : list string)
  (w : World) :
  routed frequency base names ->
  resample_route frequency columns w =
  (printing w (map warn_column (dropped names columns)),
   inr (base, kept names columns)).
Proof.
  intros [(Ht & -> & ->)|(Hin & -> & ->)].
  - now apply FreqFacts.route_intraday.
  - now apply FreqFacts.route_eod.
Qed.

(** After the two gates, [get_stock_hist] is the loop followed by the
    composition, in the world where the column warnings are printed. *)
Lemma hist_run (tickers : tickers_arg) (frequency start end_ : string)
  (columns : list string) (base : string) (names : list string) (w : World) :
  routed frequency base names ->
  _is_valid_date start = true -> _is_valid_date end_ = true ->
  get_stock_hist provider tickers frequency start end_ columns w =
  bind
    (fetch_loop provider (session_headers (_tii_headers w))
       (_build_pre_query base (kept names columns) start end_ frequency)
       (normalize_tickers tickers) [] [])
    (fun fetched => compose columns (fst fetched) (snd fetched))
    (printing w (map warn_column (dropped names columns))).
Proof.
  intros Hr Hs He. unfold get_stock_hist.
  rewrite (Run.bind_inr _ _ _ _ _ (route_exact _ _ _ columns w Hr)), Hs, He.
  reflexivity.
Qed.

(** The loop at the first ticker whose answer does not pass. *)
Lemma fetch_loop_fail (sh : gmap string string) (tii_request : string)
  (before after : list string) (ticker : string) :
  Forall (fun t => passes provider sh tii_request t = true) before ->
  passes provider sh tii_request ticker = false ->
  forall (valid_tickers : list string) (data : list DataFrame) (w : World),
    fetch_loop provider sh tii_request (before ++ ticker :: after)
      valid_tickers data w =
    (mkWorld (_tii_headers w)
       (sent w ++ map (request_for sh tii_request) (before ++ [ticker]))
       (printed w ++ flat_map (ticker_warning provider sh tii_request) before),
     inl (if parses provider sh tii_request ticker
          then KeyError "date" else JSONDecodeError)).
Proof.
  intros Hb Ht.
  induction Hb as [|t rest Hp Hrest IH]; intros vt data w.
  - cbn [app]. rewrite LoopFacts.fetch_loop_cons. cbv zeta.
    unfold passes, parses in *.
    destruct (pd_read_json (answer provider sh tii_request ticker)) as [px|].
    + destruct (df_set_index px "date"); [discriminate|].
      cbn. now rewrite app_nil_r.
    + destruct (response_json (answer provider sh tii_request ticker));
        [discriminate|].
      cbn. now rewrite app_nil_r.
  - cbn [app]. rewrite LoopFacts.fetch_loop_cons. cbv zeta.
    unfold passes, ticker_warning in Hp |- *. cbn [flat_map map].
    destruct (pd_read_json (answer provider sh tii_request t)) as [px|].
    + destruct (df_set_index px "date") as [px'|]; [|discriminate].
      rewrite IH. cbn. now rewrite <- !app_assoc.
    + destruct (response_json (answer provider sh tii_request t))
        as [payload|]; [|discriminate].
      rewrite IH. cbn. now rewrite <- !app_assoc.
Qed.

(** Each ticker that passes and parses has a table, and only those. *)
Lemma survivors_tables (sh : gmap string string) (tii_request : string)
  (tickers : list string) :
  Forall (fun t => passes provider sh tii_request t = true) tickers ->
  Forall2 (fun t df => table provider sh tii_request t = Some df)
    (survivors provider sh tii_request tickers)
    (tables provider sh tii_request tickers).
Proof.
  induction 1 as [|t rest Hp Hrest IH]; [constructor|].
  unfold survivors, tables, passes, parses, table in *.
  cbn [List.filter omap list_omap].
  destruct (pd_read_json (answer provider sh tii_request t)) as [px|] eqn:E.
  - destruct (df_set_index px "date") as [px'|] eqn:E'; [|discriminate].
    constructor; [|exact IH]. now rewrite E.
  - exact IH.
Qed.

(** The loop requests the tickers up to and including the first whose
    answer does not pass, and no other. *)
Lemma fetch_loop_requested (sh : gmap string string) (tii_request : string)
  (tickers : list string) :
  forall (valid_tickers : list string) (data : list DataFrame) (w : World),
    sent (fst (fetch_loop provider sh tii_request tickers valid_tickers
                 data w)) =
    sent w ++
    map (request_for sh tii_request)
      (requested provider sh tii_request tickers).
Proof.
  induction tickers as [|t rest IH]; intros vt data w.
  - cbn. now rewrite app_nil_r.
  - rewrite LoopFacts.fetch_loop_cons. cbv zeta. cbn [requested map].
    unfold passes.
    destruct (pd_read_json _) as [px|].
    + destruct (df_set_index px "date") as [px'|]; [|reflexivity].
      rewrite IH. cbn. now rewrite <- app_assoc.
    + destruct (response_json _) as [payload|]; [|reflexivity].
      rewrite IH. cbn. now rewrite <- app_assoc.
Qed.

(** The loop only adds to what is printed. *)
Lemma fetch_loop_printed (sh : gmap string string) (tii_request : string)
  (tickers : list string) :
  forall (valid_tickers : list string) (data : list DataFrame) (w : World),
  exists lines : list string,
    printed (fst (fetch_loop provider sh tii_request tickers valid_tickers
                    data w)) = printed w ++ lines.
Proof.
  induction tickers as [|t rest IH]; intros vt data w.
  - exists []. cbn. now rewrite app_nil_r.
  - rewrite LoopFacts.fetch_loop_cons. cbv zeta.
    destruct (pd_read_json _) as [px|].
    + destruct (df_set_index px "date") as [px'|].
      * destruct (IH (vt ++ [t]) (data ++ [px'])
                    (sending w [request_for sh tii_request t]))
          as [lines ->]. now exists lines.
      * exists []. cbn. now rewrite app_nil_r.
    + destruct (response_json _) as [payload|].
      * destruct (IH vt data
                    (printing (sending w [request_for sh tii_request t])
                       [warn_ticker t (json_str payload)]))
          as [lines ->].
        exists (warn_ticker t (json_str payload) :: lines).
        cbn. now rewrite <- app_assoc.
      * exists []. cbn. now rewrite app_nil_r.
Qed.

(** The loop raises the two exceptions of the libraries and no other. *)
Lemma fetch_loop_raises (sh : gmap string string) (tii_request : string)
  (tickers : list string) :
  forall (valid_tickers : list string) (data : list DataFrame) (w : World)
         (e : exn),
    snd (fetch_loop provider sh tii_request tickers valid_tickers data w)
    = inl e ->
    e = JSONDecodeError \/ e = KeyError "date".
Proof.
  induction tickers as [|t rest IH]; intros vt data w e.
  - discriminate.
  - rewrite LoopFacts.fetch_loop_cons. cbv zeta.
    destruct (pd_read_json _) as [px|].
    + destruct (df_set_index px "date") as [px'|]; [apply IH|].
      cbn. intros [= <-]. now right.
    + destruct (response_json _) as [payload|]; [apply IH|].
      cbn. intros [= <-]. now left.
Qed.

Lemma compose_raises (columns valid_tickers : list string)
  (data : list DataFrame) (w : World) (msg : string) :
  snd (compose columns valid_tickers data w) <> inl (TiingoError msg).
Proof.
  unfold compose.
  destruct (length data =? 0); [discriminate|].
  destruct (length data =? 1);
    [unfold or_raise; destruct (head data); discriminate|].
  destruct (length columns =? 1); unfold bind, or_raise.
  - destruct (pd_concat_axis1 data ["ticker"]) as [df|]; cbn;
      [|discriminate].
    destruct (df_set_columns df valid_tickers); discriminate.
  - destruct (pd_concat_keys data valid_tickers ["ticker"]); discriminate.
Qed.



(** What [get_stock_hist] sends, prints and raises for a frequency that
    is routed: the requests are those of the requested tickers when the
    dates are valid and none otherwise, the warnings about the columns
    come first, and the only [TiingoError] is the one about the dates. *)
Lemma hist_classified (tickers : tickers_arg) (frequency start end_ : string)
  (columns : list string) (base : string) (names : list string) (w : World) :
  routed frequency base names ->
  drop (length (sent w))
    (sent (fst (get_stock_hist provider tickers frequency start end_
                  columns w))) =
  (if _is_valid_date start && _is_valid_date end_
   then
     map (fun t =>
            mkRequest
              (hist_url base t frequency (kept names columns) start end_)
              (session_headers (_tii_headers w)))
       (requested provider (session_headers (_tii_headers w))
          (_build_pre_query base (kept names columns) start end_ frequency)
          (normalize_tickers tickers))
   else []) /\
  (exists lines : list string,
      printed (fst (get_stock_hist provider tickers frequency start end_
                      columns w)) =
      printed w ++ map warn_column (dropped names columns) ++ lines) /\
  (forall msg : string,
      snd (get_stock_hist provider tickers frequency start end_ columns w)
      = inl (TiingoError msg) ->
      msg = err_date).
Proof.
  intros Hr.
  destruct (_is_valid_date start) eqn:Hs;
    [destruct (_is_valid_date end_) eqn:He|]; cbn [andb].
  - rewrite (hist_run tickers frequency start end_ columns base names w
               Hr Hs He).
    rewrite OpFacts.bind_compose_fst.
    split; [|split].
    + rewrite fetch_loop_requested. cbn [sent printing].
      rewrite drop_app_length. apply map_ext. intros t. unfold request_for.
      now rewrite (ReplaceFacts.replace_pre_query frequency base names
                     columns start end_ t Hr Hs He).
    + destruct (fetch_loop_printed (session_headers (_tii_headers w))
                  (_build_pre_query base (kept names columns) start end_
                     frequency)
                  (normalize_tickers tickers) [] []
                  (printing w (map warn_column (dropped names columns))))
        as [lines ->].
      exists lines. cbn [printed printing]. now rewrite <- app_assoc.
    + intros msg. unfold bind.
      destruct (fetch_loop _ _ _ _ _ _ _) as [w' [e|fetched]] eqn:E.
      * cbn [snd]. intros [= ->].
        assert (Hx : snd (fetch_loop provider
                            (session_headers (_tii_headers w))
                            (_build_pre_query base (kept names columns)
                               start end_ frequency)
                            (normalize_tickers tickers) [] []
                            (printing w
                               (map warn_column (dropped names columns))))
                     = inl (TiingoError msg)) by now rewrite E.
        apply fetch_loop_raises in Hx as [Hx|Hx]; discriminate Hx.
      * intros Hx. now apply compose_raises in Hx.
  - unfold get_stock_hist.
    rewrite (Run.bind_inr _ _ _ _ _ (route_exact _ _ _ columns w Hr)), Hs, He.
    cbn. rewrite drop_all.
    split; [reflexivity|]. split; [exists []; now rewrite app_nil_r|].
    now intros msg [= <-].
  - unfold get_stock_hist.
    rewrite (Run.bind_inr _ _ _ _ _ (route_exact _ _ _ columns w Hr)), Hs.
    cbn. rewrite drop_all.
    split; [reflexivity|]. split; [exists []; now rewrite app_nil_r|].
    now intros msg [= <-].
Qed.

End WithLibraries.

End BatchFacts.


(** * The claims *)

(** ** Result assembly and per-ticker failures *)

(** C1, where the code departs from it. Two tickers, both answered with a
    table, and one requested column that the whitelist drops: the query
    carries no column filter, the two tables have two columns each, the
    test on the number of requested columns sends them to the
    side-by-side branch, and the labelling of four columns with two
    ticker symbols raises. *)
Theorem hist_one_dropped_column_raises :
  let provider := Mock.provider Mock.unfiltered_tables in
  let run :=
    @get_stock_hist Mock.libraries provider (Tickers ["AAPL"; "MSFT"])
      "daily" "" "" ["bogus"] Mock.w1 in
  length ["bogus"] = 1 /\
  map url (sent (fst run)) =
    [Mock.daily_url "AAPL" ""; Mock.daily_url "MSFT" ""] /\
  printed (fst run) = [warn_column "bogus"] /\
  @survivors Mock.libraries provider
    (@session_headers Mock.libraries Mock.secret_headers)
    (_build_pre_query _tii_eod [] "" "" "daily") ["AAPL"; "MSFT"]
  = ["AAPL"; "MSFT"] /\
  snd run = inl (ValueError "columns").
Proof. vm_compute. repeat split; reflexivity. Qed.

(** The same batch with a column of the whitelist: the tables have one
    column each and the result has one column per ticker. *)
Example hist_one_kept_column :
  snd (@get_stock_hist Mock.libraries (Mock.provider Mock.close_tables)
         (Tickers ["AAPL"; "MSFT"]) "daily" "" "" ["close"] Mock.w1) =
  let px :=
    Mock.Indexed (Mock.Parsed ["date"; "close"] Mock.close_body) "date" in
  inr (Mock.Relabelled (Mock.SideBySide [px; px] ["ticker"])
         ["AAPL"; "MSFT"]).
Proof. vm_compute. reflexivity. Qed.

(** C2, where the code departs from it. The first of two tickers is
    answered with a body that is neither a table nor JSON: the warning
    decodes the body once more, that raises, and the call ends there;
    the second ticker is never requested and nothing is printed. *)
Theorem hist_non_json_answer_aborts :
  let provider := Mock.provider Mock.gateway_error_first in
  let run :=
    @get_stock_hist Mock.libraries provider (Tickers ["AAPL"; "MSFT"])
      "daily" "" "" [] Mock.w1 in
  @pd_read_json Mock.libraries Mock.html_body = None /\
  @response_json Mock.libraries Mock.html_body = None /\
  map url (sent (fst run)) = [Mock.daily_url "AAPL" ""] /\
  printed (fst run) = [] /\
  snd run = inl JSONDecodeError.
Proof. vm_compute. repeat split; reflexivity. Qed.

(** A ticker the provider does not know is answered with an error payload
    in JSON: it is dropped with a warning and the other ticker gives the
    result. *)
Example hist_unknown_ticker_dropped :
  let run :=
    @get_stock_hist Mock.libraries (Mock.provider Mock.unknown_first)
      (Tickers ["AAPL"; "MSFT"]) "daily" "" "" [] Mock.w1 in
  map url (sent (fst run)) =
    [Mock.daily_url "AAPL" ""; Mock.daily_url "MSFT" ""] /\
  printed (fst run) = [warn_ticker "AAPL" "{'detail': 'Not found.'}"] /\
  snd run =
    inr (Mock.Indexed (Mock.Parsed ["date"; "open"; "close"] Mock.rows_body)
           "date").
Proof. vm_compute. repeat split; reflexivity. Qed.

(** ** Validation *)

(** C3. A frequency token falls in exactly one of three classes. An
    intraday token is routed to the intraday base with the intraday
    historical whitelist, one of the four fixed names to the end-of-day
    base with the end-of-day whitelist: [get_stock_hist] first prints the
    warnings of that whitelist, sends its requests to that base with the
    columns that whitelist keeps (one request per requested ticker when
    the dates are valid, none otherwise) and raises no [TiingoError] but
    the one about the dates. Any other token makes [get_stock_hist] raise
    [TiingoError] with a message that lists the fixed names, and nothing
    is printed or sent. [daily] is end-of-day, [5min] and [4hour] are
    intraday, [5 min] and [weekly2] are invalid. *)
Theorem frequency_classification `{Libraries} (provider : Request -> string)
  (tickers : tickers_arg) (frequency start end_ : string)
  (columns : list string) (w : World) :
  let run (f : string) :=
    get_stock_hist provider tickers f start end_ columns w in
  let sh := session_headers (_tii_headers w) in
  let routed_to (f base endpoint : string) (names : list string) : Prop :=
    let cols := List.filter (fun c => py_in c names) columns in
    resample_route f columns w =
      (printing w (validation_warnings endpoint columns), inr (base, cols)) /\
    drop (length (sent w)) (sent (fst (run f))) =
      (if _is_valid_date start && _is_valid_date end_
       then
         map (fun t => mkRequest (hist_url base t f cols start end_) sh)
           (requested provider sh (_build_pre_query base cols start end_ f)
              (normalize_tickers tickers))
       else []) /\
    (exists lines : list string,
        printed (fst (run f)) =
        printed w ++ validation_warnings endpoint columns ++ lines) /\
    (forall msg : string,
        snd (run f) = inl (TiingoError msg) -> msg = err_date) in
  let refused (f : string) : Prop :=
    run f = (w, inl (TiingoError (err_frequency f))) /\
    Forall (fun alt => exists pre post : string,
                err_frequency f = pre +:+ alt +:+ post)
      _tii_resample_freqs in
  ((intraday_token frequency /\ ~ In frequency _tii_resample_freqs /\
    routed_to frequency _tii_iex "iex_hist" _tii_iex_hist_cols)
   \/
   (~ intraday_token frequency /\ In frequency _tii_resample_freqs /\
    routed_to frequency _tii_eod "eod" _tii_eod_cols)
   \/
   (~ intraday_token frequency /\ ~ In frequency _tii_resample_freqs /\
    refused frequency))
  /\
  routed_to "daily" _tii_eod "eod" _tii_eod_cols /\
  routed_to "5min" _tii_iex "iex_hist" _tii_iex_hist_cols /\
  routed_to "4hour" _tii_iex "iex_hist" _tii_iex_hist_cols /\
  refused "5 min" /\
  refused "weekly2".
Proof.
  cbv zeta.
  assert (Hto : forall (f base endpoint : string) (names : list string),
             routed f base names -> whitelist endpoint = Some names ->
             resample_route f columns w =
               (printing w (validation_warnings endpoint columns),
                inr (base, kept names columns)) /\
             drop (length (sent w))
               (sent (fst (get_stock_hist provider tickers f start end_
                             columns w))) =
               (if _is_valid_date start && _is_valid_date end_
                then
                  map (fun t =>
                         mkRequest
                           (hist_url base t f (kept names columns) start end_)
                           (session_headers (_tii_headers w)))
                    (requested provider (session_headers (_tii_headers w))
                       (_build_pre_query base (kept names columns) start end_
                          f)
                       (normalize_tickers tickers))
                else []) /\
             (exists lines : list string,
                 printed (fst (get_stock_hist provider tickers f start end_
                                 columns w)) =
                 printed w ++ validation_warnings endpoint columns ++ lines) /\
             (forall msg : string,
                 snd (get_stock_hist provider tickers f start end_ columns w)
                 = inl (TiingoError msg) -> msg = err_date)).
  { intros f base endpoint names Hr Hw.
    unfold validation_warnings. rewrite Hw.
    split; [now apply BatchFacts.route_exact|].
    now apply BatchFacts.hist_classified. }
  assert (Hno : forall f : string,
             invalid_frequency f ->
             get_stock_hist provider tickers f start end_ columns w =
               (w, inl (TiingoError (err_frequency f))) /\
             Forall (fun alt => exists pre post : string,
                         err_frequency f = pre +:+ alt +:+ post)
               _tii_resample_freqs).
  { intros f Hf. split; [now apply GateFacts.hist_invalid_frequency|].
    apply FreqFacts.err_frequency_alternatives. }
  assert (Hbad : forall f,
             re_match _tii_resample_pattern f = false ->
             py_in f _tii_resample_freqs = false -> invalid_frequency f).
  { intros f H1 H2. split.
    - rewrite <- ReFacts.re_match_iff. congruence.
    - rewrite <- ColsFacts.py_in_In. congruence. }
  assert (Hday : forall f, re_match _tii_resample_pattern f = true ->
                           routed f _tii_iex _tii_iex_hist_cols).
  { intros f Hf. left. split; [now apply ReFacts.re_match_iff | auto]. }
  split; [|split; [|split; [|split; [|split]]]].
  - destruct (FreqFacts.classes frequency) as [[Ht Hn]|[[Ht Hi]|[Ht Hn]]].
    + left. split; [assumption|]. split; [assumption|].
      apply Hto; [left; auto | reflexivity].
    + right; left. split; [assumption|]. split; [assumption|].
      apply Hto; [right; auto | reflexivity].
    + right; right. split; [assumption|]. split; [assumption|].
      apply Hno. now split.
  - apply Hto; [right; cbn; auto | reflexivity].
  - apply Hto; [apply Hday; reflexivity | reflexivity].
  - apply Hto; [apply Hday; reflexivity | reflexivity].
  - apply Hno, Hbad; reflexivity.
  - apply Hno, Hbad; reflexivity.
Qed.

(** C4, as the code has it. [_is_valid_date] accepts the empty string,
    accepts a non-empty string exactly when [date.fromisoformat] reads it
    as a day from 0001-01-01 to 9999-12-31, and rejects everything else.
    The strings that are read are the calendar dates YYYY-MM-DD and
    YYYYMMDD and the week dates YYYY-Www, YYYYWww, YYYY-Www-D and
    YYYYWwwD, and a YYYYMMDD or YYYYWwwD followed by two more bytes, which
    the parser does not look at. The empty string and 2024-02-10 are
    accepted, 2024-02-30 is rejected. *)
Theorem is_valid_date_spec :
  (forall s : string,
      _is_valid_date s = true <-> s = "" \/ Date.date_string s) /\
  (forall s : string,
      _is_valid_date s = false <-> s <> "" /\ ~ Date.date_string s) /\
  _is_valid_date "" = true /\
  _is_valid_date "2024-02-30" = false /\
  _is_valid_date "2024-02-10" = true.
Proof.
  split; [exact DateFacts.is_valid_date_iff|].
  split; [|repeat split; vm_compute; reflexivity].
  intros s. pose proof (DateFacts.is_valid_date_iff s) as Hs.
  destruct (_is_valid_date s).
  - split; [discriminate|]. intros [Hne Hno].
    destruct Hs as [Hs _]. destruct (Hs eq_refl); contradiction.
  - split; [|reflexivity]. intros _.
    destruct Hs as [_ Hs].
    split; intros Hx; [assert (false = true) by (apply Hs; now left)
                      |assert (false = true) by (apply Hs; now right)];
      discriminate.
Qed.

(** C4 as stated fails in both directions. 20240210 and 2024-W06-6 are
    not of the form YYYY-MM-DD and are accepted; 0000-01-01 is a calendar
    date of that form, of the first of the years that ISO 8601 counts,
    and is rejected, since a [date] starts at the year 0001. *)
Lemma is_valid_date_not_calendar_form :
  (_is_valid_date "20240210" = true /\
   ~ Date.iso_calendar_date "20240210") /\
  (_is_valid_date "2024-W06-6" = true /\
   ~ Date.iso_calendar_date "2024-W06-6") /\
  (Date.iso_calendar_date "0000-01-01" /\
   _is_valid_date "0000-01-01" = false).
Proof.
  split; [|split]; split; try (vm_compute; reflexivity).
  - intros (y1 & y2 & y3 & y4 & m1 & m2 & d1 & d2 & Heq & _).
    discriminate Heq.
  - intros (y1 & y2 & y3 & y4 & m1 & m2 & d1 & d2 & Heq & _).
    discriminate Heq.
  - exists "0"%char, "0"%char, "0"%char, "0"%char, "0"%char, "1"%char,
      "0"%char, "1"%char.
    split; [reflexivity|]. split; [reflexivity|].
    change (Date.calendar_day 0 1 1). unfold Date.calendar_day.
    split; [lia|]. left. split; [now left | lia].
Qed.

(** C5. [_validate_cols] never raises. For one of the three recognised
    endpoint identifiers it returns the candidates that are in the
    whitelist of that endpoint, in input order, and prints one warning per
    candidate it left out; for any other identifier it prints one warning
    and returns the empty sequence. *)
Theorem validate_cols_spec (endpoint : string) (columns : list string)
  (w : World) :
  exists (result warnings : list string),
    _validate_cols endpoint columns w = (printing w warnings, inr result) /\
    ((exists names : list string,
         ((endpoint = "eod" /\ names = _tii_eod_cols) \/
          (endpoint = "iex_last" /\ names = _tii_iex_last_cols) \/
          (endpoint = "iex_hist" /\ names = _tii_iex_hist_cols)) /\
         result = List.filter (fun c => py_in c names) columns /\
         sublist result columns /\
         (forall c : string, In c result <-> In c columns /\ In c names) /\
         warnings =
           map warn_column
             (List.filter (fun c => negb (py_in c names)) columns))
     \/
     (endpoint <> "eod" /\ endpoint <> "iex_last" /\ endpoint <> "iex_hist" /\
      result = [] /\ warnings = [warn_endpoint])).
Proof.
  exists (validated endpoint columns), (validation_warnings endpoint columns).
  split; [apply ColsFacts.validate_cols_run|].
  unfold validated, validation_warnings.
  destruct (ColsFacts.whitelist_cases endpoint)
    as [[He ->]|[[He ->]|[[He ->]|(H1 & H2 & H3 & ->)]]].
  - left. exists _tii_eod_cols.
    split; [now left|]. split; [reflexivity|].
    split; [apply ColsFacts.kept_sublist|].
    split; [intros c; apply ColsFacts.kept_In | reflexivity].
  - left. exists _tii_iex_last_cols.
    split; [right; now left|]. split; [reflexivity|].
    split; [apply ColsFacts.kept_sublist|].
    split; [intros c; apply ColsFacts.kept_In | reflexivity].
  - left. exists _tii_iex_hist_cols.
    split; [right; now right|]. split; [reflexivity|].
    split; [apply ColsFacts.kept_sublist|].
    split; [intros c; apply ColsFacts.kept_In | reflexivity].
  - right. auto.
Qed.

(** C6, as the code has it. A call of [get_stock_hist] with an invalid
    frequency token, or with a start or end date that the date validation
    rejects (it is not empty and names no day for [date.fromisoformat]),
    raises [TiingoError] with one of the two messages of the client; no
    request has been sent and the client is as it was. *)
Theorem invalid_input_raises_before_request `{Libraries}
  (provider : Request -> string) (tickers : tickers_arg)
  (frequency start end_ : string) (columns : list string) (w : World) :
  invalid_frequency frequency \/ malformed_date start \/ malformed_date end_ ->
  exists (msg : string) (w' : World),
    get_stock_hist provider tickers frequency start end_ columns w =
      (w', inl (TiingoError msg)) /\
    (msg = err_frequency frequency \/ msg = err_date) /\
    sent w' = sent w /\
    _tii_headers w' = _tii_headers w.
Proof.
  intros Hbad.
  destruct (FreqFacts.classes frequency) as [Hc|[Hc|Hinv]].
  1,2: assert (Hok : ~ invalid_frequency frequency)
         by (intros [H1 H2]; tauto).
  1,2: destruct Hbad as [Hinv|Hbad]; [contradiction|].
  1,2: destruct (GateFacts.hist_malformed_date provider tickers frequency
                   start end_ columns w Hok Hbad) as [warnings Hrun].
  1,2: exists err_date, (printing w warnings); rewrite Hrun; auto.
  exists (err_frequency frequency), w.
  rewrite GateFacts.hist_invalid_frequency by assumption. auto.
Qed.

Lemma invalid_input_raises_before_request_witness :
  invalid_frequency "xyz" /\
  exists (msg : string) (w' : World),
    @get_stock_hist Mock.libraries (Mock.provider [])
      (Tickers ["AAPL"]) "xyz" "" "" [] Mock.w1 =
      (w', inl (TiingoError msg)) /\
    (msg = err_frequency "xyz" \/ msg = err_date) /\
    sent w' = sent Mock.w1 /\
    _tii_headers w' = _tii_headers Mock.w1.
Proof.
  assert (Hbad : invalid_frequency "xyz").
  { split.
    - intros Ht. apply ReFacts.re_match_iff in Ht.
      vm_compute in Ht. discriminate.
    - cbn. intuition discriminate. }
  split; [exact Hbad|].
  apply (@invalid_input_raises_before_request Mock.libraries).
  left. exact Hbad.
Defined.

(** C6 as stated fails: 20240210 is not empty and not of the form
    YYYY-MM-DD that the specification and the message of the date error
    ask for, and a call with it as the start date raises nothing: the
    request is sent with the date in it as it was given. *)
Lemma hist_basic_date_not_refused :
  let run :=
    @get_stock_hist Mock.libraries (Mock.provider []) (OneTicker "AAPL")
      "daily" "20240210" "" [] Mock.w1 in
  ("20240210" <> "" /\ ~ Date.iso_calendar_date "20240210") /\
  map url (sent (fst run)) = [Mock.daily_url "AAPL" "&startDate=20240210"] /\
  snd run = inr Mock.Empty.
Proof.
  cbv zeta. split; [split; [discriminate|]|split; vm_compute; reflexivity].
  intros (y1 & y2 & y3 & y4 & m1 & m2 & d1 & d2 & Heq & _).
  discriminate Heq.
Qed.

(** ** Requests *)



(** C8. [get_stock_last] sends exactly one request, whatever the number of
    tickers: its URL is the intraday base, [?tickers=] with the tickers
    joined by commas, [&format=csv], and [&columns=] with the columns
    kept by the last-quote whitelist when there is one. The result is what
    [read_csv] makes of the body with the ticker column as index; a body
    that does not parse raises out of the call. *)
Theorem last_quote_single_request `{Libraries} (provider : Request -> string)
  (tickers : tickers_arg) (columns : list string) (w : World) :
  let cols := List.filter (fun c => py_in c _tii_iex_last_cols) columns in
  let ts := match tickers with OneTicker t => [t] | Tickers l => l end in
  let u :=
    "https://api.tiingo.com/iex/?tickers=" +:+ Str.join "," ts
    +:+ "&format=csv"
    +:+ (match cols with
         | [] => ""
         | _ :: _ => "&columns=" +:+ Str.join "," cols
         end) in
  let rq := mkRequest u (_tii_headers w ∪ default_headers) in
  let run := get_stock_last provider tickers columns w in
  sent (fst run) = sent w ++ [rq] /\
  _tii_headers (fst run) = _tii_headers w /\
  snd run =
    match pd_read_csv (provider rq) "ticker" with
    | Some px => inr px
    | None => inl (ValueError "read_csv")
    end.
Proof.
  cbv zeta. rewrite OpFacts.last_run. cbn [fst snd sent _tii_headers].
  repeat split.
Qed.

(** ** Construction and the state of the client *)

(** C9, as the code has it. Construction sends exactly one request, the
    token check, and never a second one. It raises [TiingoError], with the
    provider's answer in the message, exactly when the answer is an object
    whose [message] field is the rejection text; it succeeds exactly when
    the answer is an object whose [message] field is anything else. *)
Theorem init_token_check `{Libraries} (provider : Request -> string)
  (token : string) (w : World) :
  let hdrs : gmap string string :=
    {[ "Content-Type" := "application/json";
       "Authorization" := "Token " +:+ token ]} in
  let rq :=
    mkRequest ("https://api.tiingo.com/api/test?token=" +:+ token)
      (hdrs ∪ default_headers) in
  let run := __init__ provider token w in
  fst run = mkWorld hdrs (sent w ++ [rq]) (printed w) /\
  ((exists msg : string, snd run = inl (TiingoError msg)) <->
   (exists fields : gmap string JSON,
       response_json (provider rq) = Some (JObj fields) /\
       fields !! "message" = Some (JStr rejection_text) /\
       snd run =
         inl (TiingoError (err_token token (json_str (JObj fields)))))) /\
  (snd run = inr tt <->
   (exists (fields : gmap string JSON) (m : JSON),
       response_json (provider rq) = Some (JObj fields) /\
       fields !! "message" = Some m /\
       m <> JStr rejection_text)).
Proof.
  cbv zeta. rewrite FrameFacts.init_run. cbv zeta. cbn [fst snd].
  split; [reflexivity|].
  destruct (response_json _) as [r|]; [|split; split; FrameFacts.absurd].
  destruct r as [| | | | |fields]; try (split; split; FrameFacts.absurd).
  destruct (fields !! "message") as [m|] eqn:Em;
    [|split; split; FrameFacts.absurd].
  destruct (json_eq_str m rejection_text) eqn:Ej.
  - apply FrameFacts.json_eq_str_iff in Ej. subst m.
    split; split; try FrameFacts.absurd.
    + intros _. exists fields. auto.
    + intros _. eexists; reflexivity.
  - assert (Hne : m <> JStr rejection_text).
    { intros Hm. apply FrameFacts.json_eq_str_iff in Hm. congruence. }
    split; split; try FrameFacts.absurd.
    intros _. exists fields, m. auto.
Qed.

(** C9 as stated fails: the token check is answered by an object without
    a [message] field, which is not the rejection, and the construction
    does not give a client: it raises [KeyError]. *)
Lemma init_without_message_fails :
  let run :=
    @__init__ Mock.libraries (Mock.provider Mock.check_without_message)
      "secret" Mock.w0 in
  @response_json Mock.libraries "{}" = Some (JObj ∅) /\
  (∅ : gmap string JSON) !! "message" = None /\
  snd run <> inr tt /\
  snd run = inl (KeyError "message").
Proof. vm_compute. repeat split; try reflexivity. discriminate. Qed.

(** C10. The attribute that [__init__] writes is the headers dictionary
    with its two entries; the three public operations leave it as they
    found it, whatever they return or raise, and so does any sequence of
    calls of them. *)
Theorem client_headers_unchanged `{Libraries} (provider : Request -> string) :
  (forall (token : string) (w : World),
      _tii_headers (fst (__init__ provider token w)) =
      {[ "Content-Type" := "application/json";
         "Authorization" := "Token " +:+ token ]}) /\
  (forall (ticker : string) (w : World),
      _tii_headers (fst (get_stock_metadata provider ticker w)) =
      _tii_headers w) /\
  (forall (tickers : tickers_arg) (frequency start end_ : string)
          (columns : list string) (w : World),
      _tii_headers
        (fst (get_stock_hist provider tickers frequency start end_ columns w))
      = _tii_headers w) /\
  (forall (tickers : tickers_arg) (columns : list string) (w : World),
      _tii_headers (fst (get_stock_last provider tickers columns w)) =
      _tii_headers w) /\
  (forall (calls : list call) (w : World),
      _tii_headers (run_calls provider calls w) = _tii_headers w).
Proof.
  split; [|split; [|split; [|split]]].
  - intros token w. now rewrite FrameFacts.init_run.
  - intros ticker. apply FrameFacts.preserves_metadata.
  - intros tickers frequency start end_ columns.
    apply FrameFacts.preserves_hist.
  - intros tickers columns. apply FrameFacts.preserves_last.
  - apply FrameFacts.preserves_run_calls.
Qed.

(** * Further properties of the client *)

(** ** What a call sends and prints, for every input *)

Module EffectFacts.

Lemma warn_column_not_endpoint (column : string) :
  warn_column column <> warn_endpoint.
Proof. intros Heq. vm_compute in Heq. discriminate Heq. Qed.

Lemma warn_ticker_not_endpoint (ticker shown : string) :
  warn_ticker ticker shown <> warn_endpoint.
Proof. intros Heq. vm_compute in Heq. discriminate Heq. Qed.

Lemma dropped_In (names columns : list string) (c : string) :
  In c (dropped names columns) <-> In c columns /\ ~ In c names.
Proof.
  unfold dropped. rewrite filter_In, negb_true_iff.
  rewrite <- (ColsFacts.py_in_In c names).
  destruct (py_in c names); intuition congruence.
Qed.

Section WithLibraries.

Context `{Libraries}.
Variable provider : Request -> string.

(** The loop sends the requests of a prefix of the batch and prints
    warnings about tickers of the batch only. *)
Lemma fetch_loop_effects (sh : gmap string string) (tii_request : string)
  (tickers : list string) :
  forall (valid_tickers : list string) (data : list DataFrame) (w : World),
  exists (n : nat) (lines : list string),
    n <= length tickers /\
    fst (fetch_loop provider sh tii_request tickers valid_tickers data w) =
    mkWorld (_tii_headers w)
      (sent w ++ map (request_for sh tii_request) (take n tickers))
      (printed w ++ lines) /\
    Forall (fun l => exists t shown, In t tickers /\ l = warn_ticker t shown)
      lines.
Proof.
  induction tickers as [|t rest IH]; intros vt data w.
  - exists 0, []. cbn. rewrite !app_nil_r. destruct w. auto.
  - rewrite LoopFacts.fetch_loop_cons. cbv zeta.
    destruct (pd_read_json _) as [px|].
    + destruct (df_set_index px "date") as [px'|].
      * destruct (IH (vt ++ [t]) (data ++ [px'])
                    (sending w [request_for sh tii_request t]))
          as (n & lines & Hn & -> & Hl).
        exists (S n), lines. split; [cbn; lia|]. split.
        -- cbn. now rewrite <- app_assoc.
        -- eapply List.Forall_impl; [|exact Hl].
           intros l (t' & shown & Hin & ->). exists t', shown.
           split; [now right | reflexivity].
      * exists 1, []. cbn. rewrite take_0, app_nil_r. split; [lia|]. auto.
    + destruct (response_json _) as [payload|].
      * destruct (IH vt data
                    (printing (sending w [request_for sh tii_request t])
                       [warn_ticker t (json_str payload)]))
          as (n & lines & Hn & -> & Hl).
        exists (S n), (warn_ticker t (json_str payload) :: lines).
        split; [cbn; lia|]. split.
        -- cbn. now rewrite <- !app_assoc.
        -- constructor.
           ++ exists t, (json_str payload). split; [now left | reflexivity].
           ++ eapply List.Forall_impl; [|exact Hl].
              intros l (t' & shown & Hin & ->). exists t', shown.
              split; [now right | reflexivity].
      * exists 1, []. cbn. rewrite take_0, app_nil_r. split; [lia|]. auto.
Qed.

(** A frequency token is invalid or routed somewhere. *)
Lemma invalid_or_routed (frequency : string) :
  invalid_frequency frequency \/
  exists base names, routed frequency base names.
Proof.
  destruct (FreqFacts.classes frequency) as [[Ht _]|[[_ Hin]|Hinv]].
  - right. exists _tii_iex, _tii_iex_hist_cols. left. auto.
  - right. exists _tii_eod, _tii_eod_cols. right. auto.
  - now left.
Qed.

(** The effects of [get_stock_hist], whatever its arguments. *)
Lemma hist_effects (tickers : tickers_arg) (frequency start end_ : string)
  (columns : list string) (w : World) :
  exists (n : nat) (tii_request : string) (col_lines lines : list string),
    n <= length (normalize_tickers tickers) /\
    fst (get_stock_hist provider tickers frequency start end_ columns w) =
    mkWorld (_tii_headers w)
      (sent w ++
       map (request_for (session_headers (_tii_headers w)) tii_request)
         (take n (normalize_tickers tickers)))
      (printed w ++ col_lines ++ lines) /\
    Forall (fun l => exists col, In col columns /\ l = warn_column col)
      col_lines /\
    Forall (fun l => exists t shown,
                In t (normalize_tickers tickers) /\ l = warn_ticker t shown)
      lines.
Proof.
  destruct (invalid_or_routed frequency) as [Hinv|(base & names & Hr)].
  - exists 0, "", [], [].
    rewrite GateFacts.hist_invalid_frequency by assumption.
    cbn. rewrite !app_nil_r. destruct w. split; [lia|]. auto.
  - assert (Hcols : Forall (fun l => exists col,
                         In col columns /\ l = warn_column col)
                      (map warn_column (dropped names columns))).
    { apply List.Forall_forall. intros l Hl.
      apply in_map_iff in Hl as (col & <- & Hin).
      apply dropped_In in Hin as [Hin _]. now exists col. }
    destruct (negb (_is_valid_date start) || negb (_is_valid_date end_))
      eqn:Hd.
    + exists 0, "", (map warn_column (dropped names columns)), [].
      unfold get_stock_hist.
      rewrite (Run.bind_inr _ _ _ _ _
                 (BatchFacts.route_exact _ _ _ columns w Hr)), Hd.
      cbn. rewrite !app_nil_r. split; [lia|]. auto.
    + apply orb_false_elim in Hd as [Hs He].
      apply negb_false_iff in Hs, He.
      rewrite (BatchFacts.hist_run provider tickers frequency start end_
                 columns base names w Hr Hs He).
      rewrite OpFacts.bind_compose_fst.
      destruct (fetch_loop_effects (session_headers (_tii_headers w))
                  (_build_pre_query base (kept names columns) start end_
                     frequency)
                  (normalize_tickers tickers) [] []
                  (printing w (map warn_column (dropped names columns))))
        as (n & lines & Hn & -> & Hl).
      exists n, (_build_pre_query base (kept names columns) start end_
                   frequency),
        (map warn_column (dropped names columns)), lines.
      cbn. rewrite <- app_assoc. auto.
Qed.

(** The effects of one call. *)
Lemma call_effects (c : call) (w : World) :
  exists (rqs : list Request) (lines : list string),
    run_call provider c w =
    mkWorld (_tii_headers w) (sent w ++ rqs) (printed w ++ lines) /\
    length rqs <= call_budget c /\
    Forall (fun rq => headers rq = _tii_headers w ∪ default_headers) rqs /\
    Forall (fun l =>
              (exists col, In col (call_columns c) /\ l = warn_column col) \/
              (exists t shown,
                  In t (call_tickers c) /\ l = warn_ticker t shown))
      lines.
Proof.
  destruct c as [ticker|tickers frequency start end_ columns|tickers columns];
    cbn [run_call call_budget call_columns call_tickers].
  - exists [mkRequest (_tii_eod +:+ ticker)
              (_tii_headers w ∪ default_headers)], [].
    unfold get_stock_metadata, bind, get_tii_headers, requests_get, send.
    cbn [fst snd _tii_headers sent printed].
    rewrite app_nil_r. split.
    + now destruct (response_json _).
    + split; [cbn; lia|]. split; repeat constructor.
  - destruct (hist_effects tickers frequency start end_ columns w)
      as (n & req & col_lines & lines & Hn & -> & Hc & Hl).
    eexists _, (col_lines ++ lines). split; [reflexivity|].
    split; [rewrite length_map, length_take; lia|]. split.
    + apply List.Forall_forall. intros rq Hin.
      apply in_map_iff in Hin as (t & <- & _). reflexivity.
    + apply Forall_app. split.
      * eapply List.Forall_impl; [|exact Hc]. intros l Hx. now left.
      * eapply List.Forall_impl; [|exact Hl]. intros l Hx. now right.
  - rewrite OpFacts.last_run. cbn [fst].
    eexists [_], _. split; [reflexivity|].
    split; [cbn; lia|]. split; [repeat constructor|].
    apply List.Forall_forall. intros l Hl.
    apply in_map_iff in Hl as (col & <- & Hin).
    apply dropped_In in Hin as [Hin _]. left. now exists col.
Qed.

(** The effects of a sequence of calls. *)
Lemma calls_effects (cs : list call) :
  forall w : World,
  exists (rqs : list Request) (lines : list string),
    run_calls provider cs w =
    mkWorld (_tii_headers w) (sent w ++ rqs) (printed w ++ lines) /\
    length rqs <= list_sum (map call_budget cs) /\
    Forall (fun rq => headers rq = _tii_headers w ∪ default_headers) rqs /\
    Forall (fun l =>
              exists c, In c cs /\
                ((exists col, In col (call_columns c) /\
                              l = warn_column col) \/
                 (exists t shown,
                     In t (call_tickers c) /\ l = warn_ticker t shown)))
      lines.
Proof.
  unfold run_calls.
  induction cs as [|c cs IH]; intros w.
  - exists [], []. cbn. rewrite !app_nil_r. destruct w. auto.
  - cbn [fold_left].
    destruct (call_effects c w) as (rqs1 & lines1 & -> & Hn1 & Hh1 & Hl1).
    destruct (IH (mkWorld (_tii_headers w) (sent w ++ rqs1)
                    (printed w ++ lines1)))
      as (rqs2 & lines2 & -> & Hn2 & Hh2 & Hl2).
    exists (rqs1 ++ rqs2), (lines1 ++ lines2).
    cbn [_tii_headers sent printed] in *.
    rewrite <- !app_assoc. split; [reflexivity|].
    split.
    { rewrite length_app.
      change (list_sum (map call_budget (c :: cs)))
        with (call_budget c + list_sum (map call_budget cs)).
      lia. }
    split.
    + apply Forall_app. auto.
    + apply Forall_app. split.
      * eapply List.Forall_impl; [|exact Hl1]. intros l Hx.
        exists c. split; [now left | exact Hx].
      * eapply List.Forall_impl; [|exact Hl2]. intros l (c' & Hin & Hx).
        exists c'. split; [now right | exact Hx].
Qed.

End WithLibraries.

End EffectFacts.

(** ** Characters of the validated parameters *)

Module PlainFacts.

Lemma all_impl (p q : ascii -> bool) (s : string) :
  (forall c, p c = true -> q c = true) ->
  Str.all p s = true -> Str.all q s = true.
Proof.
  intros Hpq. induction s as [|c s IH]; [reflexivity|].
  cbn [Str.all]. intros Hs. apply andb_prop in Hs as [Hc Hs].
  now rewrite (Hpq c Hc), IH.
Qed.

Lemma all_not_mem (p : ascii -> bool) (d : ascii) (s : string) :
  p d = false -> Str.all p s = true -> Str.mem d s = false.
Proof.
  intros Hd. induction s as [|c s IH]; [reflexivity|].
  cbn [Str.all Str.mem]. intros Hs. apply andb_prop in Hs as [Hc Hs].
  rewrite (IH Hs), orb_false_r.
  destruct (Ascii.eqb_spec d c) as [->|]; [congruence | reflexivity].
Qed.

Lemma digit_plain (c : ascii) : Str.is_digit c = true -> plain_char c = true.
Proof. unfold plain_char. now intros ->. Qed.

Lemma plain_append (a b : string) : plain (a +:+ b) = plain a && plain b.
Proof. apply ReFacts.all_append. Qed.

Lemma frequency_plain (frequency base : string) (names : list string) :
  routed frequency base names -> plain frequency = true.
Proof.
  intros [((ds & _ & Hd & Hs) & _)|(Hin & _)].
  - assert (Hp : plain ds = true)
      by (apply (all_impl _ _ _ digit_plain); exact Hd).
    destruct Hs as [-> | ->]; now rewrite plain_append, Hp.
  - cbn in Hin. destruct Hin as [<-|[<-|[<-|[<-|[]]]]]; reflexivity.
Qed.

Lemma date_char_plain (c : ascii) :
  Date.date_char c = true -> plain_char c = true.
Proof.
  unfold Date.date_char, plain_char. intros Hc.
  destruct (Str.is_digit c); [reflexivity|].
  destruct (Ascii.eqb c "-") eqn:E; [now rewrite orb_true_r|].
  cbn [orb] in Hc. apply Ascii.eqb_eq in Hc. subst c. reflexivity.
Qed.

(** A date that passed the validation is plain, up to the two bytes that
    may follow its first eight. *)
Lemma date_plain (s : string) :
  _is_valid_date s = true ->
  exists body rest : string,
    s = body +:+ rest /\ plain body = true /\
    (rest = "" \/ (String.length body = 8 /\ String.length rest = 2)).
Proof.
  intros Hv. apply DateFacts.is_valid_date_iff in Hv as [->|Hd].
  - exists "", "". auto.
  - apply DateFacts.date_string_shape in Hd as (body & rest & -> & Hb & Hr).
    exists body, rest. split; [reflexivity|]. split; [|exact Hr].
    exact (all_impl _ _ _ date_char_plain Hb).
Qed.

Lemma kept_plain (frequency base : string) (names columns : list string) :
  routed frequency base names ->
  Forall (fun c => plain c = true) (kept names columns).
Proof.
  intros Hr.
  assert (Hn : forallb plain names = true)
    by (destruct Hr as [(_ & _ & ->)|(_ & _ & ->)]; reflexivity).
  apply List.Forall_forall. intros c Hc.
  apply ColsFacts.kept_In in Hc as [_ Hc].
  rewrite forallb_forall in Hn. now apply Hn.
Qed.

Lemma plain_no_delimiter (s : string) :
  plain s = true -> Forall (fun d => Str.mem d s = false) url_delimiters.
Proof.
  intros Hp. unfold url_delimiters.
  repeat constructor; now apply (all_not_mem plain_char).
Qed.

End PlainFacts.

(** ** Metadata *)

(** [get_stock_metadata] sends one request, to the end-of-day base
    followed by the ticker as given, with the headers of the client over
    those of the library; it prints nothing and returns the decoded body,
    or raises the decoding error of the body. *)
Theorem metadata_single_request `{Libraries} (provider : Request -> string)
  (ticker : string) (w : World) :
  let rq :=
    mkRequest ("https://api.tiingo.com/tiingo/daily/" +:+ ticker)
      (_tii_headers w ∪ default_headers) in
  get_stock_metadata provider ticker w =
  (mkWorld (_tii_headers w) (sent w ++ [rq]) (printed w),
   match response_json (provider rq) with
   | Some r => inr r
   | None => inl JSONDecodeError
   end).
Proof.
  cbv zeta.
  unfold get_stock_metadata, bind, get_tii_headers, requests_get, send.
  cbn [fst snd _tii_headers sent printed].
  now destruct (response_json _).
Qed.

(** ** Headers and number of the requests *)

(** X1. After [__init__] with a token, the validation request and every
    request of every later sequence of calls carry the authorization
    header of that token and the JSON content type: no default of the
    library takes their place. *)
Theorem requests_carry_token `{Libraries} (provider : Request -> string)
  (token : string) (calls : list call) (w : World) :
  let w1 := fst (__init__ provider token w) in
  Forall (fun rq =>
            headers rq !! "Authorization" = Some ("Token " +:+ token) /\
            headers rq !! "Content-Type" = Some "application/json")
    (drop (length (sent w)) (sent (run_calls provider calls w1))).
Proof.
  cbv zeta. rewrite FrameFacts.init_run. cbv zeta. cbn [fst].
  set (hdrs := ({[ "Content-Type" := "application/json";
                   "Authorization" := "Token " +:+ token ]}
                : gmap string string)).
  set (rq0 := mkRequest _ _).
  destruct (EffectFacts.calls_effects provider calls
              (mkWorld hdrs (sent w ++ [rq0]) (printed w)))
    as (rqs & lines & -> & _ & Hh & _).
  cbn [sent _tii_headers] in *.
  rewrite <- app_assoc, drop_app_length.
  assert (Hk : forall rq : Request,
             headers rq = hdrs ∪ default_headers ->
             headers rq !! "Authorization" = Some ("Token " +:+ token) /\
             headers rq !! "Content-Type" = Some "application/json").
  { intros rq ->. unfold hdrs.
    split; apply lookup_union_Some_l; by simplify_map_eq. }
  apply Forall_app. split.
  - constructor; [now apply Hk | constructor].
  - eapply List.Forall_impl; [|exact Hh]. exact Hk.
Qed.

(** X10. A sequence of calls sends at most one request per ticker of each
    historical call and one request for each other call: nothing is sent
    twice for a ticker and nothing is retried. *)
Theorem calls_request_budget `{Libraries} (provider : Request -> string)
  (calls : list call) (w : World) :
  exists rqs : list Request,
    sent (run_calls provider calls w) = sent w ++ rqs /\
    length rqs <= list_sum (map call_budget calls).
Proof.
  destruct (EffectFacts.calls_effects provider calls w)
    as (rqs & lines & -> & Hn & _ & _).
  exists rqs. auto.
Qed.

(** ** Printed lines *)

(** X9. Every line that a sequence of calls prints is the warning about
    a column that one of the calls asked for or the warning about a ticker
    of one of the calls; the warning of [_validate_cols] about an
    endpoint it does not know is never printed. *)
Theorem calls_print_only_warnings `{Libraries} (provider : Request -> string)
  (calls : list call) (w : World) :
  exists lines : list string,
    printed (run_calls provider calls w) = printed w ++ lines /\
    Forall (fun l =>
              exists c, In c calls /\
                ((exists col, In col (call_columns c) /\
                              l = warn_column col) \/
                 (exists t shown,
                     In t (call_tickers c) /\ l = warn_ticker t shown)))
      lines /\
    ~ In warn_endpoint lines.
Proof.
  destruct (EffectFacts.calls_effects provider calls w)
    as (rqs & lines & -> & _ & _ & Hl).
  exists lines. split; [reflexivity|]. split; [exact Hl|].
  intros Hin. rewrite List.Forall_forall in Hl.
  destruct (Hl _ Hin) as (c & _ & [(col & _ & Heq)|(t & shown & _ & Heq)]).
  - symmetry in Heq. now apply EffectFacts.warn_column_not_endpoint in Heq.
  - symmetry in Heq. now apply EffectFacts.warn_ticker_not_endpoint in Heq.
Qed.

(** ** Column validation, again *)

Module ColsMore.

Lemma kept_kept (names columns : list string) :
  kept names (kept names columns) = kept names columns.
Proof.
  unfold kept. induction columns as [|c cs IH]; [reflexivity|].
  cbn [List.filter]. destruct (py_in c names) eqn:E; [|exact IH].
  cbn [List.filter]. now rewrite E, IH.
Qed.

Lemma dropped_kept (names columns : list string) :
  dropped names (kept names columns) = [].
Proof.
  unfold dropped, kept. induction columns as [|c cs IH]; [reflexivity|].
  cbn [List.filter]. destruct (py_in c names) eqn:E; [|exact IH].
  cbn [List.filter]. now rewrite E, IH.
Qed.

Lemma dropped_nil_iff (names columns : list string) :
  dropped names columns = [] <-> Forall (fun c => In c names) columns.
Proof.
  unfold dropped. induction columns as [|c cs IH]; [split; auto|].
  cbn [List.filter]. destruct (py_in c names) eqn:E; cbn [negb].
  - rewrite IH. apply ColsFacts.py_in_In in E. split.
    + intros Hcs. now constructor.
    + now inversion 1.
  - split; [discriminate|]. inversion 1 as [|? ? Hc Hcs]; subst.
    apply ColsFacts.py_in_In in Hc. congruence.
Qed.

End ColsMore.

(** X3. For an endpoint that [_validate_cols] knows, validating its own
    result changes nothing and prints nothing, and a call prints nothing
    exactly when every candidate is in the whitelist. *)
Theorem validate_cols_idempotent (endpoint : string)
  (names columns : list string) (w : World) :
  whitelist endpoint = Some names ->
  let valid := List.filter (fun c => py_in c names) columns in
  _validate_cols endpoint columns w =
    (printing w (map warn_column
                   (List.filter (fun c => negb (py_in c names)) columns)),
     inr valid) /\
  _validate_cols endpoint valid w = (w, inr valid) /\
  (printed (fst (_validate_cols endpoint columns w)) = printed w <->
   Forall (fun c => In c names) columns).
Proof.
  intros Hw. cbv zeta. fold (kept names columns) (dropped names columns).
  assert (Hrun : forall cols,
             _validate_cols endpoint cols w =
             (printing w (map warn_column (dropped names cols)),
              inr (kept names cols))).
  { intros cols. rewrite ColsFacts.validate_cols_run.
    unfold validation_warnings, validated. now rewrite Hw. }
  split; [apply Hrun|]. split.
  - rewrite Hrun, ColsMore.kept_kept, ColsMore.dropped_kept.
    cbn [map]. now rewrite ColsFacts.printing_nil.
  - rewrite Hrun, <- ColsMore.dropped_nil_iff. cbn [fst printed printing].
    split.
    + intros Hp. rewrite <- (app_nil_r (printed w)) in Hp at 2.
      apply app_inv_head in Hp.
      now destruct (dropped names columns).
    + intros ->. cbn. now rewrite app_nil_r.
Qed.

Lemma validate_cols_idempotent_witness :
  whitelist "iex_last" = Some _tii_iex_last_cols /\
  let valid :=
    List.filter (fun c => py_in c _tii_iex_last_cols)
      ["last"; "nope"; "mid"] in
  _validate_cols "iex_last" ["last"; "nope"; "mid"] Mock.w1 =
    (printing Mock.w1
       (map warn_column
          (List.filter (fun c => negb (py_in c _tii_iex_last_cols))
             ["last"; "nope"; "mid"])),
     inr valid) /\
  _validate_cols "iex_last" valid Mock.w1 = (Mock.w1, inr valid) /\
  (printed (fst (_validate_cols "iex_last" ["last"; "nope"; "mid"] Mock.w1))
   = printed Mock.w1 <->
   Forall (fun c => In c _tii_iex_last_cols) ["last"; "nope"; "mid"]).
Proof.
  split; [reflexivity|].
  exact (validate_cols_idempotent "iex_last" _tii_iex_last_cols
           ["last"; "nope"; "mid"] Mock.w1 eq_refl).
Defined.

(** ** The gates of [get_stock_hist] *)

(** X2. The columns are validated before the dates are looked at: a call
    with a valid frequency and a start or end date that the date
    validation rejects (it is not empty and names no day) has already
    printed the warnings about the columns it dropped when it raises the
    date error; it has sent nothing. *)
Theorem hist_date_error_after_column_warnings `{Libraries}
  (provider : Request -> string) (tickers : tickers_arg)
  (frequency start end_ : string) (columns : list string)
  (base : string) (names : list string) (w : World) :
  routed frequency base names ->
  malformed_date start \/ malformed_date end_ ->
  get_stock_hist provider tickers frequency start end_ columns w =
  (mkWorld (_tii_headers w) (sent w)
     (printed w ++
      map warn_column
        (List.filter (fun c => negb (py_in c names)) columns)),
   inl (TiingoError err_date)).
Proof.
  intros Hr Hbad. unfold get_stock_hist.
  rewrite (Run.bind_inr _ _ _ _ _
             (BatchFacts.route_exact _ _ _ columns w Hr)).
  assert (Hd : negb (_is_valid_date start) || negb (_is_valid_date end_)
               = true).
  { apply orb_true_iff.
    destruct Hbad as [[Hne Hno]|[Hne Hno]]; [left|right];
      apply negb_true_iff;
      match goal with |- _is_valid_date ?s = false =>
        destruct (_is_valid_date s) eqn:E; [|reflexivity];
        apply DateFacts.is_valid_date_iff in E; destruct E; contradiction
      end. }
  now rewrite Hd.
Qed.

Lemma hist_date_error_after_column_warnings_witness :
  routed "5min" _tii_iex _tii_iex_hist_cols /\
  (malformed_date "2024-02-30" \/ malformed_date "") /\
  @get_stock_hist Mock.libraries (Mock.provider []) (OneTicker "AAPL")
    "5min" "2024-02-30" "" ["close"; "adjClose"] Mock.w1 =
  (mkWorld (_tii_headers Mock.w1) (sent Mock.w1)
     (printed Mock.w1 ++
      map warn_column
        (List.filter (fun c => negb (py_in c _tii_iex_hist_cols))
           ["close"; "adjClose"])),
   inl (TiingoError err_date)).
Proof.
  assert (Hr : routed "5min" _tii_iex _tii_iex_hist_cols).
  { left. split; [|auto]. apply ReFacts.re_match_iff. reflexivity. }
  assert (Hd : malformed_date "2024-02-30" \/ malformed_date "").
  { left. split; [discriminate|]. intros Hiso.
    assert (Hv : _is_valid_date "2024-02-30" = true)
      by (apply DateFacts.is_valid_date_iff; now right).
    vm_compute in Hv. discriminate Hv. }
  split; [exact Hr|]. split; [exact Hd|].
  exact (@hist_date_error_after_column_warnings Mock.libraries
           (Mock.provider []) (OneTicker "AAPL") "5min" "2024-02-30" ""
           ["close"; "adjClose"] _tii_iex _tii_iex_hist_cols Mock.w1 Hr Hd).
Defined.

(** X11. What passes the validation is plain text, but for two bytes of
    a date. A routed frequency and every column that is kept consist of
    ASCII letters, digits and dashes only, so none of them holds a
    character that separates parts of the query into which they are
    copied as they are. A valid start or end date consists of such
    characters too, except that a date of ten bytes may be one of eight
    plain bytes followed by two bytes of any kind. *)
Theorem validated_parameters_plain (frequency base : string)
  (names columns : list string) (start end_ : string) :
  routed frequency base names ->
  _is_valid_date start = true ->
  _is_valid_date end_ = true ->
  let parts := frequency :: List.filter (fun c => py_in c names) columns in
  Forall (fun s => plain s = true) parts /\
  Forall (fun s => Forall (fun d => Str.mem d s = false) url_delimiters)
    parts /\
  Forall (fun s => exists body rest : string,
              s = body +:+ rest /\ plain body = true /\
              Forall (fun d => Str.mem d body = false) url_delimiters /\
              (rest = "" \/
               (String.length body = 8 /\ String.length rest = 2)))
    [start; end_].
Proof.
  intros Hr Hs He. cbv zeta. fold (kept names columns).
  assert (Hp : Forall (fun s => plain s = true)
                 (frequency :: kept names columns)).
  { constructor; [now apply (PlainFacts.frequency_plain _ base names)|].
    now apply (PlainFacts.kept_plain frequency base). }
  split; [exact Hp|]. split.
  - eapply List.Forall_impl; [|exact Hp].
    intros s. apply PlainFacts.plain_no_delimiter.
  - assert (Hdate : forall s, _is_valid_date s = true ->
                exists body rest : string,
                  s = body +:+ rest /\ plain body = true /\
                  Forall (fun d => Str.mem d body = false) url_delimiters /\
                  (rest = "" \/
                   (String.length body = 8 /\ String.length rest = 2))).
    { intros s Hv.
      destruct (PlainFacts.date_plain s Hv) as (body & rest & -> & Hb & Hl).
      exists body, rest. split; [reflexivity|]. split; [exact Hb|].
      split; [now apply PlainFacts.plain_no_delimiter | exact Hl]. }
    constructor; [now apply Hdate|]. constructor; [now apply Hdate|].
    constructor.
Qed.

Lemma validated_parameters_plain_witness :
  routed "weekly" _tii_eod _tii_eod_cols /\
  _is_valid_date "2024-01-02" = true /\
  _is_valid_date "" = true /\
  let parts :=
    "weekly" :: List.filter (fun c => py_in c _tii_eod_cols)
                  ["adjClose"; "a&b=c"] in
  Forall (fun s => plain s = true) parts /\
  Forall (fun s => Forall (fun d => Str.mem d s = false) url_delimiters)
    parts /\
  Forall (fun s => exists body rest : string,
              s = body +:+ rest /\ plain body = true /\
              Forall (fun d => Str.mem d body = false) url_delimiters /\
              (rest = "" \/
               (String.length body = 8 /\ String.length rest = 2)))
    ["2024-01-02"; ""].
Proof.
  assert (Hr : routed "weekly" _tii_eod _tii_eod_cols)
    by (right; cbn; auto).
  split; [exact Hr|]. split; [reflexivity|]. split; [reflexivity|].
  exact (validated_parameters_plain "weekly" _tii_eod _tii_eod_cols
           ["adjClose"; "a&b=c"] "2024-01-02" "" Hr eq_refl eq_refl).
Defined.

(** The two bytes are real: a date of eight digits followed by [&x]
    passes the validation, and the request carries them. *)
Example hist_date_with_delimiter :
  let run :=
    @get_stock_hist Mock.libraries (Mock.provider []) (OneTicker "AAPL")
      "daily" "20240210&x" "" [] Mock.w1 in
  _is_valid_date "20240210&x" = true /\
  map url (sent (fst run)) = [Mock.daily_url "AAPL" "&startDate=20240210&x"].
Proof. vm_compute. split; reflexivity. Qed.

(** ** The batch of [get_stock_hist] *)

(** X4. A call for an empty sequence of tickers, with a valid frequency
    and valid dates, sends no request and returns the empty table; the
    warnings about dropped columns are printed all the same. *)
Theorem hist_empty_batch `{Libraries} (provider : Request -> string)
  (frequency start end_ : string) (columns : list string)
  (base : string) (names : list string) (w : World) :
  routed frequency base names ->
  _is_valid_date start = true ->
  _is_valid_date end_ = true ->
  get_stock_hist provider (Tickers []) frequency start end_ columns w =
  (mkWorld (_tii_headers w) (sent w)
     (printed w ++
      map warn_column
        (List.filter (fun c => negb (py_in c names)) columns)),
   inr pd_DataFrame).
Proof.
  intros Hr Hs He.
  now rewrite (BatchFacts.hist_run provider (Tickers []) frequency start end_
                 columns base names w Hr Hs He).
Qed.

Lemma hist_empty_batch_witness :
  routed "daily" _tii_eod _tii_eod_cols /\
  _is_valid_date "" = true /\
  @get_stock_hist Mock.libraries (Mock.provider []) (Tickers [])
    "daily" "" "" ["bogus"] Mock.w1 =
  (mkWorld (_tii_headers Mock.w1) (sent Mock.w1)
     (printed Mock.w1 ++
      map warn_column
        (List.filter (fun c => negb (py_in c _tii_eod_cols)) ["bogus"])),
   inr (@pd_DataFrame Mock.libraries)).
Proof.
  assert (Hr : routed "daily" _tii_eod _tii_eod_cols)
    by (right; cbn; auto).
  split; [exact Hr|]. split; [reflexivity|].
  exact (@hist_empty_batch Mock.libraries (Mock.provider []) "daily" "" ""
           ["bogus"] _tii_eod _tii_eod_cols Mock.w1 Hr eq_refl eq_refl).
Defined.

(** X7. When every answer of a batch is a table with a date column or an
    error payload in JSON, [get_stock_hist] sends one request per ticker,
    in input order and twice for a ticker given twice, and prints, after
    the warnings about columns, one warning per ticker whose answer is no
    table, in input order. *)
Theorem hist_all_pass_effects `{Libraries} (provider : Request -> string)
  (tickers : tickers_arg) (frequency start end_ : string)
  (columns : list string) (base : string) (names : list string) (w : World)
  (sh : gmap string string) (tii_request : string) :
  routed frequency base names ->
  _is_valid_date start = true ->
  _is_valid_date end_ = true ->
  sh = session_headers (_tii_headers w) ->
  tii_request =
    _build_pre_query base (List.filter (fun c => py_in c names) columns)
      start end_ frequency ->
  Forall (fun t => passes provider sh tii_request t = true)
    (normalize_tickers tickers) ->
  fst (get_stock_hist provider tickers frequency start end_ columns w) =
  mkWorld (_tii_headers w)
    (sent w ++ map (request_for sh tii_request) (normalize_tickers tickers))
    (printed w ++
     map warn_column (List.filter (fun c => negb (py_in c names)) columns) ++
     flat_map (ticker_warning provider sh tii_request)
       (normalize_tickers tickers)).
Proof.
  intros Hr Hs He -> -> Hpass. fold (kept names columns).
  rewrite (BatchFacts.hist_run provider tickers frequency start end_
             columns base names w Hr Hs He).
  rewrite OpFacts.bind_compose_fst.
  rewrite (LoopFacts.fetch_loop_pass provider _ _ _ Hpass).
  cbn [fst _tii_headers sent printed printing].
  now rewrite <- app_assoc.
Qed.

Lemma hist_all_pass_effects_witness :
  let provider := Mock.provider Mock.unknown_first in
  let sh := @session_headers Mock.libraries (_tii_headers Mock.w1) in
  let tii_request :=
    _build_pre_query _tii_eod
      (List.filter (fun c => py_in c _tii_eod_cols) []) "" "" "daily" in
  routed "daily" _tii_eod _tii_eod_cols /\
  _is_valid_date "" = true /\
  Forall (fun t => @passes Mock.libraries provider sh tii_request t = true)
    (normalize_tickers (Tickers ["AAPL"; "MSFT"])) /\
  fst (@get_stock_hist Mock.libraries provider (Tickers ["AAPL"; "MSFT"])
         "daily" "" "" [] Mock.w1) =
  mkWorld (_tii_headers Mock.w1)
    (sent Mock.w1 ++
     map (request_for sh tii_request)
       (normalize_tickers (Tickers ["AAPL"; "MSFT"])))
    (printed Mock.w1 ++
     map warn_column
       (List.filter (fun c => negb (py_in c _tii_eod_cols)) []) ++
     flat_map (@ticker_warning Mock.libraries provider sh tii_request)
       (normalize_tickers (Tickers ["AAPL"; "MSFT"]))).
Proof.
  cbv zeta.
  assert (Hr : routed "daily" _tii_eod _tii_eod_cols)
    by (right; cbn; auto).
  assert (Hp : Forall
                 (fun t =>
                    @passes Mock.libraries
                      (Mock.provider Mock.unknown_first)
                      (@session_headers Mock.libraries (_tii_headers Mock.w1))
                      (_build_pre_query _tii_eod
                         (List.filter (fun c => py_in c _tii_eod_cols) [])
                         "" "" "daily") t = true)
                 (normalize_tickers (Tickers ["AAPL"; "MSFT"]))).
  { cbn [normalize_tickers].
    constructor; [vm_compute; reflexivity|].
    constructor; [vm_compute; reflexivity|].
    constructor. }
  split; [exact Hr|]. split; [reflexivity|]. split; [exact Hp|].
  exact (@hist_all_pass_effects Mock.libraries
           (Mock.provider Mock.unknown_first) (Tickers ["AAPL"; "MSFT"])
           "daily" "" "" [] _tii_eod _tii_eod_cols Mock.w1 _ _
           Hr eq_refl eq_refl eq_refl eq_refl Hp).
Defined.

(** X8. For such a batch the survivors and their tables go in step, and
    the result is read off their number: the empty table for none, the
    table itself for one, whatever columns were asked for; for more, the
    tables side by side under the surviving tickers as labels when one
    column was asked for, and stacked under the surviving tickers as keys
    otherwise. A failure of the concatenation or of the labelling leaves
    the call as [ValueError]. *)
Theorem hist_result_by_survivors `{Libraries} (provider : Request -> string)
  (tickers : tickers_arg) (frequency start end_ : string)
  (columns : list string) (base : string) (names : list string) (w : World)
  (sh : gmap string string) (tii_request : string) :
  routed frequency base names ->
  _is_valid_date start = true ->
  _is_valid_date end_ = true ->
  sh = session_headers (_tii_headers w) ->
  tii_request =
    _build_pre_query base (List.filter (fun c => py_in c names) columns)
      start end_ frequency ->
  Forall (fun t => passes provider sh tii_request t = true)
    (normalize_tickers tickers) ->
  let valid_tickers :=
    survivors provider sh tii_request (normalize_tickers tickers) in
  let data := tables provider sh tii_request (normalize_tickers tickers) in
  Forall2 (fun t df => table provider sh tii_request t = Some df)
    valid_tickers data /\
  snd (get_stock_hist provider tickers frequency start end_ columns w) =
  match data with
  | [] => inr pd_DataFrame
  | [df] => inr df
  | _ :: _ :: _ =>
      if length columns =? 1 then
        match pd_concat_axis1 data ["ticker"] with
        | Some df =>
            match df_set_columns df valid_tickers with
            | Some df' => inr df'
            | None => inl (ValueError "columns")
            end
        | None => inl (ValueError "concat")
        end
      else
        match pd_concat_keys data valid_tickers ["ticker"] with
        | Some df => inr df
        | None => inl (ValueError "concat")
        end
  end.
Proof.
  intros Hr Hs He -> -> Hpass. cbv zeta. fold (kept names columns) in *.
  split; [now apply BatchFacts.survivors_tables|].
  destruct (ComposeFacts.hist_survivors provider tickers frequency start end_
              columns base names w Hr Hs He Hpass) as (_ & _ & ->).
  apply ComposeFacts.compose_by_cardinality.
Qed.

Lemma hist_result_by_survivors_witness :
  let provider := Mock.provider Mock.unknown_first in
  let sh := @session_headers Mock.libraries (_tii_headers Mock.w1) in
  let tii_request :=
    _build_pre_query _tii_eod
      (List.filter (fun c => py_in c _tii_eod_cols) ["bogus"])
      "" "" "daily" in
  routed "daily" _tii_eod _tii_eod_cols /\
  _is_valid_date "" = true /\
  Forall (fun t => @passes Mock.libraries provider sh tii_request t = true)
    (normalize_tickers (Tickers ["AAPL"; "MSFT"])) /\
  snd (@get_stock_hist Mock.libraries provider (Tickers ["AAPL"; "MSFT"])
         "daily" "" "" ["bogus"] Mock.w1) =
  inr (Mock.Indexed (Mock.Parsed ["date"; "open"; "close"] Mock.rows_body)
         "date").
Proof.
  cbv zeta.
  assert (Hr : routed "daily" _tii_eod _tii_eod_cols)
    by (right; cbn; auto).
  assert (Hp : Forall
                 (fun t =>
                    @passes Mock.libraries
                      (Mock.provider Mock.unknown_first)
                      (@session_headers Mock.libraries (_tii_headers Mock.w1))
                      (_build_pre_query _tii_eod
                         (List.filter (fun c => py_in c _tii_eod_cols)
                            ["bogus"])
                         "" "" "daily") t = true)
                 (normalize_tickers (Tickers ["AAPL"; "MSFT"]))).
  { cbn [normalize_tickers].
    constructor; [vm_compute; reflexivity|].
    constructor; [vm_compute; reflexivity|].
    constructor. }
  split; [exact Hr|]. split; [reflexivity|]. split; [exact Hp|].
  destruct (@hist_result_by_survivors Mock.libraries
              (Mock.provider Mock.unknown_first) (Tickers ["AAPL"; "MSFT"])
              "daily" "" "" ["bogus"] _tii_eod _tii_eod_cols Mock.w1 _ _
              Hr eq_refl eq_refl eq_refl eq_refl Hp) as [_ Hres].
  exact Hres.
Defined.

(** X6. At the first ticker whose answer does not let the loop go on
    (it parses into a table that has no date column to index, or it is
    no table and no JSON either), the call ends: with [KeyError] for the
    missing date column when the answer parsed into a table, with the
    decoding error of the warning otherwise. The tickers up to that one
    have been requested, the later ones have not, and the warnings about
    the earlier tickers have been printed. *)
Theorem hist_first_failure `{Libraries} (provider : Request -> string)
  (tickers : tickers_arg) (frequency start end_ : string)
  (columns : list string) (base : string) (names : list string) (w : World)
  (sh : gmap string string) (tii_request : string)
  (before after : list string) (ticker : string) :
  routed frequency base names ->
  _is_valid_date start = true ->
  _is_valid_date end_ = true ->
  sh = session_headers (_tii_headers w) ->
  tii_request =
    _build_pre_query base (List.filter (fun c => py_in c names) columns)
      start end_ frequency ->
  normalize_tickers tickers = before ++ ticker :: after ->
  Forall (fun t => passes provider sh tii_request t = true) before ->
  passes provider sh tii_request ticker = false ->
  get_stock_hist provider tickers frequency start end_ columns w =
  (mkWorld (_tii_headers w)
     (sent w ++ map (request_for sh tii_request) (before ++ [ticker]))
     (printed w ++
      map warn_column (List.filter (fun c => negb (py_in c names)) columns) ++
      flat_map (ticker_warning provider sh tii_request) before),
   inl (if parses provider sh tii_request ticker
        then KeyError "date" else JSONDecodeError)).
Proof.
  intros Hr Hs He -> -> Hts Hb Ht. fold (kept names columns) in *.
  rewrite (BatchFacts.hist_run provider tickers frequency start end_
             columns base names w Hr Hs He), Hts.
  rewrite (Run.bind_inl _ _ _ _ _
             (BatchFacts.fetch_loop_fail provider _ _ before after ticker
                Hb Ht [] [] _)).
  cbn [_tii_headers sent printed printing].
  now rewrite <- app_assoc.
Qed.

Lemma hist_first_failure_witness :
  let provider := Mock.provider Mock.empty_array_second in
  let sh := @session_headers Mock.libraries (_tii_headers Mock.w1) in
  let tii_request :=
    _build_pre_query _tii_eod
      (List.filter (fun c => py_in c _tii_eod_cols) []) "" "" "daily" in
  routed "daily" _tii_eod _tii_eod_cols /\
  _is_valid_date "" = true /\
  normalize_tickers (Tickers ["AAPL"; "MSFT"; "GOOG"]) =
    ["AAPL"] ++ "MSFT" :: ["GOOG"] /\
  Forall (fun t => @passes Mock.libraries provider sh tii_request t = true)
    ["AAPL"] /\
  @passes Mock.libraries provider sh tii_request "MSFT" = false /\
  @get_stock_hist Mock.libraries provider (Tickers ["AAPL"; "MSFT"; "GOOG"])
    "daily" "" "" [] Mock.w1 =
  (mkWorld (_tii_headers Mock.w1)
     (sent Mock.w1 ++
      map (request_for sh tii_request) (["AAPL"] ++ ["MSFT"]))
     (printed Mock.w1 ++
      map warn_column
        (List.filter (fun c => negb (py_in c _tii_eod_cols)) []) ++
      flat_map (@ticker_warning Mock.libraries provider sh tii_request)
        ["AAPL"]),
   inl (if @parses Mock.libraries provider sh tii_request "MSFT"
        then KeyError "date" else JSONDecodeError)).
Proof.
  cbv zeta.
  assert (Hr : routed "daily" _tii_eod _tii_eod_cols)
    by (right; cbn; auto).
  assert (Hb : Forall
                 (fun t =>
                    @passes Mock.libraries
                      (Mock.provider Mock.empty_array_second)
                      (@session_headers Mock.libraries (_tii_headers Mock.w1))
                      (_build_pre_query _tii_eod
                         (List.filter (fun c => py_in c _tii_eod_cols) [])
                         "" "" "daily") t = true)
                 ["AAPL"]).
  { constructor; [vm_compute; reflexivity|]. constructor. }
  assert (Ht : @passes Mock.libraries
                 (Mock.provider Mock.empty_array_second)
                 (@session_headers Mock.libraries (_tii_headers Mock.w1))
                 (_build_pre_query _tii_eod
                    (List.filter (fun c => py_in c _tii_eod_cols) [])
                    "" "" "daily") "MSFT" = false)
    by (vm_compute; reflexivity).
  split; [exact Hr|]. split; [reflexivity|]. split; [reflexivity|].
  split; [exact Hb|]. split; [exact Ht|].
  exact (@hist_first_failure Mock.libraries
           (Mock.provider Mock.empty_array_second)
           (Tickers ["AAPL"; "MSFT"; "GOOG"]) "daily" "" "" []
           _tii_eod _tii_eod_cols Mock.w1 _ _ ["AAPL"] ["GOOG"] "MSFT"
           Hr eq_refl eq_refl eq_refl eq_refl eq_refl Hb Ht).
Defined.

(** The second answer of that batch is an empty array: it parses, has no
    date column, and the call raises [KeyError] after two requests. *)
Example hist_empty_array_raises :
  let run :=
    @get_stock_hist Mock.libraries (Mock.provider Mock.empty_array_second)
      (Tickers ["AAPL"; "MSFT"; "GOOG"]) "daily" "" "" [] Mock.w1 in
  map url (sent (fst run)) =
    [Mock.daily_url "AAPL" ""; Mock.daily_url "MSFT" ""] /\
  snd run = inl (KeyError "date").
Proof. vm_compute. repeat split; reflexivity. Qed.

(** X5. A call that passed the two gates is cut short by the loop, with
    the [JSONDecodeError] of [r.json()] or the [KeyError] of [set_index],
    exactly when the answer for some ticker of the batch stops the loop:
    it parses into a table on which [set_index] fails for want of a date
    column, or it parses into no table and does not decode as JSON
    either. An answer that is JSON but no table (an error payload) does
    not stop the loop; an answer that is JSON and a table without a date
    column (an empty array) does. *)
Theorem hist_aborts_iff `{Libraries} (provider : Request -> string)
  (tickers : tickers_arg) (frequency start end_ : string)
  (columns : list string) (base : string) (names : list string) (w : World)
  (sh : gmap string string) (tii_request : string) :
  routed frequency base names ->
  _is_valid_date start = true ->
  _is_valid_date end_ = true ->
  sh = session_headers (_tii_headers w) ->
  tii_request =
    _build_pre_query base (List.filter (fun c => py_in c names) columns)
      start end_ frequency ->
  (snd (get_stock_hist provider tickers frequency start end_ columns w)
   = inl JSONDecodeError \/
   snd (get_stock_hist provider tickers frequency start end_ columns w)
   = inl (KeyError "date"))
  <->
  Exists (fun t =>
            match pd_read_json (answer provider sh tii_request t) with
            | Some px => df_set_index px "date" = None
            | None => response_json (answer provider sh tii_request t) = None
            end)
    (normalize_tickers tickers).
Proof.
  intros Hr Hs He -> ->. fold (kept names columns).
  set (sh := session_headers (_tii_headers w)).
  set (req := _build_pre_query base (kept names columns) start end_
                frequency).
  assert (Hstop : forall t,
             passes provider sh req t = false <->
             match pd_read_json (answer provider sh req t) with
             | Some px => df_set_index px "date" = None
             | None => response_json (answer provider sh req t) = None
             end).
  { intros t. unfold passes.
    destruct (pd_read_json _) as [px|].
    - destruct (df_set_index px "date"); split; congruence.
    - destruct (response_json _); split; congruence. }
  assert (Hex : Exists (fun t =>
                          match pd_read_json (answer provider sh req t) with
                          | Some px => df_set_index px "date" = None
                          | None =>
                              response_json (answer provider sh req t) = None
                          end)
                  (normalize_tickers tickers) <->
                Exists (fun t => passes provider sh req t = false)
                  (normalize_tickers tickers)).
  { rewrite !List.Exists_exists.
    split; intros (t & Hin & Ht); exists t; (split; [exact Hin|]);
      now apply Hstop. }
  rewrite Hex. clear Hex Hstop.
  destruct (BatchFacts.first_failure (passes provider sh req)
              (normalize_tickers tickers))
    as [Hall|(before & t & after & Hts & Hb & Ht)].
  - destruct (ComposeFacts.hist_survivors provider tickers frequency start
                end_ columns base names w Hr Hs He Hall) as (_ & _ & ->).
    rewrite ComposeFacts.compose_by_cardinality.
    split.
    + intros Hx. exfalso.
      repeat match goal with
             | Hy : context [match ?x with _ => _ end] |- _ => destruct x
             end;
        destruct Hx as [Hx|Hx]; discriminate Hx.
    + intros Hex. exfalso. apply List.Exists_exists in Hex as (x & Hin & Hx).
      rewrite List.Forall_forall in Hall. specialize (Hall x Hin).
      congruence.
  - rewrite (BatchFacts.hist_run provider tickers frequency start end_
               columns base names w Hr Hs He).
    fold sh req. rewrite Hts.
    rewrite (Run.bind_inl _ _ _ _ _
               (BatchFacts.fetch_loop_fail provider sh req before after t
                  Hb Ht [] [] _)).
    cbn [snd]. split.
    + intros _. apply Exists_app. right. now constructor.
    + intros _. destruct (parses provider sh req t); auto.
Qed.

Lemma hist_aborts_iff_witness :
  let provider := Mock.provider Mock.gateway_error_first in
  let sh := @session_headers Mock.libraries (_tii_headers Mock.w1) in
  let tii_request :=
    _build_pre_query _tii_eod
      (List.filter (fun c => py_in c _tii_eod_cols) []) "" "" "daily" in
  routed "daily" _tii_eod _tii_eod_cols /\
  _is_valid_date "" = true /\
  ((snd (@get_stock_hist Mock.libraries provider (Tickers ["AAPL"; "MSFT"])
           "daily" "" "" [] Mock.w1) = inl JSONDecodeError \/
    snd (@get_stock_hist Mock.libraries provider (Tickers ["AAPL"; "MSFT"])
           "daily" "" "" [] Mock.w1) = inl (KeyError "date"))
   <->
   Exists (fun t =>
             match
               @pd_read_json Mock.libraries
                 (answer provider sh tii_request t)
             with
             | Some px => @df_set_index Mock.libraries px "date" = None
             | None =>
                 @response_json Mock.libraries
                   (answer provider sh tii_request t) = None
             end)
     (normalize_tickers (Tickers ["AAPL"; "MSFT"]))).
Proof.
  cbv zeta.
  assert (Hr : routed "daily" _tii_eod _tii_eod_cols)
    by (right; cbn; auto).
  split; [exact Hr|]. split; [reflexivity|].
  exact (@hist_aborts_iff Mock.libraries
           (Mock.provider Mock.gateway_error_first)
           (Tickers ["AAPL"; "MSFT"]) "daily" "" "" []
           _tii_eod _tii_eod_cols Mock.w1 _ _
           Hr eq_refl eq_refl eq_refl eq_refl).
Defined.
